(** * heuristic_date: a shallow embedding of [interpret] and its properties

    The development follows [heuristic_date.py]: the Python values the
    program manipulates (strings of code points, integers, lists), the
    parts of the Python runtime it calls ([str.isdigit], [int], [re] with
    IGNORECASE, the [%0Nd] format), then the four stages of [interpret]
    (splitting into runs, classifying the numbers, looking for month names,
    producing the result) and finally the properties. *)

From Stdlib Require Import String Ascii.
From Stdlib Require Import ZArith NArith List Bool Lia.
From Stdlib Require Import DecimalN.
Import ListNotations.
Local Open Scope Z_scope.

(** ** Strings, exceptions and results *)

(** A Python [str] is a sequence of Unicode code points. *)
Definition char := N.
Definition pystr := list char.

(** ASCII literals of the source as code-point strings. *)
Fixpoint str (s : string) : pystr :=
  match s with
  | EmptyString => []
  | String a r => N_of_ascii a :: str r
  end.

(** U+2026 HORIZONTAL ELLIPSIS, the marker the program puts in front of its tags. *)
Definition ELLIPSIS : char := 8230%N.

Inductive exn := IndexError | ValueError | TypeError.

(** The outcome of running a piece of the program: a value, a raised
    exception, or [Fuel] when the bounded model of a [while] loop was not
    given enough iterations. *)
Inductive result (A : Type) : Type :=
| Ok (a : A)
| Raise (e : exn)
| Fuel.
Arguments Ok {A} a.
Arguments Raise {A} e.
Arguments Fuel {A}.

Definition bind {A B} (r : result A) (k : A -> result B) : result B :=
  match r with
  | Ok a => k a
  | Raise e => Raise e
  | Fuel => Fuel
  end.

Notation "x <- r ;; k" := (bind r (fun x => k))
  (at level 61, r at next level, right associativity).
Notation "' p <- r ;; k" := (bind r (fun x => let p := x in k))
  (at level 61, p pattern, r at next level, right associativity).

(** Python's short-circuit [and] on conditions that may raise: the right
    operand is evaluated only when the left one is true. *)
Definition andr (a b : result bool) : result bool :=
  x <- a ;; if x then b else Ok false.
Infix "&&&" := andr (at level 40, left associativity).

(** A value that is an [int] or a [str] (what [int()] and the [is_*]
    predicates of the program receive). *)
Inductive pyval :=
| VInt (z : Z)
| VStr (s : pystr).

(** ** Sequence operations *)

(** [s[-1]]: raises IndexError on an empty sequence. *)
Fixpoint py_last {A} (s : list A) : result A :=
  match s with
  | [] => Raise IndexError
  | [a] => Ok a
  | _ :: r => py_last r
  end.

(** [s[n]] for a non-negative index [n]. *)
Definition py_index {A} (s : list A) (n : nat) : result A :=
  match nth_error s n with
  | Some a => Ok a
  | None => Raise IndexError
  end.

(** [s[n] = v] for a non-negative index [n]. *)
Definition py_setitem {A} (s : list A) (n : nat) (v : A) : result (list A) :=
  if (n <? length s)%nat then Ok (firstn n s ++ v :: skipn (S n) s)
  else Raise IndexError.

(** [s.pop(n)]: the removed element and the remaining list. *)
Definition py_pop {A} (s : list A) (n : nat) : result (A * list A) :=
  match nth_error s n with
  | Some a => Ok (a, firstn n s ++ skipn (S n) s)
  | None => Raise IndexError
  end.

(** [s.insert(n, v)]: never raises; an index past the end appends. *)
Definition py_insert {A} (s : list A) (n : nat) (v : A) : list A :=
  firstn n s ++ v :: skipn n s.

(** [s[i:j]] for [0 <= i <= j]; slices never raise. *)
Definition slice {A} (i j : nat) (s : list A) : list A :=
  firstn (j - i) (skipn i s).

(** [x.count(c)] for a one-character [c]. *)
Definition count (c : char) (x : pystr) : nat :=
  length (filter (N.eqb c) x).

(** [list(enumerate(l))]: a snapshot of the list with its indices. *)
Definition enumerate {A} (l : list A) : list (nat * A) :=
  combine (seq 0 (length l)) l.

(** ** The Python runtime: digits and [int] *)

Module Unicode.

(** The Unicode character database of the interpreter (Unicode 14.0).
    [DECIMAL_BLOCKS] lists the first code point of every run of ten
    characters with Numeric_Type=Decimal (values 0 to 9 in order);
    [DIGIT_RANGES] the inclusive ranges of the characters with
    Numeric_Type=Digit, such as superscript and circled digits. *)
Definition DECIMAL_BLOCKS : list N :=
  [48; 1632; 1776; 1984; 2406; 2534; 2662; 2790; 2918; 3046; 3174; 3302;
   3430; 3558; 3664; 3792; 3872; 4160; 4240; 6112; 6160; 6470; 6608; 6784;
   6800; 6992; 7088; 7232; 7248; 42528; 43216; 43264; 43472; 43504; 43600;
   44016; 65296; 66720; 68912; 69734; 69872; 69942; 70096; 70384; 70736;
   70864; 71248; 71360; 71472; 71904; 72016; 72784; 73040; 73120; 92768;
   92864; 93008; 120782; 120792; 120802; 120812; 120822; 123200; 123632;
   125264; 130032]%N.

Definition DIGIT_RANGES : list (N * N) :=
  [(178, 179); (185, 185); (4969, 4977); (6618, 6618); (8304, 8304);
   (8308, 8313); (8320, 8329); (9312, 9320); (9332, 9340); (9352, 9360);
   (9450, 9450); (9461, 9469); (9471, 9471); (10102, 10110);
   (10112, 10120); (10122, 10130); (68160, 68163); (69216, 69224);
   (69714, 69722); (127232, 127242)]%N.

Fixpoint decimal_in (blocks : list N) (c : char) : option Z :=
  match blocks with
  | [] => None
  | b :: bs =>
      if ((b <=? c) && (c <? b + 10))%N then Some (Z.of_N (c - b))
      else decimal_in bs c
  end.

(** The decimal value of a character, when it has one. *)
Definition decimal (c : char) : option Z := decimal_in DECIMAL_BLOCKS c.

Definition in_range (c : char) (r : N * N) : bool :=
  ((fst r <=? c) && (c <=? snd r))%N.

End Unicode.

(** [c.isdecimal()] for a character. *)
Definition isdecimal_char (c : char) : bool :=
  match Unicode.decimal c with Some _ => true | None => false end.

(** [c.isdigit()] for a character: Numeric_Type is Decimal or Digit. *)
Definition isdigit_char (c : char) : bool :=
  isdecimal_char c || existsb (Unicode.in_range c) Unicode.DIGIT_RANGES.

(** [x.isdigit()]: at least one character, all of them digits. *)
Definition isdigit (x : pystr) : bool :=
  match x with
  | [] => false
  | _ => forallb isdigit_char x
  end.

(** The value of a string of decimal characters read in base ten, from
    an accumulator; ValueError at the first character without a decimal
    value. *)
Fixpoint int_digits (acc : Z) (x : pystr) : result Z :=
  match x with
  | [] => Ok acc
  | c :: r =>
      match Unicode.decimal c with
      | Some d => int_digits (10 * acc + d) r
      | None => Raise ValueError
      end
  end.

(** The interpreter's limit on the number of digits of a string that
    [int] converts ([sys.int_info.default_max_str_digits]); the program
    does not change it. *)
Definition INT_MAX_STR_DIGITS : Z := 4300.

(** [int(x)] for a [str] of digit characters, the only strings the
    program converts: the empty string, a string of more than
    [INT_MAX_STR_DIGITS] digits and a string with a character that has no
    decimal value raise ValueError.  (Signs, blanks and underscores, which
    [int] also reads, are not digit characters and never reach it here.) *)
Definition int_str (x : pystr) : result Z :=
  match x with
  | [] => Raise ValueError
  | _ =>
      if INT_MAX_STR_DIGITS <? Z.of_nat (length x) then Raise ValueError
      else int_digits 0 x
  end.

(** [int(v)]: the identity on an [int]. *)
Definition int_ (v : pyval) : result Z :=
  match v with
  | VInt z => Ok z
  | VStr s => int_str s
  end.

(** ** The Python runtime: the [%0Nd] format *)

Fixpoint uint_chars (u : Decimal.uint) : pystr :=
  match u with
  | Decimal.Nil => []
  | Decimal.D0 r => 48%N :: uint_chars r
  | Decimal.D1 r => 49%N :: uint_chars r
  | Decimal.D2 r => 50%N :: uint_chars r
  | Decimal.D3 r => 51%N :: uint_chars r
  | Decimal.D4 r => 52%N :: uint_chars r
  | Decimal.D5 r => 53%N :: uint_chars r
  | Decimal.D6 r => 54%N :: uint_chars r
  | Decimal.D7 r => 55%N :: uint_chars r
  | Decimal.D8 r => 56%N :: uint_chars r
  | Decimal.D9 r => 57%N :: uint_chars r
  end.

(** The decimal numeral of a natural number, without padding. *)
Definition decimal_numeral (n : N) : pystr := uint_chars (N.to_uint n).

(** ["%0Wd" % z]: the numeral padded with zeros on the left up to width
    [w]; a minus sign counts in the width. *)
Definition fmt_0d (w : nat) (z : Z) : pystr :=
  let ds := decimal_numeral (Z.abs_N z) in
  if z <? 0
  then 45%N :: repeat 48%N (w - 1 - length ds) ++ ds
  else repeat 48%N (w - length ds) ++ ds.

Definition DASH : char := 45%N.
Definition DOT : char := 46%N.

(** ["%04d" % year], ["%04d-%02d" % (year, month)] and
    ["%04d-%02d-%02d" % (year, month, day)]. *)
Definition fmt_y (y : Z) : pystr := fmt_0d 4 y.
Definition fmt_ym (y m : Z) : pystr := fmt_0d 4 y ++ DASH :: fmt_0d 2 m.
Definition fmt_ymd (y m d : Z) : pystr :=
  fmt_0d 4 y ++ DASH :: fmt_0d 2 m ++ DASH :: fmt_0d 2 d.

(** ** The Python runtime: [re] with IGNORECASE *)

(** The patterns of the program are alternations of words in lower-case
    ASCII letters.  Under [re.IGNORECASE] a pattern letter [p] matches the
    text character [c] when [c] is [p], its upper-case ASCII letter, or one
    of the characters that case-fold to it: U+0130 and U+0131 for [i],
    U+212A (KELVIN SIGN) for [k], U+017F (LONG S) for [s]. *)
Definition ignorecase_eq (p c : char) : bool :=
  ((c =? p) || ((65 <=? c) && (c <=? 90) && (c + 32 =? p))
   || ((p =? 105) && ((c =? 304) || (c =? 305)))
   || ((p =? 107) && (c =? 8490))
   || ((p =? 115) && (c =? 383)))%N.

(** Does the word [w] match at the beginning of the text [s]? *)
Fixpoint word_at (w s : pystr) : bool :=
  match w, s with
  | [], _ => true
  | _ :: _, [] => false
  | p :: w', c :: s' => ignorecase_eq p c && word_at w' s'
  end.

(** An alternation [w1|w2|...]: the alternatives are tried in order. *)
Definition regex := list pystr.

(** The length matched at the beginning of [s], if an alternative matches. *)
Fixpoint match_here (alts : regex) (s : pystr) : option nat :=
  match alts with
  | [] => None
  | w :: ws => if word_at w s then Some (length w) else match_here ws s
  end.

(** [regex.search(s)], as the [span()] of the match: the leftmost position
    where an alternative matches, scanning the text from offset [pos]. *)
Fixpoint search_from (alts : regex) (pos : nat) (s : pystr) : option (nat * nat) :=
  match match_here alts s with
  | Some n => Some (pos, (pos + n)%nat)
  | None =>
      match s with
      | [] => None
      | _ :: s' => search_from alts (S pos) s'
      end
  end.

Definition re_search (alts : regex) (s : pystr) : option (nat * nat) :=
  search_from alts 0 s.

(** [a < b] on spans: tuples compare lexicographically. *)
Definition span_lt (a b : nat * nat) : bool :=
  ((fst a <? fst b) || ((fst a =? fst b) && (snd a <? snd b)))%nat.

(** [a == b] on strings. *)
Fixpoint str_eqb (a b : pystr) : bool :=
  match a, b with
  | [], [] => true
  | c :: a', d :: b' => (c =? d)%N && str_eqb a' b'
  | _, _ => false
  end.

(** ** The program *)

Definition YEAR_LOW : Z := 1900.
Definition Y2K_LOW : Z := 32.
Definition Y2K_HIGH : Z := 99.

(** A tag: the marker followed by ASCII text, as in ["…y"]. *)
Definition tag (s : string) : pystr := ELLIPSIS :: str s.

Definition MONTHS : list (regex * pystr) :=
  [ ([str "january"; str "januar"; str "jan"], tag "m1");
    ([str "february"; str "februar"; str "feb"], tag "m2");
    ([str "march"; str "marts"; str "mar"], tag "m3");
    ([str "april"; str "apr"], tag "m4");
    ([str "maj"; str "may"], tag "m5");
    ([str "june"; str "juni"; str "jun"], tag "m6");
    ([str "july"; str "juli"; str "jul"], tag "m7");
    ([str "august"; str "aug"], tag "m8");
    ([str "september"; str "sept"; str "sep"], tag "m9");
    ([str "october"; str "oct"; str "oktober"; str "okt"], tag "m10");
    ([str "november"; str "nov"], tag "m11");
    ([str "december"; str "dec"], tag "m12") ].

(** The local variables of [interpret]: the list of runs [l] and the
    partial date.  [month] holds an [int] when a numeric rule sets it and a
    [str] (the digits of the month tag) when a month name does. *)
Record state := State {
  l : list pystr;
  year : option Z;
  month : option pyval;
  day : option Z;
  nbrs : list Z
}.

(** How the body of a [for] loop ends: it falls through to the next
    element, or it executes [break]. *)
Inductive flow (A : Type) : Type :=
| Continue (a : A)
| Break (a : A).
Arguments Continue {A} a.
Arguments Break {A} a.

(** *** Split into runs of numbers and non-numbers *)

(** One iteration of the splitting loop, for the character [i]. *)
Definition split_step (runs : list pystr) (i : char) : result (list pystr) :=
  last_run <- py_last runs ;;
  c <- py_last last_run ;;
  if xorb (isdigit_char i) (isdigit_char c)
  then Ok (runs ++ [[i]])
  else Ok (removelast runs ++ [last_run ++ [i]]).

Fixpoint split_loop (runs : list pystr) (rest : pystr) : result (list pystr) :=
  match rest with
  | [] => Ok runs
  | i :: rest' => runs' <- split_step runs i ;; split_loop runs' rest'
  end.

(** [l = [instr[0]]] and the loop over [instr[1:]]. *)
Definition tokenize (instr : pystr) : result (list pystr) :=
  match instr with
  | [] => Raise IndexError
  | c :: rest => split_loop [[c]] rest
  end.

Section Interpret.

(** [YEAR_HIGH] is the calendar year read from the clock when the module
    is loaded. *)
Variable YEAR_HIGH : Z.

Definition is_year (x : pyval) : result bool :=
  v <- int_ x ;; Ok ((YEAR_LOW <=? v) && (v <=? YEAR_HIGH)).

Definition is_y2k (x : pyval) : result bool :=
  v <- int_ x ;; Ok ((Y2K_LOW <=? v) && (v <=? Y2K_HIGH)).

Definition is_month (x : pyval) : result bool :=
  v <- int_ x ;; Ok ((1 <=? v) && (v <=? 12)).

Definition is_day (x : pyval) : result bool :=
  v <- int_ x ;; Ok ((1 <=? v) && (v <=? 31)).

(** *** Classify the numbers we found *)

Definition is_none {A} (o : option A) : bool :=
  match o with None => true | Some _ => false end.

(** The body of the classification loop for the element [x] at index [n]. *)
Definition classify_one (st : state) (n : nat) (x : pystr) : result (flow state) :=
  if negb (isdigit x) then Ok (Continue st) else
  v <- int_str x ;;
  c1 <- Ok (length x =? 8)%nat &&& is_year (VStr (firstn 4 x))
        &&& is_month (VStr (slice 4 6 x)) &&& is_day (VStr (skipn 6 x)) ;;
  if c1 then
    y <- int_str (firstn 4 x) ;;
    m <- int_str (slice 4 6 x) ;;
    d <- int_str (skipn 6 x) ;;
    Ok (Break (State (l st) (Some y) (Some (VInt m)) (Some d) (nbrs st)))
  else
  c2 <- Ok (length x =? 8)%nat &&& is_day (VStr (firstn 2 x))
        &&& is_month (VStr (slice 2 4 x)) &&& is_year (VStr (skipn 4 x)) ;;
  if c2 then
    y <- int_str (skipn 4 x) ;;
    m <- int_str (slice 2 4 x) ;;
    d <- int_str (firstn 2 x) ;;
    Ok (Break (State (l st) (Some y) (Some (VInt m)) (Some d) (nbrs st)))
  else
  c3 <- Ok (length x =? 6)%nat &&& is_year (VStr (firstn 4 x))
        &&& is_month (VStr (skipn 4 x)) ;;
  if c3 then
    y <- int_str (firstn 4 x) ;;
    m <- int_str (slice 4 6 x) ;;
    Ok (Break (State (l st) (Some y) (Some (VInt m)) None (nbrs st)))
  else
  c4 <- Ok (length x =? 6)%nat &&& is_y2k (VStr (firstn 2 x))
        &&& is_month (VStr (slice 2 4 x)) &&& is_day (VStr (skipn 4 x)) ;;
  if c4 then
    y <- int_str (firstn 2 x) ;;
    m <- int_str (slice 2 4 x) ;;
    d <- int_str (skipn 4 x) ;;
    Ok (Break (State (l st) (Some (y + 1900)) (Some (VInt m)) (Some d) (nbrs st)))
  else
  c5 <- Ok (length x =? 6)%nat &&& is_day (VStr (firstn 2 x))
        &&& is_month (VStr (slice 2 4 x)) &&& is_y2k (VStr (skipn 4 x)) ;;
  if c5 then
    y <- int_str (skipn 4 x) ;;
    m <- int_str (slice 2 4 x) ;;
    d <- int_str (firstn 2 x) ;;
    Ok (Break (State (l st) (Some (y + 1900)) (Some (VInt m)) (Some d) (nbrs st)))
  else
  c6 <- Ok (is_none (year st)) &&& Ok (length x =? 4)%nat
        &&& is_y2k (VStr (firstn 2 x)) &&& is_month (VStr (skipn 2 x)) ;;
  if c6 then
    y <- int_str (firstn 2 x) ;;
    m <- int_str (skipn 2 x) ;;
    Ok (Break (State (l st) (Some y) (Some (VInt m)) None (nbrs st)))
  else
  c7 <- Ok (is_none (year st)) &&& Ok (length x =? 4)%nat &&& is_year (VInt v) ;;
  if c7 then
    l' <- py_setitem (l st) n (tag "y" ++ x) ;;
    Ok (Continue (State l' (Some v) (month st) (day st) (nbrs st)))
  else
  c8 <- Ok (is_none (year st)) &&& Ok (length x =? 2)%nat &&& is_y2k (VInt v) ;;
  if c8 then
    l' <- py_setitem (l st) n (tag "y19" ++ x) ;;
    Ok (Continue (State l' (Some (1900 + v)) (month st) (day st) (nbrs st)))
  else
  c9 <- Ok (is_none (day st)) &&& Ok (length x =? 2)%nat &&& Ok (12 <? v)
        &&& is_day (VInt v) ;;
  if c9 then
    l' <- py_setitem (l st) n (tag "d" ++ x) ;;
    Ok (Continue (State l' (year st) (month st) (Some v) (nbrs st)))
  else
  if (length x <=? 2)%nat && negb (v =? 0) then
    l' <- py_setitem (l st) n (tag "n" ++ x) ;;
    Ok (Continue (State l' (year st) (month st) (day st) (nbrs st ++ [v])))
  else
    Ok (Continue st).

(** The [for] loop over the snapshot [list(enumerate(l))]. *)
Fixpoint classify_loop (st : state) (items : list (nat * pystr)) : result state :=
  match items with
  | [] => Ok st
  | (n, x) :: rest =>
      r <- classify_one st n x ;;
      match r with
      | Break st' => Ok st'
      | Continue st' => classify_loop st' rest
      end
  end.

Definition classify (runs : list pystr) : result state :=
  classify_loop (State runs None None None []) (enumerate runs).

(** *** Look for month names *)

(** The inner [for] loop over [MONTHS] for one token: the span of the
    selected match and its month tag.  A later entry replaces the current
    one when its span is smaller. *)
Fixpoint first_match_in (months : list (regex * pystr)) (tok : pystr)
    (first : option ((nat * nat) * pystr)) : option ((nat * nat) * pystr) :=
  match months with
  | [] => first
  | (regex, mon_id) :: rest =>
      match re_search regex tok with
      | None => first_match_in rest tok first
      | Some sp =>
          match first with
          | None => first_match_in rest tok (Some (sp, mon_id))
          | Some (sp0, _) =>
              if span_lt sp sp0
              then first_match_in rest tok (Some (sp, mon_id))
              else first_match_in rest tok first
          end
      end
  end.

Definition first_match (tok : pystr) : option ((nat * nat) * pystr) :=
  first_match_in MONTHS tok None.

(** The body of the [while] loop at index [n]: the new state and index. *)
Definition month_body (st : state) (n : nat) : result (state * nat) :=
  tok <- py_index (l st) n ;;
  match first_match tok with
  | None => Ok (st, S n)
  | Some (span, first_mon_id) =>
      ' (x, l1) <- py_pop (l st) n ;;
      let '(l2, n2) :=
        if (0 <? fst span)%nat
        then (py_insert l1 n (firstn (fst span) x), S n)
        else (l1, n) in
      let l3 := py_insert l2 n2 first_mon_id in
      t <- py_index l3 n2 ;;
      let month' := VStr (skipn 2 t) in
      let n3 := S n2 in
      let l4 :=
        if (snd span <? length x)%nat
        then py_insert l3 n3 (skipn (snd span) x)
        else l3 in
      Ok (State l4 (year st) (Some month') (day st) (nbrs st), n3)
  end.

(** [while n < len(l) and month is None], bounded by [fuel] iterations. *)
Fixpoint month_loop (fuel : nat) (st : state) (n : nat) : result state :=
  if (n <? length (l st))%nat && is_none (month st) then
    match fuel with
    | O => Fuel
    | S fuel' =>
        ' (st', n') <- month_body st n ;;
        month_loop fuel' st' n'
    end
  else Ok st.

(** The loop from [n = 0]; one iteration for each token is enough. *)
Definition month_names (st : state) : result state :=
  month_loop (length (l st)) st 0.

(** *** Produce the result *)

(** A [%d] conversion needs a number: [None] raises TypeError. *)
Definition arg (o : option Z) : result Z :=
  match o with
  | Some z => Ok z
  | None => Raise TypeError
  end.

Definition is_some {A} (o : option A) : bool := negb (is_none o).

(** [int(v)] when [v] is not [None]. *)
Definition int_opt (o : option pyval) : result (option Z) :=
  match o with
  | None => Ok None
  | Some v => z <- int_ v ;; Ok (Some z)
  end.

(** The loop [for sep in "-.": if x.count(sep) == 2: return ...] returns
    when one of the two separators occurs exactly twice. *)
Definition two_separators (x : pystr) : bool :=
  existsb (fun sep => (count sep x =? 2)%nat) (str "-.").

(** The first [if] under [len(nbrs) == 2]: [Some] result when it returns. *)
Definition dmy_reading (st : state) (y : Z) : result (option pystr) :=
  let x := concat (l st) in
  c <- (t <- py_last (l st) ;; Ok (str_eqb (firstn 2 t) (tag "y")))
       &&& (a <- py_index (nbrs st) 0 ;; is_day (VInt a))
       &&& (b <- py_index (nbrs st) 1 ;; is_month (VInt b)) ;;
  if c && two_separators x then
    a <- py_index (nbrs st) 0 ;;
    b <- py_index (nbrs st) 1 ;;
    Ok (Some (fmt_ymd y b a))
  else Ok None.

(** The second [if] under [len(nbrs) == 2]. *)
Definition ymd_reading (st : state) (y : Z) : result (option pystr) :=
  let x := concat (l st) in
  c <- (t <- py_index (l st) 0 ;; Ok (str_eqb (firstn 2 t) (tag "y")))
       &&& (b <- py_index (nbrs st) 1 ;; is_day (VInt b))
       &&& (a <- py_index (nbrs st) 0 ;; is_month (VInt a)) ;;
  if c && two_separators x then
    a <- py_index (nbrs st) 0 ;;
    b <- py_index (nbrs st) 1 ;;
    Ok (Some (fmt_ymd y a b))
  else Ok None.

(** From [if year is None] to the end of [interpret]. *)
Definition disambiguate (st : state) : result (option pystr) :=
  match year st with
  | None => Ok None
  | Some y0 =>
    y <- int_ (VInt y0) ;;
    mo <- int_opt (month st) ;;
    da <- int_opt (option_map VInt (day st)) ;;
    if is_some mo && is_some da then
      m <- arg mo ;; d <- arg da ;; Ok (Some (fmt_ymd y m d))
    else if is_some mo && (length (nbrs st) =? 0)%nat then
      m <- arg mo ;; Ok (Some (fmt_ym y m))
    else
    c3 <- Ok (is_some mo) &&& Ok (length (nbrs st) =? 1)%nat
          &&& (a <- py_index (nbrs st) 0 ;; is_day (VInt a)) ;;
    if c3 then
      m <- arg mo ;; a <- py_index (nbrs st) 0 ;; Ok (Some (fmt_ymd y m a))
    else
    c4 <- Ok (is_some da) &&& Ok (length (nbrs st) =? 1)%nat
          &&& (a <- py_index (nbrs st) 0 ;; is_month (VInt a)) ;;
    if c4 then
      a <- py_index (nbrs st) 0 ;; d <- arg da ;; Ok (Some (fmt_ymd y a d))
    else
    c5 <- Ok (is_none mo) &&& Ok (is_none da) &&& Ok (length (nbrs st) =? 1)%nat
          &&& (a <- py_index (nbrs st) 0 ;; is_month (VInt a)) ;;
    if c5 then
      a <- py_index (nbrs st) 0 ;; Ok (Some (fmt_ym y a))
    else
    r6 <- (if (length (nbrs st) =? 2)%nat then
             r <- dmy_reading st y ;;
             match r with
             | Some s => Ok (Some s)
             | None => ymd_reading st y
             end
           else Ok None) ;;
    match r6 with
    | Some s => Ok (Some s)
    | None =>
        if is_some mo then m <- arg mo ;; Ok (Some (fmt_ym y m))
        else Ok (Some (fmt_y y))
    end
  end.

(** The state when the three loops are done. *)
Definition stages (instr : pystr) : result state :=
  runs <- tokenize instr ;;
  st <- classify runs ;;
  month_names st.

Definition interpret (instr : pystr) : result (option pystr) :=
  st <- stages instr ;; disambiguate st.

End Interpret.

(** *** The command-line loops *)

(** [str(r)] for the result [r] of [interpret], as [print] writes it. *)
Definition str_result (r : option pystr) : pystr :=
  match r with
  | None => str "None"
  | Some s => s
  end.

Definition NEWLINE : char := 10%N.
Definition TAB : char := 9%N.

(** [print(interpret(i))]: the text and the end of the line. *)
Definition batch_line (r : option pystr) : pystr := str_result r ++ [NEWLINE].

(** [print("\t", i, "=>", interpret(i))]: the arguments separated by single
    spaces, and the end of the line. *)
Definition tty_line (i : pystr) (r : option pystr) : pystr :=
  [TAB] ++ str " " ++ i ++ str " " ++ str "=>" ++ str " " ++ str_result r
  ++ [NEWLINE].

(** [main_batch]: [stdin] holds the lines that [input()] returns before it
    raises EOFError, [stdout] the text written so far.  The loop returns
    the text written and how it ends: normally at the end of the input, or
    with the exception that [interpret] raises, which nothing catches. *)
Fixpoint main_batch (YEAR_HIGH : Z) (stdin : list pystr) (stdout : pystr)
    : pystr * result unit :=
  match stdin with
  | [] => (stdout, Ok tt)
  | i :: rest =>
      match interpret YEAR_HIGH i with
      | Ok r => main_batch YEAR_HIGH rest (stdout ++ batch_line r)
      | Raise e => (stdout, Raise e)
      | Fuel => (stdout, Fuel)
      end
  end.

(** [main_tty]: the same loop with the prompt that [input('--> ')] writes
    before it reads a line, also before the end of the input.  [screen]
    is the text that appears: the prompts and the printed lines, in the
    order in which they are written. *)
Fixpoint main_tty (YEAR_HIGH : Z) (stdin : list pystr) (screen : pystr)
    : pystr * result unit :=
  match stdin with
  | [] => (screen ++ str "--> ", Ok tt)
  | i :: rest =>
      match interpret YEAR_HIGH i with
      | Ok r => main_tty YEAR_HIGH rest (screen ++ str "--> " ++ tty_line i r)
      | Raise e => (screen ++ str "--> ", Raise e)
      | Fuel => (screen ++ str "--> ", Fuel)
      end
  end.

(** * The vocabulary of the properties *)

(** No two neighbours of a list of classifications are equal. *)
Fixpoint no_equal_neighbours (cs : list bool) : Prop :=
  match cs with
  | a :: ((b :: _) as rest) => a <> b /\ no_equal_neighbours rest
  | _ => True
  end.

(** Adjacent runs differ in their digit / non-digit classification. *)
Definition alternating (runs : list pystr) : Prop :=
  no_equal_neighbours (map isdigit runs).

(** A run is not empty and all its characters have the classification [b]. *)
Definition run_of (b : bool) (r : pystr) : Prop :=
  r <> [] /\ Forall (fun c => isdigit_char c = b) r.

Definition is_run (r : pystr) : Prop := exists b, run_of b r.

(** What the splitting loop maintains: the list is not empty, its elements
    are runs, and neighbours alternate. *)
Definition split_inv (runs : list pystr) : Prop :=
  runs <> [] /\ Forall is_run runs /\ alternating runs.

(** [interpret] reads [YEAR_HIGH] only to compare it with numbers taken
    from eight-, six- and four-digit runs.  When each of these numbers is
    at most [B], or above [U], every bound between [B] and [U] gives the
    same result ([U = None] stands for no upper limit). *)
Definition at_most (U : option Z) (Y : Z) : Prop :=
  match U with
  | Some u => Y <= u
  | None => True
  end.

Definition settled (B : Z) (U : option Z) (t : pystr) : bool :=
  match int_str t with
  | Ok v => (v <=? B) || match U with Some u => u <? v | None => false end
  | _ => true
  end.

Definition year_checks (B : Z) (U : option Z) (x : pystr) : bool :=
  if (length x =? 8)%nat then settled B U (firstn 4 x) && settled B U (skipn 4 x)
  else if (length x =? 6)%nat then settled B U (firstn 4 x)
  else if (length x =? 4)%nat then settled B U x
  else true.

Definition input_year_checks (B : Z) (U : option Z) (instr : pystr) : bool :=
  match tokenize instr with
  | Ok runs => forallb (year_checks B U) runs
  | _ => true
  end.

(** A digit run in the sense of the specification: a non-empty string of
    decimal digit characters. *)
Definition decimal_run (x : pystr) : Prop :=
  x <> [] /\ Forall (fun c => isdecimal_char c = true) x.

(** The string has no more characters than [int] accepts digits. *)
Definition within_limit (x : pystr) : bool :=
  Z.of_nat (length x) <=? INT_MAX_STR_DIGITS.

(** No run of digits of the input is longer than [int] accepts. *)
Definition digits_within_limit (instr : pystr) : bool :=
  match tokenize instr with
  | Ok runs => forallb (fun r => negb (isdigit r) || within_limit r) runs
  | _ => true
  end.

(** The computation ends: it returns or raises, the bound of the loop
    model is not reached. *)
Definition terminates {A} (r : result A) : Prop :=
  match r with
  | Fuel => False
  | _ => True
  end.

(** The lower-case letter that a text character stands for when it
    matches one under IGNORECASE. *)
Definition fold_key (c : char) : char :=
  (if (65 <=? c) && (c <=? 90) then c + 32
   else if (c =? 304) || (c =? 305) then 105
   else if c =? 8490 then 107
   else if c =? 383 then 115
   else c)%N.

Definition lower_letter (p : char) : bool := ((97 <=? p) && (p <=? 122))%N.

(** The words of the catalogue are lower-case letters, three at least. *)
Definition catalogue_word (w : pystr) : bool :=
  forallb lower_letter w && (3 <=? length w)%nat.

(** The entry with tag [id] and match [sp] in [tok] is the selected one of
    the list [months]: every entry listed before it that matches starts
    strictly later, every entry listed after it that matches starts no
    earlier.  That is: the earliest start wins, and among equal starts the
    first listed. *)
Definition selected (months : list (regex * pystr)) (tok : pystr)
    (sp : nat * nat) (id : pystr) : Prop :=
  exists before rx after,
    months = before ++ (rx, id) :: after /\
    re_search rx tok = Some sp /\
    (forall e sp', In e before -> re_search (fst e) tok = Some sp' ->
                   (fst sp < fst sp')%nat) /\
    (forall e sp', In e after -> re_search (fst e) tok = Some sp' ->
                   (fst sp <= fst sp')%nat).

(** The state of the inner loop after the entries [done]. *)
Definition selection_so_far (done : list (regex * pystr)) (tok : pystr)
    (first : option ((nat * nat) * pystr)) : Prop :=
  match first with
  | None => forall e, In e done -> re_search (fst e) tok = None
  | Some (sp, id) => selected done tok sp id
  end.

(** The tokens that take the place of a token [x] in which the span [sp]
    was matched: the text before the match if there is some, the month
    tag, the text after the match if there is some. *)
Definition splice (sp : nat * nat) (mon_id x : pystr) : list pystr :=
  (if (0 <? fst sp)%nat then [firstn (fst sp) x] else [])
  ++ [mon_id]
  ++ (if (snd sp <? length x)%nat then [skipn (snd sp) x] else []).

(** The possible outcomes of the loop body for the run [x] at index [n]:
    nothing changes; the loop is left with year and month set from the
    run itself; or the run, a digit run, is replaced at its index by a
    tagged copy and the month is left alone. *)
Inductive classify_outcome (st : state) (n : nat) (x : pystr) : flow state -> Prop :=
| outcome_skip : classify_outcome st n x (Continue st)
| outcome_break y m d :
    isdigit x = true ->
    classify_outcome st n x
      (Break (State (l st) (Some y) (Some (VInt m)) d (nbrs st)))
| outcome_tag t l' y d nb :
    isdigit x = true ->
    py_setitem (l st) n (tag t ++ x) = Ok l' ->
    (year st <> None -> y <> None) ->
    classify_outcome st n x (Continue (State l' y (month st) d nb)).

Definition state_of {A} (r : flow A) : A :=
  match r with
  | Continue a => a
  | Break a => a
  end.

(** The month is not a string: it is unset or an [int]. *)
Definition month_is_int (m : option pyval) : Prop :=
  match m with
  | Some (VStr _) => False
  | _ => True
  end.

(** The tags of the catalogue: the marker, the letter m and a month
    number. *)
Definition month_tag (id : pystr) : bool :=
  str_eqb (firstn 2 id) (tag "m") &&
  match int_str (skipn 2 id) with
  | Ok m => (1 <=? m) && (m <=? 12)
  | _ => false
  end.


(** The computation returns a value. *)
Definition succeeds {A} (r : result A) : Prop := exists a, r = Ok a.

(** The three forms of a result for the year [y]. *)
Definition date_string (y : Z) (s : pystr) : Prop :=
  s = fmt_y y \/ (exists m, s = fmt_ym y m) \/ (exists m d, s = fmt_ymd y m d).


(** The conditions of the five rules of the classifier that end the loop,
    as they are written in the source, in their order. *)
Definition year_first8 (Y : Z) (x : pystr) : result bool :=
  Ok (length x =? 8)%nat &&& is_year Y (VStr (firstn 4 x))
  &&& is_month (VStr (slice 4 6 x)) &&& is_day (VStr (skipn 6 x)).

Definition day_first8 (Y : Z) (x : pystr) : result bool :=
  Ok (length x =? 8)%nat &&& is_day (VStr (firstn 2 x))
  &&& is_month (VStr (slice 2 4 x)) &&& is_year Y (VStr (skipn 4 x)).

Definition year_month6 (Y : Z) (x : pystr) : result bool :=
  Ok (length x =? 6)%nat &&& is_year Y (VStr (firstn 4 x))
  &&& is_month (VStr (skipn 4 x)).

Definition y2k_first6 (x : pystr) : result bool :=
  Ok (length x =? 6)%nat &&& is_y2k (VStr (firstn 2 x))
  &&& is_month (VStr (slice 2 4 x)) &&& is_day (VStr (skipn 4 x)).

Definition day_first6 (x : pystr) : result bool :=
  Ok (length x =? 6)%nat &&& is_day (VStr (firstn 2 x))
  &&& is_month (VStr (slice 2 4 x)) &&& is_y2k (VStr (skipn 4 x)).

Definition terminal_rules (Y : Z) (x : pystr) : list (result bool) :=
  [year_first8 Y x; day_first8 Y x; year_month6 Y x; y2k_first6 x; day_first6 x].

(** The condition evaluates to true. *)
Definition holds (c : result bool) : bool :=
  match c with
  | Ok true => true
  | _ => false
  end.

(** The runs of a text made of a digit run [x] between two stretches of
    other characters, either of which may be empty. *)
Definition maybe_run (s : pystr) : list pystr :=
  match s with
  | [] => []
  | _ => [s]
  end.

Definition around (pre x post : pystr) : list pystr :=
  maybe_run pre ++ [x] ++ maybe_run post.

(** No character of the text is a digit. *)
Definition no_digit (s : pystr) : Prop := Forall (fun c => isdigit_char c = false) s.

(** The years that the classifier can record: a four-digit year within
    bounds, a two-digit year taken as 19YY, or the bare two digits that the
    four-digit rule stores. *)
Definition year_value (Y y : Z) : Prop :=
  1900 <= y <= Y \/ 1932 <= y <= 1999 \/ 32 <= y <= 99.

(** The partial date of a state holds a possible year, a month number
    from 1 to 12 and a day from 1 to 31. *)
Definition fields_ok (Y : Z) (st : state) : Prop :=
  (forall y, year st = Some y -> year_value Y y) /\
  (forall m, month st = Some (VInt m) -> 1 <= m <= 12) /\
  (forall d, day st = Some d -> 1 <= d <= 31).

(** A result for the year [y] whose month and day, when present, are a
    month number and a day number. *)
Definition valid_date (y : Z) (s : pystr) : Prop :=
  s = fmt_y y \/
  (exists m, 1 <= m <= 12 /\ s = fmt_ym y m) \/
  (exists m d, 1 <= m <= 12 /\ 1 <= d <= 31 /\ s = fmt_ymd y m d).

(** The tags that the classifier puts in front of a digit run. *)
Definition TAGS : list string := ["y"; "y19"; "d"; "n"]%string.

(** The token [t] is the run [r] itself, or the digit run [r] behind one
    of the classifier's tags. *)
Definition tagged_or_same (t r : pystr) : Prop :=
  t = r \/ (isdigit r = true /\ exists tg, In tg TAGS /\ t = tag tg ++ r).

(** The upper-case and the lower-case form of an ASCII letter; any other
    character is left as it is. *)
Definition ascii_upper (c : char) : char :=
  (if (97 <=? c) && (c <=? 122) then c - 32 else c)%N.

Definition ascii_lower (c : char) : char :=
  (if (65 <=? c) && (c <=? 90) then c + 32 else c)%N.

(** A line that [interpret] reads without an exception: it is not empty,
    its digit characters are decimal digits, and none of its runs of
    digits is longer than [int] accepts. *)
Definition readable (i : pystr) : Prop :=
  i <> [] /\
  (forall c, In c i -> isdigit_char c = true -> isdecimal_char c = true) /\
  digits_within_limit i = true.

(** The character reads as a letter for the month patterns. *)
Definition letterish (c : char) : bool := lower_letter (fold_key c).

(** Three characters in a row of the token read as letters. *)
Fixpoint three_letters (t : pystr) : bool :=
  match t with
  | a :: ((b :: c :: _) as rest) =>
      (letterish a && letterish b && letterish c) || three_letters rest
  | _ => false
  end.

(** [x] is a string of decimal digits that reads as the number [v]. *)
Definition numeral (v : Z) (x : pystr) : Prop :=
  decimal_run x /\ int_str x = Ok v.

(** Text between the numbers of a date: not empty, without a digit and
    without three letters in a row. *)
Definition filler (s : pystr) : Prop :=
  s <> [] /\ no_digit s /\ three_letters s = false.

(** The three numbers of a date as they are written: a year of four
    digits from 1900 to [Y] and below 3200, a month from 1 to 12 and a
    day from 1 to 31 of one or two digits each. *)
Definition date_numbers (Y : Z) (ys ms ds : pystr) (y m d : Z) : Prop :=
  (numeral y ys /\ length ys = 4%nat /\ 1900 <= y <= Y /\ y < 3200) /\
  (numeral m ms /\ (length ms <= 2)%nat /\ 1 <= m <= 12) /\
  (numeral d ds /\ (length ds <= 2)%nat /\ 1 <= d <= 31).

(** ["%0Wd" % v] is a string of [w] decimal digits that reads as [v]. *)
Definition fmt_reads (w : nat) (v : Z) : bool :=
  let x := fmt_0d w v in
  (length x =? w)%nat && forallb isdecimal_char x &&
  match int_str x with
  | Ok v' => v' =? v
  | _ => false
  end.



(** The number of the month whose name the month loop finds in a token. *)
Definition month_of (t : pystr) : option Z :=
  match first_match t with
  | Some (_, id) =>
      match int_str (skipn 2 id) with
      | Ok m => Some m
      | _ => None
      end
  | None => None
  end.

(** * Properties *)

(** ** Results and sequences *)

Lemma py_last_snoc {A} (init : list A) (t : A) : py_last (init ++ [t]) = Ok t.
Proof.
  induction init as [|a init IH]; [reflexivity|].
  simpl. destruct (init ++ [t]) eqn:E; [|exact IH].
  destruct init; discriminate.
Qed.

Lemma py_last_ok {A} (s : list A) : s <> [] -> exists a, py_last s = Ok a.
Proof.
  intros H. destruct (exists_last H) as (init & t & ->).
  exists t. apply py_last_snoc.
Qed.

(** ** The tokenizer *)

Lemma isdigit_run b r : run_of b r -> isdigit r = b.
Proof.
  intros [Hne Hall]. destruct r as [|c r]; [congruence|].
  unfold isdigit. destruct b.
  - apply forallb_forall. intros d Hd.
    rewrite Forall_forall in Hall. auto.
  - inversion Hall; subst. simpl. rewrite H1. reflexivity.
Qed.

Lemma run_of_snoc b r i :
  run_of b r -> isdigit_char i = b -> run_of b (r ++ [i]).
Proof.
  intros [Hne Hall] Hi. split.
  - destruct r; discriminate.
  - apply Forall_app. split; [assumption|]. constructor; auto.
Qed.

Lemma run_of_last b r c : run_of b r -> py_last r = Ok c -> isdigit_char c = b.
Proof.
  intros [Hne Hall] Hl.
  destruct (exists_last Hne) as (init & t & ->).
  rewrite py_last_snoc in Hl. injection Hl as <-.
  apply Forall_app in Hall as [_ Hall]. inversion Hall; assumption.
Qed.

Lemma no_equal_neighbours_snoc cs a b :
  no_equal_neighbours (cs ++ [a]) -> a <> b ->
  no_equal_neighbours ((cs ++ [a]) ++ [b]).
Proof.
  induction cs as [|c cs IH]; simpl; intros H Hab.
  - auto.
  - destruct cs as [|c' cs]; simpl in *.
    + destruct H; auto.
    + destruct H as [H1 H2]. split; [assumption|]. apply IH; assumption.
Qed.

Lemma split_step_inv runs i :
  split_inv runs ->
  exists runs', split_step runs i = Ok runs' /\ split_inv runs' /\
                concat runs' = concat runs ++ [i].
Proof.
  intros (Hne & Hruns & Halt).
  destruct (exists_last Hne) as (init & t & ->).
  apply Forall_app in Hruns as [Hinit Ht].
  inversion Ht as [|? ? [b Hb] _]; subst.
  destruct (py_last_ok t (proj1 Hb)) as [c Hc].
  unfold split_step. rewrite py_last_snoc. simpl. rewrite Hc. simpl.
  rewrite (run_of_last b t c Hb Hc).
  destruct (xorb (isdigit_char i) b) eqn:Hx.
  - eexists. split; [reflexivity|]. split; [split; [|split]|].
    + destruct init; discriminate.
    + apply Forall_app. split.
      * apply Forall_app. split; assumption.
      * constructor; [|constructor]. exists (isdigit_char i).
        split; [discriminate|]. constructor; auto.
    + unfold alternating in *. rewrite !map_app in *. simpl.
      apply no_equal_neighbours_snoc; [assumption|].
      rewrite (isdigit_run b t Hb). simpl.
      rewrite andb_true_r. intros ->. rewrite xorb_nilpotent in Hx. discriminate.
    + rewrite concat_app. reflexivity.
  - assert (Hi : isdigit_char i = b).
    { destruct (isdigit_char i), b; simpl in Hx; congruence. }
    rewrite removelast_last.
    eexists. split; [reflexivity|]. split; [split; [|split]|].
    + destruct init; discriminate.
    + apply Forall_app. split; [assumption|].
      constructor; [|constructor]. exists b. apply run_of_snoc; assumption.
    + unfold alternating in *. rewrite !map_app in *. simpl in *.
      rewrite (isdigit_run b (t ++ [i])) by (apply run_of_snoc; assumption).
      rewrite (isdigit_run b t Hb) in Halt. exact Halt.
    + rewrite !concat_app. simpl. rewrite ?app_nil_r, ?app_assoc. reflexivity.
Qed.

Lemma split_loop_inv rest : forall runs,
  split_inv runs ->
  exists runs', split_loop runs rest = Ok runs' /\ split_inv runs' /\
                concat runs' = concat runs ++ rest.
Proof.
  induction rest as [|i rest IH]; intros runs Hinv; simpl.
  - exists runs. rewrite app_nil_r. auto.
  - destruct (split_step_inv runs i Hinv) as (runs1 & -> & Hinv1 & Hc1).
    simpl. destruct (IH runs1 Hinv1) as (runs' & -> & Hinv' & Hc').
    exists runs'. split; [reflexivity|]. split; [assumption|].
    rewrite Hc', Hc1, <- app_assoc. reflexivity.
Qed.

Lemma tokenize_inv instr :
  instr <> [] ->
  exists runs, tokenize instr = Ok runs /\ split_inv runs /\ concat runs = instr.
Proof.
  destruct instr as [|c rest]; [congruence|]. intros _. simpl.
  apply (split_loop_inv rest [[c]]).
  split; [discriminate|]. split.
  - constructor; [|constructor]. exists (isdigit_char c).
    split; [discriminate|]. constructor; auto.
  - exact I.
Qed.

(** C4: for a non-empty input the tokenizer returns a list of runs whose
    concatenation is the input, each run is not empty and consists either
    only of digit characters or only of other characters, and two adjacent
    runs never have the same digit / non-digit classification. *)
Theorem tokenize_maximal_runs (instr : pystr) :
  instr <> [] ->
  exists runs,
    tokenize instr = Ok runs /\
    concat runs = instr /\
    Forall (fun r => r <> [] /\
                     (Forall (fun c => isdigit_char c = true) r \/
                      Forall (fun c => isdigit_char c = false) r)) runs /\
    alternating runs.
Proof.
  intros Hne. destruct (tokenize_inv instr Hne) as (runs & Ht & (_ & Hr & Ha) & Hc).
  exists runs. repeat split; try assumption.
  eapply Forall_impl; [|exact Hr].
  intros r [[|] [Hn Hall]]; auto.
Qed.

Lemma tokenize_maximal_runs_witness :
  exists runs,
    tokenize (str "12.11.1983") = Ok runs /\
    concat runs = str "12.11.1983" /\
    Forall (fun r => r <> [] /\
                     (Forall (fun c => isdigit_char c = true) r \/
                      Forall (fun c => isdigit_char c = false) r)) runs /\
    alternating runs.
Proof.
  apply (tokenize_maximal_runs (str "12.11.1983")). simpl. discriminate.
Defined.

(** C4, as stated with decimal digits, fails: the tokenizer goes by
    [str.isdigit].  "1²" (the digit one and U+00B2 SUPERSCRIPT TWO) is one
    run, which is neither made of decimal digits nor free of them; "a²" is
    split in two runs, and neither of the two has a decimal digit. *)
Lemma tokenize_not_by_decimal_digits :
  tokenize [49; 178]%N = Ok [[49; 178]%N] /\
  ~ (Forall (fun c => isdecimal_char c = true) [49; 178]%N \/
     Forall (fun c => isdecimal_char c = false) [49; 178]%N) /\
  tokenize [97; 178]%N = Ok [[97%N]; [178%N]] /\
  Forall (fun c => isdecimal_char c = false) [97%N] /\
  Forall (fun c => isdecimal_char c = false) [178%N].
Proof.
  split; [reflexivity|]. split; [|split; [reflexivity|split; repeat constructor]].
  intros [H|H].
  - inversion H as [|? ? _ H2]; subst. inversion H2 as [|? ? H3 _]; subst.
    discriminate H3.
  - inversion H as [|? ? H1 _]; subst. discriminate H1.
Qed.

(** ** The upper year bound *)

Section Bound.

Variables (Y B : Z) (U : option Z).
Hypothesis HB : B <= Y.
Hypothesis HU : at_most U Y.

Lemma settled_leb v :
  ((v <=? B) || match U with Some u => u <? v | None => false end) = true ->
  (v <=? Y) = (v <=? B).
Proof using HB HU.
  intros H. apply orb_true_iff in H as [H|H].
  - apply Z.leb_le in H. rewrite (proj2 (Z.leb_le v Y)) by lia.
    rewrite (proj2 (Z.leb_le v B)) by lia. reflexivity.
  - destruct U as [u|]; [|discriminate]. simpl in HU. apply Z.ltb_lt in H.
    rewrite (proj2 (Z.leb_gt v Y)) by lia.
    rewrite (proj2 (Z.leb_gt v B)) by lia. reflexivity.
Qed.

Lemma is_year_bound t :
  settled B U t = true -> is_year Y (VStr t) = is_year B (VStr t).
Proof using HB HU.
  unfold settled, is_year. simpl. intros Ht.
  destruct (int_str t) as [v| |]; simpl; try reflexivity.
  rewrite (settled_leb v Ht). reflexivity.
Qed.

Lemma is_year_bound_int x v :
  int_str x = Ok v -> settled B U x = true ->
  is_year Y (VInt v) = is_year B (VInt v).
Proof using HB HU.
  unfold settled, is_year. simpl. intros Hv Ht. rewrite Hv in Ht.
  rewrite (settled_leb v Ht). reflexivity.
Qed.

Lemma classify_one_bound st n x :
  year_checks B U x = true ->
  classify_one Y st n x = classify_one B st n x.
Proof using HB HU.
  intros Hc. unfold classify_one, year_checks in *.
  destruct (isdigit x); simpl negb; cbv iota; [|reflexivity].
  destruct (int_str x) as [v| |] eqn:Hv; cbn [bind]; try reflexivity.
  destruct (Nat.eqb_spec (length x) 8) as [E8|E8];
    destruct (Nat.eqb_spec (length x) 6) as [E6|E6];
    destruct (Nat.eqb_spec (length x) 4) as [E4|E4];
    try (exfalso; lia);
    destruct (is_none (year st)); cbn [andr bind]; try reflexivity.
  - apply andb_true_iff in Hc as [H1 H2].
    rewrite (is_year_bound _ H1), (is_year_bound _ H2). reflexivity.
  - apply andb_true_iff in Hc as [H1 H2].
    rewrite (is_year_bound _ H1), (is_year_bound _ H2). reflexivity.
  - rewrite (is_year_bound _ Hc). reflexivity.
  - rewrite (is_year_bound _ Hc). reflexivity.
  - rewrite (is_year_bound_int x v Hv Hc). reflexivity.
Qed.

Lemma classify_loop_bound items : forall st,
  Forall (fun p => year_checks B U (snd p) = true) items ->
  classify_loop Y st items = classify_loop B st items.
Proof using HB HU.
  induction items as [|[n x] items IH]; intros st Hall; [reflexivity|].
  inversion Hall as [|? ? Hx Hrest]; subst. simpl in *.
  rewrite (classify_one_bound st n x Hx).
  destruct (classify_one B st n x) as [[st'|st']| |]; simpl; auto.
Qed.

Lemma enumerate_snd {A} (xs : list A) (P : A -> Prop) :
  Forall P xs -> Forall (fun p => P (snd p)) (enumerate xs).
Proof using Type.
  intros H. apply Forall_forall. intros [n x] Hin.
  apply in_combine_r in Hin. rewrite Forall_forall in H. apply H. exact Hin.
Qed.

Lemma classify_bound runs :
  forallb (year_checks B U) runs = true ->
  classify Y runs = classify B runs.
Proof using HB HU.
  intros Hall. apply classify_loop_bound.
  apply (enumerate_snd runs (fun x => year_checks B U x = true)).
  apply Forall_forall. rewrite forallb_forall in Hall. exact Hall.
Qed.

Lemma stages_bound instr :
  input_year_checks B U instr = true -> stages Y instr = stages B instr.
Proof using HB HU.
  unfold input_year_checks, stages. intros Hc.
  destruct (tokenize instr) as [runs| |]; simpl; try reflexivity.
  rewrite (classify_bound runs Hc). reflexivity.
Qed.

Lemma interpret_bound instr :
  input_year_checks B U instr = true -> interpret Y instr = interpret B instr.
Proof using HB HU.
  intros Hc. unfold interpret. rewrite (stages_bound instr Hc). reflexivity.
Qed.

End Bound.

(** ** Running [interpret] on given inputs *)

(** Evaluation for every upper year bound from [B] up to [U]. *)
Ltac run_between B U :=
  first [match goal with
      | |- interpret ?Y ?s = _ =>
          rewrite (interpret_bound Y B U ltac:(lia) ltac:(simpl; try lia; exact I) s)
            by (vm_compute; reflexivity)
      | |- stages ?Y ?s = _ =>
          rewrite (stages_bound Y B U ltac:(lia) ltac:(simpl; try lia; exact I) s)
            by (vm_compute; reflexivity)
      | |- classify_one ?Y ?st ?n ?x = _ =>
          rewrite (classify_one_bound Y B U ltac:(lia) ltac:(simpl; try lia; exact I) st n x)
            by (vm_compute; reflexivity)
      | |- tokenize _ = _ => idtac
      end];
  vm_compute; reflexivity.

Ltac run_from B := run_between B (@None Z).

Example spec_case_1 Y : 1983 <= Y ->
  interpret Y (str "1983 31 12") = Ok (Some (str "1983-12-31")).
Proof. intros H. run_from 1983. Qed.

Example spec_case_2 Y : 1923 <= Y ->
  interpret Y (str "aug 1923 12") = Ok (Some (str "1923-08-12")).
Proof. intros H. run_from 1923. Qed.

Example spec_case_3 Y : 2023 <= Y ->
  interpret Y (str "20230415") = Ok (Some (str "2023-04-15")).
Proof. intros H. run_from 2023. Qed.

Example spec_case_4 Y : 2023 <= Y ->
  interpret Y (str "15042023") = Ok (Some (str "2023-04-15")).
Proof. intros H. run_from 2023. Qed.

(** The six-digit case needs a clock before the year 9901: from then on
    "9901" is itself a year and the rule for a year and a month applies. *)
Example spec_case_5 Y : 1999 <= Y < 9901 ->
  interpret Y (str "990101") = Ok (Some (str "1999-01-01")).
Proof. intros H. run_between 1999 (Some 9900). Qed.

Example spec_case_6 Y : 1983 <= Y ->
  interpret Y (str "1983 15 20") = Ok (Some (str "1983")).
Proof. intros H. run_from 1983. Qed.

Example empty_input Y : interpret Y [] = Raise IndexError.
Proof. reflexivity. Qed.

(** C1: on the input "9912" the four-digit rule (two-digit year, then
    month) stores the bare value 99 in the year, not 1999: the result is
    "0099-12", whose year is outside [1900, YEAR_HIGH]. *)
Theorem four_digit_y2k_rule_keeps_bare_year (Y : Z) :
  classify_one Y (State [str "9912"] None None None []) 0 (str "9912")
    = Ok (Break (State [str "9912"] (Some 99) (Some (VInt 12)) None [])) /\
  interpret Y (str "9912") = Ok (Some (str "0099-12")).
Proof. split; vm_compute; reflexivity. Qed.

(** C2: on "1983 20230415" the run "1983" sets the year to 1983 and is
    tagged, and the later eight-digit run replaces it: the result carries
    the year 2023. *)
Theorem full_date_run_overwrites_year (Y : Z) :
  2023 <= Y ->
  let runs := [str "1983"; str " "; str "20230415"] in
  tokenize (str "1983 20230415") = Ok runs /\
  classify_one Y (State runs None None None []) 0 (str "1983")
    = Ok (Continue (State [tag "y1983"; str " "; str "20230415"]
                          (Some 1983) None None [])) /\
  interpret Y (str "1983 20230415") = Ok (Some (str "2023-04-15")).
Proof.
  intros H. repeat split; run_from 2023.
Qed.

Lemma full_date_run_overwrites_year_witness :
  interpret 2024 (str "1983 20230415") = Ok (Some (str "2023-04-15")).
Proof.
  apply (full_date_run_overwrites_year 2024). lia.
Defined.

(** C6: on the input "1983 ³" (the last character is U+00B3 SUPERSCRIPT
    THREE) the classifier first establishes the year 1983, and the run "³",
    which [isdigit] accepts and [int] refuses, then ends [interpret] with
    ValueError: the outcome is neither [None] nor a date string. *)
Theorem third_outcome_value_error (Y : Z) :
  1983 <= Y ->
  classify_one Y (State [str "1983"; str " "; [179%N]] None None None []) 0
               (str "1983")
    = Ok (Continue (State [tag "y1983"; str " "; [179%N]]
                          (Some 1983) None None [])) /\
  interpret Y (str "1983 " ++ [179%N]) = Raise ValueError.
Proof.
  intros H. split; run_from 1983.
Qed.

Lemma third_outcome_value_error_witness :
  interpret 2024 (str "1983 " ++ [179%N]) = Raise ValueError.
Proof.
  apply (third_outcome_value_error 2024). lia.
Defined.

(** C7: the one-character input "²" (U+00B2 SUPERSCRIPT TWO) is not empty
    and [interpret] raises ValueError on it: [isdigit] holds of the run and
    [int] has no value for it. *)
Theorem superscript_digit_raises (Y : Z) :
  isdigit [178%N] = true /\
  int_str [178%N] = Raise ValueError /\
  interpret Y [178%N] = Raise ValueError.
Proof. repeat split. Qed.
(** ** Digit runs and [int] *)

Lemma isdecimal_isdigit c : isdecimal_char c = true -> isdigit_char c = true.
Proof. intros H. unfold isdigit_char. rewrite H. reflexivity. Qed.

Lemma decimal_run_isdigit x : decimal_run x -> isdigit x = true.
Proof.
  intros [Hne Hall]. destruct x as [|c x]; [congruence|].
  unfold isdigit. apply forallb_forall. intros d Hd.
  rewrite Forall_forall in Hall. apply isdecimal_isdigit. auto.
Qed.

Lemma int_digits_decimal x : forall acc,
  Forall (fun c => isdecimal_char c = true) x ->
  exists v, int_digits acc x = Ok v.
Proof.
  induction x as [|c x IH]; intros acc Hall; simpl.
  - eauto.
  - inversion Hall as [|? ? Hc Hx]; subst.
    unfold isdecimal_char in Hc.
    destruct (Unicode.decimal c); [|discriminate]. apply IH. assumption.
Qed.

Lemma int_str_short x :
  x <> [] -> within_limit x = true -> int_str x = int_digits 0 x.
Proof.
  intros Hne Hlim. destruct x as [|c x]; [congruence|].
  unfold within_limit in Hlim. apply Z.leb_le in Hlim.
  unfold int_str. destruct (Z.ltb_spec INT_MAX_STR_DIGITS (Z.of_nat (length (c :: x))));
    [lia | reflexivity].
Qed.

Lemma int_str_long x : within_limit x = false -> int_str x = Raise ValueError.
Proof.
  intros Hlim. destruct x as [|c x]; [reflexivity|].
  unfold within_limit in Hlim. apply Z.leb_gt in Hlim.
  unfold int_str. destruct (Z.ltb_spec INT_MAX_STR_DIGITS (Z.of_nat (length (c :: x))));
    [reflexivity | lia].
Qed.

Lemma int_str_ok x v :
  int_str x = Ok v -> x <> [] /\ within_limit x = true /\ int_digits 0 x = Ok v.
Proof.
  intros H. destruct x as [|c x]; [discriminate|].
  split; [discriminate|].
  destruct (within_limit (c :: x)) eqn:E.
  - split; [reflexivity|].
    rewrite <- (int_str_short (c :: x)); [exact H | discriminate | exact E].
  - rewrite (int_str_long _ E) in H. discriminate.
Qed.

Lemma int_str_decimal x :
  decimal_run x -> within_limit x = true -> exists v, int_str x = Ok v.
Proof.
  intros [Hne Hall] Hlim. rewrite (int_str_short x Hne Hlim).
  apply (int_digits_decimal x 0 Hall).
Qed.

Lemma within_limit_short x : (length x <= 8)%nat -> within_limit x = true.
Proof.
  intros H. unfold within_limit, INT_MAX_STR_DIGITS. apply Z.leb_le. lia.
Qed.

Lemma within_limit_firstn k x : within_limit x = true -> within_limit (firstn k x) = true.
Proof.
  unfold within_limit. intros H. apply Z.leb_le in H. apply Z.leb_le.
  rewrite length_firstn. lia.
Qed.

Lemma within_limit_skipn k x : within_limit x = true -> within_limit (skipn k x) = true.
Proof.
  unfold within_limit. intros H. apply Z.leb_le in H. apply Z.leb_le.
  rewrite length_skipn. lia.
Qed.

(** ** Termination *)

Lemma terminates_bind {A B} (r : result A) (k : A -> result B) :
  terminates r -> (forall a, r = Ok a -> terminates (k a)) ->
  terminates (bind r k).
Proof. destruct r; simpl; auto. Qed.

Lemma terminates_int_digits x : forall acc, terminates (int_digits acc x).
Proof.
  induction x as [|c x IH]; intros acc; simpl; [exact I|].
  destruct (Unicode.decimal c); [apply IH | exact I].
Qed.

Lemma terminates_int_str x : terminates (int_str x).
Proof.
  destruct x as [|c x]; [exact I|]. unfold int_str.
  destruct (INT_MAX_STR_DIGITS <? Z.of_nat (length (c :: x)));
    [exact I | apply terminates_int_digits].
Qed.

Lemma terminates_int v : terminates (int_ v).
Proof. destruct v; [exact I | apply terminates_int_str]. Qed.

Lemma terminates_py_last {A} (s : list A) : terminates (py_last s).
Proof.
  induction s as [|a s IH]; [exact I|]. simpl. destruct s; [exact I | exact IH].
Qed.

Lemma terminates_py_index {A} (s : list A) n : terminates (py_index s n).
Proof. unfold py_index. destruct (nth_error s n); exact I. Qed.

Lemma terminates_py_setitem {A} (s : list A) n v : terminates (py_setitem s n v).
Proof. unfold py_setitem. destruct (n <? length s)%nat; exact I. Qed.

Lemma terminates_py_pop {A} (s : list A) n : terminates (py_pop s n).
Proof. unfold py_pop. destruct (nth_error s n); exact I. Qed.

(** Goals of the form [terminates e] for a straight-line piece of the
    program: follow the binds and the conditionals. *)
Ltac terminates_step :=
  match goal with
  | |- terminates (Ok _) => exact I
  | |- terminates (Raise _) => exact I
  | |- terminates (int_str _) => apply terminates_int_str
  | |- terminates (int_ _) => apply terminates_int
  | |- terminates (py_last _) => apply terminates_py_last
  | |- terminates (py_index _ _) => apply terminates_py_index
  | |- terminates (py_setitem _ _ _) => apply terminates_py_setitem
  | |- terminates (py_pop _ _) => apply terminates_py_pop
  | |- terminates (bind _ _) => apply terminates_bind; [|intros ? _]
  | |- terminates (andr _ _) => unfold andr
  | |- terminates (if ?b then _ else _) => destruct b
  | |- terminates (match ?o with Some _ => _ | None => _ end) => destruct o
  | |- terminates (let '(_, _) := ?p in _) => destruct p
  end.

Ltac terminates_auto := repeat terminates_step.

Lemma terminates_split_loop rest : forall runs, terminates (split_loop runs rest).
Proof.
  induction rest as [|i rest IH]; intros runs; simpl; [exact I|].
  apply terminates_bind; [|intros; apply IH].
  unfold split_step. terminates_auto.
Qed.

Lemma terminates_tokenize instr : terminates (tokenize instr).
Proof. destruct instr; [exact I | apply terminates_split_loop]. Qed.

Lemma terminates_classify_one Y st n x : terminates (classify_one Y st n x).
Proof.
  unfold classify_one, is_year, is_y2k, is_month, is_day. terminates_auto.
Qed.

Lemma terminates_classify_loop Y items : forall st,
  terminates (classify_loop Y st items).
Proof.
  induction items as [|[n x] items IH]; intros st; simpl; [exact I|].
  apply terminates_bind; [apply terminates_classify_one|].
  intros [st'|st'] _; [apply IH | exact I].
Qed.

Lemma terminates_month_body st n : terminates (month_body st n).
Proof.
  unfold month_body. terminates_auto.
Qed.

(** An iteration of the month loop either moves to the next token and
    changes nothing else, or sets the month. *)
Lemma month_body_progress st n st' n' :
  month_body st n = Ok (st', n') ->
  (st' = st /\ n' = S n) \/ is_none (month st') = false.
Proof.
  unfold month_body.
  destruct (py_index (l st) n) as [tok| |]; simpl; try discriminate.
  destruct (first_match tok) as [[span id]|].
  - destruct (py_pop (l st) n) as [[x l1]| |]; simpl; try discriminate.
    destruct (0 <? fst span)%nat;
      match goal with
      | |- context [py_index ?s ?k] => destruct (py_index s k)
      end; simpl; try discriminate;
      intros H; injection H as <- <-; right; reflexivity.
  - intros H. injection H as <- <-. left. auto.
Qed.

(** With one unit of fuel for each token from [n] on, the loop ends. *)
Lemma month_loop_terminates fuel : forall st n,
  (length (l st) - n <= fuel)%nat -> terminates (month_loop fuel st n).
Proof.
  induction fuel as [|fuel IH]; intros st n Hfuel.
  - simpl. destruct (n <? length (l st))%nat eqn:Hn; [|exact I].
    apply Nat.ltb_lt in Hn. lia.
  - simpl. destruct ((n <? length (l st))%nat && is_none (month st)) eqn:Hc;
      [|exact I].
    apply andb_true_iff in Hc as [Hn _]. apply Nat.ltb_lt in Hn.
    apply terminates_bind; [apply terminates_month_body|].
    intros [st' n'] Hbody. simpl.
    destruct (month_body_progress st n st' n' Hbody) as [[-> ->]|Hm].
    + apply IH. lia.
    + destruct fuel; simpl; rewrite Hm, andb_false_r; exact I.
Qed.

(** More fuel than that changes nothing. *)
Lemma month_loop_fuel fuel : forall st n extra,
  (length (l st) - n <= fuel)%nat ->
  month_loop (fuel + extra) st n = month_loop fuel st n.
Proof.
  induction fuel as [|fuel IH]; intros st n extra Hfuel.
  - simpl. destruct (n <? length (l st))%nat eqn:Hn.
    + apply Nat.ltb_lt in Hn. lia.
    + destruct extra; simpl; rewrite Hn; reflexivity.
  - simpl. destruct ((n <? length (l st))%nat && is_none (month st)) eqn:Hc;
      [|reflexivity].
    apply andb_true_iff in Hc as [Hn _]. apply Nat.ltb_lt in Hn.
    destruct (month_body st n) as [[st' n']| |] eqn:Hbody; simpl; try reflexivity.
    destruct (month_body_progress st n st' n' Hbody) as [[-> ->]|Hm].
    + apply IH. lia.
    + destruct fuel, extra; simpl; rewrite Hm, andb_false_r; reflexivity.
Qed.

Lemma terminates_disambiguate st : terminates (disambiguate st).
Proof.
  unfold disambiguate, dmy_reading, ymd_reading, int_opt, arg,
    is_month, is_day.
  terminates_auto.
Qed.

Lemma terminates_stages Y instr : terminates (stages Y instr).
Proof.
  unfold stages, classify, month_names.
  apply terminates_bind; [apply terminates_tokenize|]. intros runs _.
  apply terminates_bind; [apply terminates_classify_loop|]. intros st _.
  apply month_loop_terminates. lia.
Qed.

(** C8: [interpret] ends on every input, with a result or an exception.
    The month loop needs at most one iteration for each token from its
    index on: an iteration either leaves the state as it is and moves the
    index by one, or sets the month, after which the loop condition fails;
    extra iterations allowed to the loop do not change its result. *)
Theorem interpret_terminates (Y : Z) (instr : pystr) :
  terminates (interpret Y instr) /\
  (forall st n st' n',
      month_body st n = Ok (st', n') ->
      (st' = st /\ n' = S n) \/ month st' <> None) /\
  (forall st n extra,
      terminates (month_loop (length (l st) - n) st n) /\
      month_loop (length (l st) - n + extra) st n
        = month_loop (length (l st) - n) st n).
Proof.
  split; [|split].
  - unfold interpret.
    apply terminates_bind; [|intros; apply terminates_disambiguate].
    apply terminates_stages.
  - intros st n st' n' H.
    destruct (month_body_progress st n st' n' H) as [?|Hm]; [left; assumption|].
    right. intros E. rewrite E in Hm. discriminate.
  - intros st n extra. split.
    + apply month_loop_terminates. lia.
    + apply month_loop_fuel. lia.
Qed.

Lemma interpret_terminates_witness :
  terminates (interpret 2024 (str "aug 1923 12")) /\
  month_loop (4 + 8) (State [str "aug "; tag "y1923"; str " "; tag "n12"]
                            (Some 1923) None None [12]) 0
  = month_loop 4 (State [str "aug "; tag "y1923"; str " "; tag "n12"]
                        (Some 1923) None None [12]) 0.
Proof.
  split.
  - apply (interpret_terminates 2024 (str "aug 1923 12")).
  - pose proof (interpret_terminates 2024 [])
      as (_ & _ & H).
    destruct (H (State [str "aug "; tag "y1923"; str " "; tag "n12"]
                       (Some 1923) None None [12]) 0%nat 8%nat) as [_ E].
    exact E.
Defined.

(** ** The month catalogue: one entry at most matches at a position *)

Lemma str_eqb_eq a : forall b, str_eqb a b = true <-> a = b.
Proof.
  induction a as [|c a IH]; intros [|d b]; simpl; split; intros H;
    try reflexivity; try discriminate.
  - apply andb_true_iff in H as [H1 H2].
    apply N.eqb_eq in H1. apply IH in H2. congruence.
  - injection H as -> ->. rewrite N.eqb_refl. apply IH. reflexivity.
Qed.

Lemma ignorecase_eq_key p c :
  lower_letter p = true -> ignorecase_eq p c = true -> fold_key c = p.
Proof.
  unfold lower_letter, ignorecase_eq, fold_key. intros Hp H.
  rewrite andb_true_iff, !N.leb_le in Hp.
  rewrite !orb_true_iff, !andb_true_iff, !orb_true_iff, !N.eqb_eq, !N.leb_le in H.
  destruct (N.leb_spec 65 c), (N.leb_spec c 90); simpl;
    [lia| | |];
    destruct (N.eqb_spec c 304), (N.eqb_spec c 305); simpl; try lia;
    destruct (N.eqb_spec c 8490); try lia;
    destruct (N.eqb_spec c 383); lia.
Qed.

Lemma word_at_key w : forall s,
  forallb lower_letter w = true -> word_at w s = true ->
  map fold_key (firstn (length w) s) = w.
Proof.
  induction w as [|p w IH]; intros s Hw H; [reflexivity|].
  destruct s as [|c s]; [discriminate|]. simpl in *.
  apply andb_true_iff in Hw as [Hp Hw]. apply andb_true_iff in H as [Hc H].
  rewrite (ignorecase_eq_key p c Hp Hc), (IH s Hw H). reflexivity.
Qed.

Lemma match_here_word alts s n :
  match_here alts s = Some n -> exists w, In w alts /\ word_at w s = true.
Proof.
  induction alts as [|w alts IH]; simpl; [discriminate|].
  destruct (word_at w s) eqn:E.
  - intros _. exists w. auto.
  - intros H. destruct (IH H) as (w' & Hin & Hw). exists w'. auto.
Qed.

Lemma search_from_word alts s : forall pos sp,
  search_from alts pos s = Some sp ->
  (pos <= fst sp)%nat /\
  exists w, In w alts /\ word_at w (skipn (fst sp - pos) s) = true.
Proof.
  induction s as [|c s IH]; intros pos sp; simpl.
  - destruct (match_here alts []) as [n|] eqn:E; [|discriminate].
    intros H. injection H as <-. simpl. split; [lia|].
    rewrite Nat.sub_diag. apply (match_here_word alts [] n E).
  - destruct (match_here alts (c :: s)) as [n|] eqn:E.
    + intros H. injection H as <-. simpl. split; [lia|].
      rewrite Nat.sub_diag. apply (match_here_word alts (c :: s) n E).
    + intros H. destruct (IH (S pos) sp H) as (Hle & w & Hin & Hw).
      split; [lia|]. exists w. split; [assumption|].
      replace (fst sp - pos)%nat with (S (fst sp - S pos)) by lia. exact Hw.
Qed.

Lemma MONTHS_words :
  forallb (fun e => forallb catalogue_word (fst e)) MONTHS = true.
Proof. vm_compute. reflexivity. Qed.

(** Two words of the catalogue with the same first three letters belong
    to entries with the same month tag. *)
Lemma MONTHS_prefixes :
  forallb (fun e1 => forallb (fun e2 =>
    forallb (fun w1 => forallb (fun w2 =>
      implb (str_eqb (firstn 3 w1) (firstn 3 w2)) (str_eqb (snd e1) (snd e2)))
      (fst e2)) (fst e1)) MONTHS) MONTHS = true.
Proof. vm_compute. reflexivity. Qed.

Lemma MONTHS_tags_NoDup : NoDup (map snd MONTHS).
Proof.
  repeat (constructor;
          [simpl; intros H;
           repeat (destruct H as [H|H]; [discriminate H|]); exact H|]).
  constructor.
Qed.

Lemma search_key3 e tok sp :
  In e MONTHS -> re_search (fst e) tok = Some sp ->
  exists w, In w (fst e) /\
            map fold_key (firstn 3 (skipn (fst sp) tok)) = firstn 3 w.
Proof.
  intros He Hs. unfold re_search in Hs.
  destruct (search_from_word _ _ _ _ Hs) as (_ & w & Hin & Hw).
  rewrite Nat.sub_0_r in Hw. exists w. split; [assumption|].
  pose proof MONTHS_words as HW. rewrite forallb_forall in HW.
  specialize (HW e He). rewrite forallb_forall in HW. specialize (HW w Hin).
  apply andb_true_iff in HW as [Hlow Hlen]. apply Nat.leb_le in Hlen.
  pose proof (word_at_key w _ Hlow Hw) as Hk.
  apply (f_equal (firstn 3)) in Hk. rewrite <- Hk.
  rewrite firstn_map, firstn_firstn.
  replace (Nat.min 3 (length w)) with 3%nat by lia. reflexivity.
Qed.

(** Matches of two entries that start at the same position are matches of
    the same month. *)
Lemma no_start_ties e1 e2 tok sp1 sp2 :
  In e1 MONTHS -> In e2 MONTHS ->
  re_search (fst e1) tok = Some sp1 -> re_search (fst e2) tok = Some sp2 ->
  fst sp1 = fst sp2 -> snd e1 = snd e2.
Proof.
  intros H1 H2 S1 S2 Heq.
  destruct (search_key3 e1 tok sp1 H1 S1) as (w1 & Hw1 & K1).
  destruct (search_key3 e2 tok sp2 H2 S2) as (w2 & Hw2 & K2).
  rewrite Heq in K1. rewrite K1 in K2.
  pose proof MONTHS_prefixes as HP. rewrite forallb_forall in HP.
  specialize (HP e1 H1). rewrite forallb_forall in HP.
  specialize (HP e2 H2). rewrite forallb_forall in HP.
  specialize (HP w1 Hw1). rewrite forallb_forall in HP.
  specialize (HP w2 Hw2).
  rewrite (proj2 (str_eqb_eq _ _) K2) in HP. simpl in HP.
  apply str_eqb_eq. exact HP.
Qed.

(** ** The month-name matcher: which entry is selected *)

Lemma span_lt_cases a b :
  span_lt a b = true ->
  (fst a < fst b)%nat \/ (fst a = fst b /\ snd a < snd b)%nat.
Proof.
  unfold span_lt. intros H. apply orb_true_iff in H as [H|H].
  - left. apply Nat.ltb_lt. exact H.
  - right. apply andb_true_iff in H as [H1 H2].
    apply Nat.eqb_eq in H1. apply Nat.ltb_lt in H2. auto.
Qed.

Lemma span_lt_false a b : span_lt a b = false -> (fst b <= fst a)%nat.
Proof.
  unfold span_lt. intros H. apply orb_false_iff in H as [H _].
  apply Nat.ltb_ge in H. exact H.
Qed.

Lemma selection_step done rx id rest tok first :
  (done ++ (rx, id) :: rest) = MONTHS ->
  selection_so_far done tok first ->
  selection_so_far (done ++ [(rx, id)]) tok
    match re_search rx tok with
    | None => first
    | Some sp =>
        match first with
        | None => Some (sp, id)
        | Some (sp0, _) => if span_lt sp sp0 then Some (sp, id) else first
        end
    end.
Proof.
  intros HM Hsel.
  destruct (re_search rx tok) as [sp|] eqn:Hs.
  - destruct first as [[sp0 id0]|].
    + destruct Hsel as (before & rx0 & after & Hd & Hs0 & Hb & Ha).
      destruct (span_lt sp sp0) eqn:Hlt.
      * (* the new entry replaces the current one *)
        assert (Hstrict : (fst sp < fst sp0)%nat).
        { destruct (span_lt_cases _ _ Hlt) as [H|[Heq _]]; [exact H|].
          exfalso.
          assert (Hid : id = id0).
          { apply (no_start_ties (rx, id) (rx0, id0) tok sp sp0);
              try assumption.
            - rewrite <- HM. apply in_or_app. right. left. reflexivity.
            - rewrite <- HM, Hd. apply in_or_app. left.
              apply in_or_app. right. left. reflexivity. }
          pose proof MONTHS_tags_NoDup as ND.
          rewrite <- HM, Hd, Hid in ND.
          rewrite <- app_assoc in ND. simpl in ND.
          rewrite map_app in ND. simpl in ND.
          apply NoDup_remove_2 in ND. apply ND.
          apply in_or_app. right. rewrite map_app.
          apply in_or_app. right. left. reflexivity. }
        exists done, rx, []. repeat split; try assumption.
        -- intros e sp' He Hs'. rewrite Hd in He.
           apply in_app_or in He as [He|[<-|He]].
           ++ specialize (Hb e sp' He Hs'). lia.
           ++ simpl in Hs'. rewrite Hs0 in Hs'. injection Hs' as <-. exact Hstrict.
           ++ specialize (Ha e sp' He Hs'). lia.
        -- intros e sp' [].
      * (* the current entry stays *)
        exists before, rx0, (after ++ [(rx, id)]).
        repeat split; try assumption.
        -- rewrite Hd, <- app_assoc. reflexivity.
        -- intros e sp' He Hs'. apply in_app_or in He as [He|[<-|[]]].
           ++ apply (Ha e sp' He Hs').
           ++ simpl in Hs'. rewrite Hs in Hs'. injection Hs' as <-.
              apply span_lt_false. exact Hlt.
    + exists done, rx, []. repeat split; try assumption.
      * intros e sp' He Hs'. rewrite (Hsel e He) in Hs'. discriminate.
      * intros e sp' [].
  - destruct first as [[sp0 id0]|].
    + destruct Hsel as (before & rx0 & after & Hd & Hs0 & Hb & Ha).
      exists before, rx0, (after ++ [(rx, id)]).
      repeat split; try assumption.
      * rewrite Hd, <- app_assoc. reflexivity.
      * intros e sp' He Hs'. apply in_app_or in He as [He|[<-|[]]].
        -- apply (Ha e sp' He Hs').
        -- simpl in Hs'. rewrite Hs in Hs'. discriminate.
    + intros e He. apply in_app_or in He as [He|[<-|[]]].
      * apply (Hsel e He).
      * exact Hs.
Qed.

Lemma first_match_in_selection rest : forall done tok first,
  done ++ rest = MONTHS ->
  selection_so_far done tok first ->
  selection_so_far MONTHS tok (first_match_in rest tok first).
Proof.
  induction rest as [|[rx id] rest IH]; intros done tok first HM Hsel.
  - rewrite app_nil_r in HM. subst done. exact Hsel.
  - pose proof (selection_step done rx id rest tok first HM Hsel) as Hstep.
    assert (HM' : (done ++ [(rx, id)]) ++ rest = MONTHS)
      by (rewrite <- app_assoc; exact HM).
    simpl. destruct (re_search rx tok) as [sp|].
    + destruct first as [[sp0 id0]|].
      * destruct (span_lt sp sp0); apply (IH _ _ _ HM' Hstep).
      * apply (IH _ _ _ HM' Hstep).
    + apply (IH _ _ _ HM' Hstep).
Qed.

Lemma first_match_selection tok :
  selection_so_far MONTHS tok (first_match tok).
Proof.
  apply (first_match_in_selection MONTHS [] tok None); [reflexivity|].
  intros e [].
Qed.

(** A token has a match exactly when an entry of the catalogue is found
    in it. *)
Lemma first_match_none tok :
  first_match tok = None <->
  (forall e, In e MONTHS -> re_search (fst e) tok = None).
Proof.
  pose proof (first_match_selection tok) as H. split.
  - intros E. rewrite E in H. exact H.
  - intros Hno. destruct (first_match tok) as [[sp id]|]; [|reflexivity].
    destruct H as (before & rx & after & HM & Hs & _).
    assert (Hin : In (rx, id) MONTHS)
      by (rewrite HM; apply in_or_app; right; left; reflexivity).
    specialize (Hno (rx, id) Hin). simpl in Hno. congruence.
Qed.

(** ** The month-name matcher: what the loop does to the list *)

Lemma nth_error_middle {A} (pre : list A) x post :
  nth_error (pre ++ x :: post) (length pre) = Some x.
Proof. induction pre; simpl; auto. Qed.

Lemma firstn_prefix {A} (pre rest : list A) :
  firstn (length pre) (pre ++ rest) = pre.
Proof. induction pre; simpl; [destruct rest|]; congruence. Qed.

Lemma skipn_prefix {A} (pre rest : list A) :
  skipn (length pre) (pre ++ rest) = rest.
Proof. induction pre; simpl; auto. Qed.

Lemma py_index_middle {A} (pre : list A) x post :
  py_index (pre ++ x :: post) (length pre) = Ok x.
Proof. unfold py_index. rewrite nth_error_middle. reflexivity. Qed.

Lemma py_pop_middle {A} (pre : list A) x post :
  py_pop (pre ++ x :: post) (length pre) = Ok (x, pre ++ post).
Proof.
  unfold py_pop. rewrite nth_error_middle, firstn_prefix.
  change (S (length pre)) with (1 + length pre)%nat.
  rewrite <- skipn_skipn, skipn_prefix. reflexivity.
Qed.

Lemma py_insert_middle {A} (pre post : list A) v :
  py_insert (pre ++ post) (length pre) v = pre ++ v :: post.
Proof. unfold py_insert. rewrite firstn_prefix, skipn_prefix. reflexivity. Qed.

Lemma month_body_no_match st pre x post :
  l st = pre ++ x :: post -> first_match x = None ->
  month_body st (length pre) = Ok (st, S (length pre)).
Proof.
  intros Hl Hx. unfold month_body. rewrite Hl, py_index_middle. simpl.
  rewrite Hx. reflexivity.
Qed.

Lemma month_body_match st pre x post sp id :
  l st = pre ++ x :: post -> first_match x = Some (sp, id) ->
  exists n',
    month_body st (length pre)
    = Ok (State (pre ++ splice sp id x ++ post) (year st)
                (Some (VStr (skipn 2 id))) (day st) (nbrs st), n').
Proof.
  intros Hl Hx. unfold month_body, splice.
  rewrite Hl, py_index_middle. simpl. rewrite Hx.
  rewrite py_pop_middle. simpl.
  destruct (0 <? fst sp)%nat.
  - rewrite py_insert_middle.
    change (pre ++ firstn (fst sp) x :: post)
      with (pre ++ [firstn (fst sp) x] ++ post).
    rewrite app_assoc.
    replace (S (length pre)) with (length (pre ++ [firstn (fst sp) x]))
      by (rewrite length_app; simpl; lia).
    rewrite py_insert_middle, py_index_middle. simpl.
    destruct (snd sp <? length x)%nat.
    + change ((pre ++ [firstn (fst sp) x]) ++ id :: post)
        with ((pre ++ [firstn (fst sp) x]) ++ [id] ++ post).
      rewrite (app_assoc _ [id] post).
      replace (S (length (pre ++ [firstn (fst sp) x])))
        with (length ((pre ++ [firstn (fst sp) x]) ++ [id]))
        by (rewrite !length_app; simpl; lia).
      rewrite py_insert_middle. eexists. rewrite <- !app_assoc. reflexivity.
    + eexists. rewrite <- !app_assoc. reflexivity.
  - rewrite py_insert_middle, py_index_middle. simpl.
    destruct (snd sp <? length x)%nat.
    + change (pre ++ id :: post) with (pre ++ [id] ++ post).
      rewrite app_assoc.
      replace (S (length pre)) with (length (pre ++ [id]))
        by (rewrite length_app; simpl; lia).
      rewrite py_insert_middle. eexists. rewrite <- !app_assoc. reflexivity.
    + eexists. reflexivity.
Qed.

(** The loop from the index [length pre] on, when no month is set: the
    tokens without a match are passed over, the first token with a match
    is replaced by its pieces and the month is set from its tag. *)
Lemma month_loop_scan rest : forall fuel st pre,
  month st = None -> l st = pre ++ rest -> (length rest <= fuel)%nat ->
  (Forall (fun t => first_match t = None) rest ->
   month_loop fuel st (length pre) = Ok st) /\
  (forall skipped x post sp id,
      rest = skipped ++ x :: post ->
      Forall (fun t => first_match t = None) skipped ->
      first_match x = Some (sp, id) ->
      month_loop fuel st (length pre)
      = Ok (State (pre ++ skipped ++ splice sp id x ++ post) (year st)
                  (Some (VStr (skipn 2 id))) (day st) (nbrs st))).
Proof.
  induction rest as [|t rest IH]; intros fuel st pre Hm Hl Hfuel.
  - split.
    + intros _. rewrite app_nil_r in Hl.
      destruct fuel; simpl; rewrite Hl, Nat.ltb_irrefl; reflexivity.
    + intros [|? ?] x post sp id H; discriminate.
  - destruct fuel as [|fuel]; [simpl in Hfuel; lia|].
    assert (Hcond : ((length pre <? length (l st))%nat && is_none (month st)) = true).
    { rewrite Hm, Hl, length_app. simpl.
      rewrite andb_true_r. apply Nat.ltb_lt. lia. }
    assert (Hl' : l st = (pre ++ [t]) ++ rest) by (rewrite <- app_assoc; exact Hl).
    assert (Hlen : length (pre ++ [t]) = S (length pre))
      by (rewrite length_app; simpl; lia).
    specialize (IH fuel st (pre ++ [t]) Hm Hl' ltac:(simpl in Hfuel; lia)).
    rewrite Hlen in IH. destruct IH as [IH1 IH2].
    split.
    + intros Hall. inversion Hall as [|? ? Ht Hrest]; subst.
      simpl. rewrite Hcond, (month_body_no_match st pre t rest Hl Ht). simpl.
      apply IH1. assumption.
    + intros skipped x post sp id Hrest Hskipped Hx.
      simpl. rewrite Hcond.
      destruct skipped as [|t' skipped].
      * simpl in Hrest. injection Hrest as -> ->.
        destruct (month_body_match st pre x post sp id Hl Hx) as [n' ->].
        simpl. destruct fuel; simpl; rewrite andb_false_r; reflexivity.
      * simpl in Hrest. injection Hrest as -> ->.
        inversion Hskipped as [|? ? Ht Hsk]; subst.
        rewrite (month_body_no_match st pre t' _ Hl Ht). simpl.
        rewrite (IH2 skipped x post sp id eq_refl Hsk Hx).
        rewrite <- app_assoc. reflexivity.
Qed.

(** C5: the month-name matcher.  When a month is already set the loop does
    nothing.  Otherwise it passes over the tokens in which no entry of the
    catalogue is found and stops at the first token [x] in which one is:
    the month becomes the number in the tag of the selected entry, [x] is
    replaced by its pieces, and nothing else changes; when no token has a
    match the state stays as it is.  The selected entry is the one whose
    match starts earliest in the token and, among entries whose matches
    start at the same position, the one listed first in the catalogue. *)
Theorem month_name_matcher (st : state) :
  (month st <> None -> month_names st = Ok st) /\
  (month st = None ->
   Forall (fun t => forall e, In e MONTHS -> re_search (fst e) t = None) (l st) ->
   month_names st = Ok st) /\
  (forall skipped x post sp id,
      month st = None ->
      l st = skipped ++ x :: post ->
      Forall (fun t => forall e, In e MONTHS -> re_search (fst e) t = None) skipped ->
      first_match x = Some (sp, id) ->
      month_names st
      = Ok (State (skipped ++ splice sp id x ++ post) (year st)
                  (Some (VStr (skipn 2 id))) (day st) (nbrs st))) /\
  (forall x,
      match first_match x with
      | Some (sp, id) => selected MONTHS x sp id
      | None => forall e, In e MONTHS -> re_search (fst e) x = None
      end).
Proof.
  assert (Hnone : forall ts,
             Forall (fun t => forall e, In e MONTHS -> re_search (fst e) t = None) ts ->
             Forall (fun t => first_match t = None) ts).
  { intros ts H. eapply Forall_impl; [|exact H].
    intros t Ht. apply first_match_none. exact Ht. }
  repeat split.
  - intros Hm. unfold month_names.
    destruct (month st) eqn:E; [|congruence].
    destruct (length (l st)); simpl; rewrite E, andb_false_r; reflexivity.
  - intros Hm Hall.
    apply (proj1 (month_loop_scan (l st) (length (l st)) st [] Hm eq_refl (le_n _))).
    apply Hnone. exact Hall.
  - intros skipped x post sp id Hm Hl Hsk Hx.
    apply (proj2 (month_loop_scan (l st) (length (l st)) st [] Hm eq_refl (le_n _))
             skipped x post sp id Hl (Hnone _ Hsk) Hx).
  - intros x. exact (first_match_selection x).
Qed.

Lemma month_name_matcher_witness :
  month_names (State [tag "n12"; str " Sept. "; tag "y1983"]
                     (Some 1983) None None [12])
  = Ok (State [tag "n12"; str " "; tag "m9"; str ". "; tag "y1983"]
              (Some 1983) (Some (VStr (str "9"))) None [12]).
Proof.
  destruct (month_name_matcher
              (State [tag "n12"; str " Sept. "; tag "y1983"]
                     (Some 1983) None None [12])) as (_ & _ & H & _).
  apply (H [tag "n12"] (str " Sept. ") [tag "y1983"] (1, 5)%nat (tag "m9"));
    try reflexivity.
  constructor; [|constructor].
  intros e He. simpl in He.
  repeat (destruct He as [<-|He]; [reflexivity|]). contradiction.
Defined.

(** ** The classifier: what one iteration can do *)

Lemma classify_one_outcome Y st n x r :
  classify_one Y st n x = Ok r -> classify_outcome st n x r.
Proof.
  unfold classify_one.
  destruct (isdigit x) eqn:Hd; simpl negb; cbv iota.
  2: { intros H. injection H as <-. constructor. }
  repeat match goal with
         | |- bind ?c _ = Ok _ -> _ =>
             let E := fresh "E" in
             destruct c eqn:E; cbn [bind]; try discriminate
         | |- (if ?b then _ else _) = Ok _ -> _ => destruct b
         | |- Ok _ = Ok _ -> _ =>
             let H := fresh in intros H; injection H as <-
         end;
    first [ apply outcome_skip
          | apply outcome_break; assumption
          | eapply outcome_tag;
            [assumption | eassumption | first [intros _; discriminate | auto]] ].
Qed.

(** ** The classifier: what the loop maintains *)

Lemma replace_nth_length {A} (s : list A) n v :
  (n < length s)%nat -> length (firstn n s ++ v :: skipn (S n) s) = length s.
Proof.
  intros Hn. rewrite length_app, length_firstn. cbn [length].
  rewrite length_skipn. lia.
Qed.

Lemma replace_nth_other {A} (s : list A) n v k :
  (n < length s)%nat -> k <> n ->
  nth_error (firstn n s ++ v :: skipn (S n) s) k = nth_error s k.
Proof.
  intros Hn Hk.
  destruct (Nat.lt_ge_cases k n) as [Hlt|Hge].
  - rewrite nth_error_app1 by (rewrite length_firstn; lia).
    rewrite nth_error_firstn.
    destruct (Nat.ltb_spec k n); [reflexivity|lia].
  - rewrite nth_error_app2 by (rewrite length_firstn; lia).
    rewrite length_firstn.
    replace (Nat.min n (length s)) with n by lia.
    destruct (k - n)%nat as [|j] eqn:Hj; [lia|]. cbn [nth_error].
    rewrite nth_error_skipn. f_equal. lia.
Qed.

Lemma py_setitem_length {A} (s : list A) n v s' :
  py_setitem s n v = Ok s' -> length s' = length s.
Proof.
  unfold py_setitem. destruct (Nat.ltb_spec n (length s)) as [Hn|Hn]; [|discriminate].
  intros E. injection E as <-. apply (replace_nth_length s n v Hn).
Qed.

Lemma py_setitem_other {A} (s : list A) n v s' k :
  py_setitem s n v = Ok s' -> k <> n -> nth_error s' k = nth_error s k.
Proof.
  unfold py_setitem. destruct (Nat.ltb_spec n (length s)) as [Hn|Hn]; [|discriminate].
  intros E Hk. injection E as <-. apply (replace_nth_other s n v k Hn Hk).
Qed.

Lemma py_setitem_ok {A} (s : list A) n v :
  (n < length s)%nat -> exists s', py_setitem s n v = Ok s'.
Proof.
  intros Hn. unfold py_setitem.
  destruct (Nat.ltb_spec n (length s)); [eauto|lia].
Qed.

Lemma classify_one_inv Y st n x r :
  classify_one Y st n x = Ok r ->
  length (l (state_of r)) = length (l st) /\
  (month_is_int (month st) -> month_is_int (month (state_of r))) /\
  (forall k, (k = n -> isdigit x = false) ->
             nth_error (l (state_of r)) k = nth_error (l st) k) /\
  (year st <> None -> year (state_of r) <> None).
Proof.
  intros H. apply classify_one_outcome in H.
  destruct H as [| y m d Hd | t l' y d nb Hd Hset Hy]; simpl.
  - auto.
  - repeat split; auto. intros _. discriminate.
  - repeat split; auto.
    + apply (py_setitem_length _ _ _ _ Hset).
    + intros k Hk. apply (py_setitem_other _ _ _ _ _ Hset).
      intros ->. specialize (Hk eq_refl). congruence.
Qed.

Lemma classify_loop_inv Y items : forall st st',
  classify_loop Y st items = Ok st' ->
  length (l st') = length (l st) /\
  (month_is_int (month st) -> month_is_int (month st')) /\
  (forall k, (forall n x, In (n, x) items -> n = k -> isdigit x = false) ->
             nth_error (l st') k = nth_error (l st) k) /\
  (year st <> None -> year st' <> None).
Proof.
  induction items as [|[n x] items IH]; intros st st' H; simpl in H.
  - injection H as <-. auto.
  - destruct (classify_one Y st n x) as [r| |] eqn:Hone; simpl in H;
      try discriminate.
    destruct (classify_one_inv Y st n x r Hone) as (Hlen & Hmon & Hnth & Hyr).
    destruct r as [st1|st1]; simpl in *.
    + destruct (IH st1 st' H) as (Hlen' & Hmon' & Hnth' & Hyr').
      repeat split.
      * congruence.
      * auto.
      * intros k Hk. rewrite Hnth', Hnth.
        -- reflexivity.
        -- intros ->. apply (Hk n x); auto.
        -- intros n' x' Hin. apply Hk. right. exact Hin.
      * auto.
    + injection H as <-. repeat split; auto.
      intros k Hk. apply Hnth. intros ->. apply (Hk n x); auto.
Qed.

Lemma in_combine_seq {A} (xs : list A) : forall a n x,
  In (n, x) (combine (seq a (length xs)) xs) ->
  (a <= n)%nat /\ nth_error xs (n - a) = Some x.
Proof.
  induction xs as [|y xs IH]; intros a n x; simpl; [intros []|].
  intros [H|H].
  - injection H as <- <-. rewrite Nat.sub_diag. auto.
  - destruct (IH (S a) n x H) as [Hle Hn]. split; [lia|].
    replace (n - a)%nat with (S (n - S a)) by lia. exact Hn.
Qed.

Lemma in_enumerate {A} (xs : list A) n x :
  In (n, x) (enumerate xs) -> nth_error xs n = Some x.
Proof.
  intros H. apply in_combine_seq in H as [_ H].
  rewrite Nat.sub_0_r in H. exact H.
Qed.

(** After the classification the list has as many elements as before,
    the runs that are not digit runs are where and what they were, and
    the month is unset or an [int]. *)
Lemma classify_inv Y runs st :
  classify Y runs = Ok st ->
  length (l st) = length runs /\
  month_is_int (month st) /\
  (forall k r, nth_error runs k = Some r -> isdigit r = false ->
               nth_error (l st) k = Some r).
Proof.
  unfold classify. intros H.
  destruct (classify_loop_inv Y _ _ _ H) as (Hlen & Hmon & Hnth & _).
  simpl in *. repeat split; auto.
  intros k r Hk Hr. rewrite Hnth; [exact Hk|].
  intros n x Hin ->. apply in_enumerate in Hin. congruence.
Qed.

(** ** The month-name matcher: the possible results *)

Lemma first_matching_token (ts : list pystr) :
  Forall (fun t => first_match t = None) ts \/
  exists skipped x post sp id,
    ts = skipped ++ x :: post /\
    Forall (fun t => first_match t = None) skipped /\
    first_match x = Some (sp, id).
Proof.
  induction ts as [|t ts IH].
  - left. constructor.
  - destruct (first_match t) as [[sp id]|] eqn:Ht.
    + right. exists [], t, ts, sp, id. repeat split; auto.
    + destruct IH as [IH|(skipped & x & post & sp & id & -> & Hsk & Hx)].
      * left. constructor; assumption.
      * right. exists (t :: skipped), x, post, sp, id.
        repeat split; auto.
Qed.

Lemma month_names_cases st :
  month_names st = Ok st \/
  (month st = None /\
   exists skipped x post sp id,
     l st = skipped ++ x :: post /\
     Forall (fun t => first_match t = None) skipped /\
     first_match x = Some (sp, id) /\
     month_names st
     = Ok (State (skipped ++ splice sp id x ++ post) (year st)
                 (Some (VStr (skipn 2 id))) (day st) (nbrs st))).
Proof.
  destruct (month st) as [m|] eqn:Hm.
  - left. unfold month_names.
    destruct (length (l st)); simpl; rewrite Hm, andb_false_r; reflexivity.
  - pose proof (month_loop_scan (l st) (length (l st)) st [] Hm eq_refl (le_n _))
      as [H1 H2].
    destruct (first_matching_token (l st))
      as [Hall|(skipped & x & post & sp & id & Hl & Hsk & Hx)].
    + left. apply H1. exact Hall.
    + right. split; [reflexivity|].
      exists skipped, x, post, sp, id. repeat split; auto.
      apply (H2 skipped x post sp id Hl Hsk Hx).
Qed.

Lemma MONTHS_tags : forallb (fun e => month_tag (snd e)) MONTHS = true.
Proof. vm_compute. reflexivity. Qed.

Lemma first_match_tag x sp id :
  first_match x = Some (sp, id) -> month_tag id = true.
Proof.
  intros H. pose proof (first_match_selection x) as Hs. rewrite H in Hs.
  destruct Hs as (before & rx & after & HM & _).
  pose proof MONTHS_tags as HT. rewrite forallb_forall in HT.
  apply (HT (rx, id)). rewrite HM. apply in_or_app. right. left. reflexivity.
Qed.

Lemma month_tag_int id :
  month_tag id = true ->
  exists m, int_str (skipn 2 id) = Ok m /\ 1 <= m <= 12.
Proof.
  unfold month_tag. intros H. apply andb_true_iff in H as [_ H].
  destruct (int_str (skipn 2 id)) as [m| |]; try discriminate.
  apply andb_true_iff in H as [H1 H2].
  apply Z.leb_le in H1, H2. eauto.
Qed.

Lemma int_opt_str s m : int_str s = Ok m -> int_opt (Some (VStr s)) = Ok (Some m).
Proof. intros H. simpl. rewrite H. reflexivity. Qed.

(** After the three loops, [int(month)] does not fail. *)
Lemma stages_month Y instr st :
  stages Y instr = Ok st ->
  exists mo, int_opt (month st) = Ok mo /\ is_some mo = is_some (month st).
Proof.
  unfold stages. intros H.
  destruct (tokenize instr) as [runs| |]; simpl in H; try discriminate.
  destruct (classify Y runs) as [st0| |] eqn:Hc; simpl in H; try discriminate.
  destruct (classify_inv Y runs st0 Hc) as (_ & Hmon & _).
  destruct (month_names_cases st0)
    as [E|(_ & skipped & x & post & sp & id & _ & _ & Hx & E)];
    rewrite E in H; injection H as <-.
  - destruct (month st0) as [[z|s]|]; simpl in *; [eauto|contradiction|eauto].
  - destruct (month_tag_int id (first_match_tag x sp id Hx)) as (m & Hm & _).
    exists (Some m). split; [apply (int_opt_str _ m Hm) | reflexivity].
Qed.

(** ** The two-candidate rule: the day-month-year reading *)

Lemma is_day_int a : 1 <= a <= 31 -> is_day (VInt a) = Ok true.
Proof.
  intros [H1 H2]. unfold is_day. simpl.
  rewrite (proj2 (Z.leb_le 1 a) H1), (proj2 (Z.leb_le a 31) H2). reflexivity.
Qed.

Lemma is_month_int b : 1 <= b <= 12 -> is_month (VInt b) = Ok true.
Proof.
  intros [H1 H2]. unfold is_month. simpl.
  rewrite (proj2 (Z.leb_le 1 b) H1), (proj2 (Z.leb_le b 12) H2). reflexivity.
Qed.

Lemma two_separators_count x :
  (count DASH x = 2 \/ count DOT x = 2)%nat -> two_separators x = true.
Proof.
  unfold two_separators. simpl existsb. fold DASH DOT.
  intros [H|H]; rewrite H; simpl; auto using orb_true_r.
Qed.

Lemma int_opt_day d : int_opt (option_map VInt d) = Ok d.
Proof. destruct d; reflexivity. Qed.

(** The decisions of [disambiguate] that come before the two-candidate
    rule do not apply when there are two candidates and the month or the
    day is open. *)
Lemma disambiguate_two_candidates st y mo a b :
  year st = Some y ->
  int_opt (month st) = Ok mo ->
  nbrs st = [a; b] ->
  is_some mo && is_some (day st) = false ->
  disambiguate st
  = (r <- dmy_reading st y ;;
     match r with
     | Some s => Ok (Some s)
     | None =>
         r' <- ymd_reading st y ;;
         match r' with
         | Some s => Ok (Some s)
         | None =>
             if is_some mo then m <- arg mo ;; Ok (Some (fmt_ym y m))
             else Ok (Some (fmt_y y))
         end
     end).
Proof.
  intros Hy Hmo Hn Hopen. unfold disambiguate.
  rewrite Hy, Hmo, int_opt_day, Hn. cbn [int_ bind length Nat.eqb].
  rewrite Hopen, andb_false_r. cbn [andr bind].
  destruct (is_some mo), (is_none mo), (is_some (day st)), (is_none (day st));
    cbn [andr bind];
    destruct (dmy_reading st y) as [[s|]| |]; cbn [bind]; try reflexivity;
    destruct (ymd_reading st y) as [[s|]| |]; reflexivity.
Qed.

Lemma dmy_reading_fires st y a b t :
  nbrs st = [a; b] ->
  py_last (l st) = Ok t -> firstn 2 t = tag "y" ->
  1 <= a <= 31 -> 1 <= b <= 12 ->
  (count DASH (concat (l st)) = 2 \/ count DOT (concat (l st)) = 2)%nat ->
  dmy_reading st y = Ok (Some (fmt_ymd y b a)).
Proof.
  intros Hn Ht Htag Ha Hb Hsep. unfold dmy_reading.
  rewrite Hn, Ht. cbn [bind py_index nth_error andr].
  rewrite Htag, (proj2 (str_eqb_eq _ _) eq_refl).
  rewrite (is_day_int a Ha), (is_month_int b Hb).
  cbn [bind andr]. rewrite (two_separators_count _ Hsep). reflexivity.
Qed.

(** C3, as the code has it: when the three loops leave exactly two
    candidate numbers [a] and [b], a year, the month or the day still open,
    a last token that starts with the year tag, [a] within the day bound,
    [b] within the month bound, and exactly two "-" or exactly two "." in
    the joined tokens, the result is year-[b]-[a].  In particular
    "12.11.1983" gives "1983-11-12". *)
Theorem dmy_reading_rule (Y : Z) :
  (forall instr st y a b,
      stages Y instr = Ok st ->
      year st = Some y ->
      nbrs st = [a; b] ->
      (month st = None \/ day st = None) ->
      (exists t, py_last (l st) = Ok t /\ firstn 2 t = tag "y") ->
      1 <= a <= 31 -> 1 <= b <= 12 ->
      (count DASH (concat (l st)) = 2 \/ count DOT (concat (l st)) = 2)%nat ->
      interpret Y instr = Ok (Some (fmt_ymd y b a))) /\
  (1983 <= Y ->
   interpret Y (str "12.11.1983") = Ok (Some (str "1983-11-12"))).
Proof.
  split.
  - intros instr st y a b Hst Hy Hn Hopen (t & Ht & Htag) Ha Hb Hsep.
    unfold interpret. rewrite Hst. cbn [bind].
    destruct (stages_month Y instr st Hst) as (mo & Hmo & Hsome).
    rewrite (disambiguate_two_candidates st y mo a b Hy Hmo Hn).
    + rewrite (dmy_reading_fires st y a b t Hn Ht Htag Ha Hb Hsep). reflexivity.
    + rewrite Hsome. destruct Hopen as [-> | ->]; simpl; auto using andb_false_r.
  - intros H. run_from 1983.
Qed.

Lemma dmy_reading_rule_witness :
  interpret 2024 (str "12-11-1983") = Ok (Some (fmt_ymd 1983 11 12)) /\
  interpret 2024 (str "12.11.1983") = Ok (Some (str "1983-11-12")).
Proof.
  destruct (dmy_reading_rule 2024) as [Hrule Hcase]. split.
  - apply (Hrule (str "12-11-1983")
                 (State [tag "n12"; str "-"; tag "n11"; str "-"; tag "y1983"]
                        (Some 1983) None None [12; 11])
                 1983 12 11).
    + vm_compute. reflexivity.
    + reflexivity.
    + reflexivity.
    + left. reflexivity.
    + exists (tag "y1983"). split; reflexivity.
    + lia.
    + lia.
    + left. reflexivity.
  - apply Hcase. lia.
Defined.

(** C3, as stated, fails: on "13 aug 12.11.1983" the three loops leave the
    two candidates 12 and 11, a last token with the year tag and two ".",
    and the result is "1983-08-13", from the day 13 and the month name,
    not the day-month-year reading "1983-11-12". *)
Lemma dmy_reading_preempted :
  exists st,
    stages 2024 (str "13 aug 12.11.1983") = Ok st /\
    year st = Some 1983 /\
    nbrs st = [12; 11] /\
    (exists t, py_last (l st) = Ok t /\ firstn 2 t = tag "y") /\
    count DOT (concat (l st)) = 2%nat /\
    interpret 2024 (str "13 aug 12.11.1983") = Ok (Some (str "1983-08-13")) /\
    interpret 2024 (str "13 aug 12.11.1983") <> Ok (Some (fmt_ymd 1983 11 12)).
Proof.
  eexists. split; [vm_compute; reflexivity|].
  repeat split.
  - eexists. split; reflexivity.
  - vm_compute. discriminate.
Qed.

(** ** The two-candidate rule: which tokens it looks at *)







(** The last run of the split input ends with the last character of the
    input, the first run starts with its first character. *)
Lemma last_run runs body c :
  split_inv runs -> concat runs = body ++ [c] ->
  exists init r,
    runs = init ++ [r] /\ run_of (isdigit_char c) r /\
    (forall d, In d r -> In d (body ++ [c])).
Proof.
  intros (Hne & Hruns & _) Hcat.
  destruct (exists_last Hne) as (init & r & ->).
  exists init, r. split; [reflexivity|].
  apply Forall_app in Hruns as [_ Hr]. inversion Hr as [|? ? [b Hb] _]; subst.
  rewrite concat_app in Hcat. simpl in Hcat. rewrite app_nil_r in Hcat.
  split.
  - destruct Hb as [Hrne Hall].
    destruct (exists_last Hrne) as (r' & c' & ->).
    rewrite app_assoc in Hcat. apply app_inj_tail in Hcat as [_ ->].
    split; [assumption|].
    assert (Hc : isdigit_char c = b).
    { apply Forall_app in Hall as [_ Hall]. inversion Hall; assumption. }
    rewrite Hc. exact Hall.
  - intros d Hd. rewrite <- Hcat. apply in_or_app. right. exact Hd.
Qed.






Lemma py_index_0_app {A} (xs ys : list A) :
  xs <> [] -> py_index (xs ++ ys) 0 = py_index xs 0.
Proof. destruct xs; [congruence | reflexivity]. Qed.


(** ** Inputs whose digits are all decimal: no exception *)

Lemma succeeds_bind {A B} (r : result A) (k : A -> result B) :
  succeeds r -> (forall a, r = Ok a -> succeeds (k a)) -> succeeds (bind r k).
Proof. intros [a ->] H. simpl. apply H. reflexivity. Qed.

Lemma succeeds_andr a b :
  succeeds a -> (a = Ok true -> succeeds b) -> succeeds (andr a b).
Proof.
  intros [[|] ->] H; unfold andr; simpl; [auto | eexists; reflexivity].
Qed.

Lemma andr_true a b : andr a b = Ok true -> a = Ok true /\ b = Ok true.
Proof.
  unfold andr. destruct a as [[|]| |]; simpl; intros H;
    try discriminate; auto.
Qed.

Lemma decimal_firstn k x : decimal_run x -> (0 < k)%nat -> decimal_run (firstn k x).
Proof.
  intros [Hne Hall] Hk. split.
  - destruct x; [congruence|]. destruct k; [lia | discriminate].
  - rewrite <- (firstn_skipn k x) in Hall. apply Forall_app in Hall. tauto.
Qed.

Lemma decimal_skipn k x :
  decimal_run x -> (k < length x)%nat -> decimal_run (skipn k x).
Proof.
  intros [Hne Hall] Hk. split.
  - intros E. apply (f_equal (@length _)) in E.
    rewrite length_skipn in E. simpl in E. lia.
  - rewrite <- (firstn_skipn k x) in Hall. apply Forall_app in Hall. tauto.
Qed.

Lemma succeeds_int_str x :
  decimal_run x -> within_limit x = true -> succeeds (int_str x).
Proof. apply int_str_decimal. Qed.

(** What the conditions that were found true say about the run. *)
Ltac use_conditions :=
  repeat match goal with
         | H : andr _ _ = Ok true |- _ =>
             apply andr_true in H; destruct H
         | H : Ok (_ =? _)%nat = Ok true |- _ =>
             injection H as H; apply Nat.eqb_eq in H
         end.

Ltac succeeds_slice :=
  use_conditions; apply succeeds_int_str; unfold slice;
  [ repeat first [ assumption
                 | apply decimal_firstn; [|lia]
                 | apply decimal_skipn; [|lia] ]
  | first [ solve [ repeat first [ assumption
                                 | apply within_limit_firstn
                                 | apply within_limit_skipn ] ]
          | apply within_limit_short;
            rewrite ?length_firstn, ?length_skipn; lia ] ].

Ltac succeeds_step :=
  match goal with
  | |- succeeds (Ok _) => eexists; reflexivity
  | |- succeeds (bind _ _) => apply succeeds_bind; [|intros ? ?]
  | |- succeeds (andr _ _) => apply succeeds_andr; [|intros ?]
  | |- succeeds (if ?b then _ else _) => destruct b
  | |- succeeds (is_year _ _) => unfold is_year
  | |- succeeds (is_y2k _) => unfold is_y2k
  | |- succeeds (is_month _) => unfold is_month
  | |- succeeds (is_day _) => unfold is_day
  | |- succeeds (int_ (VInt _)) => eexists; reflexivity
  | |- succeeds (int_ (VStr _)) => cbn [int_]
  | |- succeeds (py_setitem _ _ _) => apply py_setitem_ok; assumption
  | |- succeeds (int_str _) => succeeds_slice
  end.

Lemma classify_one_succeeds Y st n x :
  (n < length (l st))%nat ->
  isdigit x = false \/ (decimal_run x /\ within_limit x = true) ->
  succeeds (classify_one Y st n x).
Proof.
  intros Hn Hx. unfold classify_one.
  destruct (isdigit x) eqn:Hd; simpl negb; cbv iota; [|eexists; reflexivity].
  destruct Hx as [Hx|[Hx Hlim]]; [discriminate|].
  repeat succeeds_step.
Qed.

Lemma classify_loop_succeeds Y items : forall st,
  (forall n x, In (n, x) items ->
               (n < length (l st))%nat /\
               (isdigit x = false \/ (decimal_run x /\ within_limit x = true))) ->
  succeeds (classify_loop Y st items).
Proof.
  induction items as [|[n x] items IH]; intros st Hitems; simpl.
  - eexists; reflexivity.
  - destruct (Hitems n x (or_introl eq_refl)) as [Hn Hx].
    destruct (classify_one_succeeds Y st n x Hn Hx) as [r Hr]. rewrite Hr. simpl.
    destruct (classify_one_inv Y st n x r Hr) as (Hlen & _).
    destruct r as [st1|st1]; simpl in *; [|eexists; reflexivity].
    apply IH. intros n' x' Hin. rewrite Hlen. apply Hitems. right. exact Hin.
Qed.

(** When the digit characters of the input are all decimal and no digit
    run is longer than [int] accepts, every run is either not a digit run
    or a run of decimal digits that [int] converts. *)
Lemma runs_classifiable runs :
  split_inv runs ->
  (forall c, In c (concat runs) -> isdigit_char c = true -> isdecimal_char c = true) ->
  forallb (fun r => negb (isdigit r) || within_limit r) runs = true ->
  forall r, In r runs ->
            isdigit r = false \/ (decimal_run r /\ within_limit r = true).
Proof.
  intros (_ & Hruns & _) Hdec Hlim r Hr.
  rewrite forallb_forall in Hlim. specialize (Hlim r Hr).
  rewrite Forall_forall in Hruns. destruct (Hruns r Hr) as [[|] Hb].
  - right. rewrite (isdigit_run true r Hb) in Hlim. split; [|exact Hlim].
    destruct Hb as [Hne Hall]. split; [assumption|].
    rewrite Forall_forall in *. intros c Hc. apply Hdec; [|auto].
    apply in_concat. exists r. auto.
  - left. apply (isdigit_run false r Hb).
Qed.

Lemma classify_succeeds Y runs :
  split_inv runs ->
  (forall c, In c (concat runs) -> isdigit_char c = true -> isdecimal_char c = true) ->
  forallb (fun r => negb (isdigit r) || within_limit r) runs = true ->
  succeeds (classify Y runs).
Proof.
  intros Hinv Hdec Hlim. unfold classify. apply classify_loop_succeeds.
  intros n x Hin. apply in_enumerate in Hin. simpl. split.
  - apply nth_error_Some. congruence.
  - apply (runs_classifiable runs Hinv Hdec Hlim). apply (nth_error_In _ _ Hin).
Qed.

(** ** The result: nothing, or a date with the year *)

Lemma date_string_y y : date_string y (fmt_y y).
Proof. left. reflexivity. Qed.

Lemma date_string_ym y m : date_string y (fmt_ym y m).
Proof. right. left. eauto. Qed.

Lemma date_string_ymd y m d : date_string y (fmt_ymd y m d).
Proof. right. right. eauto. Qed.

Lemma disambiguate_outcomes st mo :
  l st <> [] -> int_opt (month st) = Ok mo ->
  match year st with
  | None => disambiguate st = Ok None
  | Some y => exists s, disambiguate st = Ok (Some s) /\ date_string y s
  end.
Proof.
  intros Hne Hmo. unfold disambiguate.
  destruct (year st) as [y|]; [|reflexivity].
  rewrite Hmo, int_opt_day. cbn [int_ bind].
  destruct (py_last_ok (l st) Hne) as [t Ht].
  assert (Ht0 : exists t0, py_index (l st) 0 = Ok t0)
    by (destruct (l st); [congruence | eexists; reflexivity]).
  destruct Ht0 as [t0 Ht0].
  unfold dmy_reading, ymd_reading, is_day, is_month.
  rewrite Ht, Ht0.
  destruct (nbrs st) as [|a [|b [|c rest]]], mo as [m|], (day st) as [d|];
    cbn [length Nat.eqb andb is_some is_none negb andr bind py_index nth_error
         int_ arg];
    repeat match goal with
           | |- context [if ?b then _ else _] =>
               destruct b;
               cbn [length Nat.eqb andb is_some is_none negb andr bind
                    py_index nth_error int_ arg]
           end;
    eexists; (split; [reflexivity|]);
    auto using date_string_y, date_string_ym, date_string_ymd.
Qed.

Lemma stages_tokens Y instr st : stages Y instr = Ok st -> l st <> [].
Proof.
  unfold stages. intros H.
  destruct (tokenize instr) as [runs| |] eqn:Htok; simpl in H; try discriminate.
  assert (Hruns : runs <> []).
  { destruct instr as [|c rest]; [discriminate|].
    destruct (tokenize_inv (c :: rest) ltac:(discriminate))
      as (runs' & Htok' & (Hne & _) & _).
    congruence. }
  destruct (classify Y runs) as [st0| |] eqn:Hc; simpl in H; try discriminate.
  destruct (classify_inv Y runs st0 Hc) as (Hlen & _).
  destruct (month_names_cases st0)
    as [E|(_ & skipped & x & post & sp & id & _ & _ & _ & E)];
    rewrite E in H; injection H as <-.
  - intros E0. rewrite E0 in Hlen. destruct runs; [congruence|discriminate].
  - cbn [l]. unfold splice. intros E0.
    apply (f_equal (@length _)) in E0. rewrite !length_app in E0.
    simpl in E0. lia.
Qed.

Lemma stages_year Y instr st :
  stages Y instr = Ok st ->
  exists runs st0,
    tokenize instr = Ok runs /\ classify Y runs = Ok st0 /\ year st = year st0.
Proof.
  unfold stages. intros H.
  destruct (tokenize instr) as [runs| |] eqn:Htok; simpl in H; try discriminate.
  destruct (classify Y runs) as [st0| |] eqn:Hcl; simpl in H; try discriminate.
  exists runs, st0. split; [reflexivity|]. split; [exact Hcl|].
  destruct (month_names_cases st0)
    as [E|(_ & skipped & x & post & sp & id & _ & _ & _ & E)];
    rewrite E in H; injection H as <-; reflexivity.
Qed.

(** Whenever the three loops end without an exception, the result is
    [None] exactly when the classifier set no year, and a date string with
    the year otherwise. *)
Lemma interpret_outcomes Y instr st :
  stages Y instr = Ok st ->
  match year st with
  | None => interpret Y instr = Ok None
  | Some y => exists s, interpret Y instr = Ok (Some s) /\ date_string y s
  end.
Proof.
  intros Hst. unfold interpret. rewrite Hst. cbn [bind].
  destruct (stages_month Y instr st Hst) as (mo & Hmo & _).
  apply (disambiguate_outcomes st mo (stages_tokens Y instr st Hst) Hmo).
Qed.

Lemma month_names_succeeds st : succeeds (month_names st).
Proof.
  destruct (month_names_cases st)
    as [E|(_ & skipped & x & post & sp & id & _ & _ & _ & E)];
    rewrite E; eexists; reflexivity.
Qed.

(** X21: on a non-empty input whose digit characters are all decimal
    digits and whose runs of digits are no longer than [int] accepts,
    [interpret] raises no exception: the classification succeeds, and the
    result is [None] when it set no year and a date string with that year
    otherwise. *)
Theorem interpret_on_decimal_input (Y : Z) (instr : pystr) :
  instr <> [] ->
  (forall c, In c instr -> isdigit_char c = true -> isdecimal_char c = true) ->
  digits_within_limit instr = true ->
  exists runs st0,
    tokenize instr = Ok runs /\ classify Y runs = Ok st0 /\
    match year st0 with
    | None => interpret Y instr = Ok None
    | Some y => exists s, interpret Y instr = Ok (Some s) /\ date_string y s
    end.
Proof.
  intros Hne Hdec Hlim.
  destruct (tokenize_inv instr Hne) as (runs & Htok & Hinv & Hcat).
  rewrite <- Hcat in Hdec.
  unfold digits_within_limit in Hlim. rewrite Htok in Hlim.
  destruct (classify_succeeds Y runs Hinv Hdec Hlim) as [st0 Hcl].
  destruct (month_names_succeeds st0) as [st Hm].
  assert (Hst : stages Y instr = Ok st).
  { unfold stages. rewrite Htok. simpl. rewrite Hcl. simpl. exact Hm. }
  exists runs, st0. repeat split; try assumption.
  destruct (stages_year Y instr st Hst) as (runs' & st0' & Htok' & Hcl' & Hy).
  rewrite Htok in Htok'. injection Htok' as <-.
  rewrite Hcl in Hcl'. injection Hcl' as <-.
  rewrite <- Hy. apply (interpret_outcomes Y instr st Hst).
Qed.

Example interpret_on_decimal_input_example :
  exists runs st0,
    tokenize (str "aug 1923 12") = Ok runs /\ classify 2024 runs = Ok st0 /\
    match year st0 with
    | None => interpret 2024 (str "aug 1923 12") = Ok None
    | Some y =>
        exists s, interpret 2024 (str "aug 1923 12") = Ok (Some s) /\
                  date_string y s
    end.
Proof.
  apply (interpret_on_decimal_input 2024 (str "aug 1923 12")).
  - discriminate.
  - intros c Hc. simpl in Hc.
    repeat (destruct Hc as [<-|Hc]; [vm_compute; auto|]). contradiction.
  - reflexivity.
Defined.

(** ** Non-empty inputs: the only exception is the ValueError of [int] *)










(** ** The tokenizer: the runs are the only decomposition *)

Lemma split_step_same init t b i :
  run_of b t -> isdigit_char i = b ->
  split_step (init ++ [t]) i = Ok (init ++ [t ++ [i]]).
Proof.
  intros Ht Hi. destruct (py_last_ok t (proj1 Ht)) as [c Hc].
  unfold split_step. rewrite py_last_snoc. simpl. rewrite Hc. simpl.
  rewrite (run_of_last b t c Ht Hc), Hi, xorb_nilpotent, removelast_last.
  reflexivity.
Qed.

Lemma split_step_new init t b i :
  run_of b t -> isdigit_char i = negb b ->
  split_step (init ++ [t]) i = Ok ((init ++ [t]) ++ [[i]]).
Proof.
  intros Ht Hi. destruct (py_last_ok t (proj1 Ht)) as [c Hc].
  unfold split_step. rewrite py_last_snoc. simpl. rewrite Hc. simpl.
  rewrite (run_of_last b t c Ht Hc), Hi. destruct b; reflexivity.
Qed.

Lemma split_loop_same cs : forall init t b rest,
  run_of b t -> Forall (fun c => isdigit_char c = b) cs ->
  split_loop (init ++ [t]) (cs ++ rest) = split_loop (init ++ [t ++ cs]) rest.
Proof.
  induction cs as [|c cs IH]; intros init t b rest Ht Hcs.
  - simpl. rewrite app_nil_r. reflexivity.
  - inversion Hcs as [|? ? Hc Hcs']; subst.
    change ((c :: cs) ++ rest) with (c :: cs ++ rest). cbn [split_loop].
    rewrite (split_step_same init t _ c Ht eq_refl). cbn [bind].
    transitivity (split_loop (init ++ [(t ++ [c]) ++ cs]) rest).
    + apply (IH init (t ++ [c]) (isdigit_char c) rest); [|assumption].
      apply run_of_snoc; auto.
    + rewrite <- app_assoc. reflexivity.
Qed.

Lemma split_loop_runs more : forall init t b,
  run_of b t ->
  Forall is_run more ->
  no_equal_neighbours (b :: map isdigit more) ->
  split_loop (init ++ [t]) (concat more) = Ok (init ++ t :: more).
Proof.
  induction more as [|r more IH]; intros init t b Ht Hmore Halt.
  - reflexivity.
  - inversion Hmore as [|? ? [b' Hr] Hmore']; subst.
    simpl in Halt. destruct Halt as [Hne Halt].
    rewrite (isdigit_run b' r Hr) in Hne, Halt.
    assert (Hb' : b' = negb b) by (destruct b, b'; simpl; congruence).
    destruct Hr as [Hrne Hall]. destruct r as [|c r]; [congruence|].
    apply Forall_cons_iff in Hall as [Hc Hr'].
    rewrite <- Hc in Hb', Hr', Halt. clear Hne Hc b'.
    change (concat ((c :: r) :: more)) with (c :: r ++ concat more).
    cbn [split_loop].
    rewrite (split_step_new init t b c Ht Hb'). cbn [bind].
    transitivity (split_loop ((init ++ [t]) ++ [[c] ++ r]) (concat more)).
    + apply (split_loop_same r (init ++ [t]) [c] (isdigit_char c) (concat more));
        [|exact Hr'].
      split; [discriminate|]. constructor; auto.
    + transitivity (Ok ((init ++ [t]) ++ ([c] ++ r) :: more)).
      * apply (IH (init ++ [t]) ([c] ++ r) (isdigit_char c)); try assumption.
        split; [discriminate|]. constructor; auto.
      * rewrite <- app_assoc. reflexivity.
Qed.

Lemma tokenize_of_runs (runs : list pystr) :
  runs <> [] -> Forall is_run runs -> alternating runs ->
  tokenize (concat runs) = Ok runs.
Proof.
  intros Hne Hruns Halt.
  destruct runs as [|r more]; [congruence|].
  inversion Hruns as [|? ? [b Hr] Hmore]; subst.
  unfold alternating in Halt. simpl map in Halt.
  rewrite (isdigit_run b r Hr) in Halt.
  destruct Hr as [Hrne Hall]. destruct r as [|c r]; [congruence|].
  apply Forall_cons_iff in Hall as [Hc Hr'].
  rewrite <- Hc in Hr', Halt. clear Hc b.
  change (concat ((c :: r) :: more)) with (c :: r ++ concat more).
  unfold tokenize. change [[c]] with ([] ++ [[c]]).
  transitivity (split_loop ([] ++ [[c] ++ r]) (concat more)).
  - apply (split_loop_same r [] [c] (isdigit_char c) (concat more)); [|exact Hr'].
    split; [discriminate|]. constructor; auto.
  - apply (split_loop_runs more [] (c :: r) (isdigit_char c)); try assumption.
    split; [discriminate|]. constructor; auto.
Qed.

(** X1: tokenizing the concatenation of a non-empty list of runs in which
    neighbours alternate between digits and other characters gives back
    that list: the decomposition of a string into such runs is unique. *)
Theorem tokenize_concat (runs : list pystr) :
  runs <> [] -> Forall is_run runs -> alternating runs ->
  tokenize (concat runs) = Ok runs.
Proof. exact (tokenize_of_runs runs). Qed.

Lemma tokenize_concat_witness :
  tokenize (concat [str "aug "; str "1923"; str " "; str "12"])
  = Ok [str "aug "; str "1923"; str " "; str "12"].
Proof.
  apply tokenize_concat.
  - discriminate.
  - repeat (constructor;
            [first [ solve [exists true; split; [discriminate | repeat constructor]]
                   | solve [exists false; split; [discriminate | repeat constructor]] ]
            |]).
    constructor.
  - simpl. repeat split; discriminate.
Defined.

(** ** The value of a digit string and of its parts *)

Lemma decimal_in_range blocks c d :
  Unicode.decimal_in blocks c = Some d -> 0 <= d <= 9.
Proof.
  induction blocks as [|b bs IH]; simpl; [discriminate|].
  destruct (((b <=? c) && (c <? b + 10))%N) eqn:E; [|exact IH].
  intros H. injection H as <-.
  apply andb_true_iff in E as [E1 E2].
  apply N.leb_le in E1. apply N.ltb_lt in E2. lia.
Qed.

Lemma int_digits_app a : forall acc b,
  int_digits acc (a ++ b) = (v <- int_digits acc a ;; int_digits v b).
Proof.
  induction a as [|c a IH]; intros acc b; simpl; [reflexivity|].
  destruct (Unicode.decimal c); [apply IH | reflexivity].
Qed.

Lemma int_digits_bounds b : forall acc v,
  0 <= acc -> int_digits acc b = Ok v ->
  acc * 10 ^ Z.of_nat (length b) <= v < (acc + 1) * 10 ^ Z.of_nat (length b).
Proof.
  induction b as [|c b IH]; intros acc v Hacc H.
  - simpl in H. injection H as <-. simpl. lia.
  - simpl in H. destruct (Unicode.decimal c) as [d|] eqn:Hd; [|discriminate].
    pose proof (decimal_in_range _ _ _ Hd) as Hr.
    specialize (IH (10 * acc + d) v ltac:(lia) H).
    cbn [length]. rewrite Nat2Z.inj_succ, Z.pow_succ_r by lia.
    assert (0 < 10 ^ Z.of_nat (length b)) by (apply Z.pow_pos_nonneg; lia).
    nia.
Qed.

Lemma int_str_nonneg s v : int_str s = Ok v -> 0 <= v.
Proof.
  intros H. destruct (int_str_ok s v H) as (_ & _ & Hd).
  pose proof (int_digits_bounds s 0 v ltac:(lia) Hd). lia.
Qed.

(** The value of a digit string from the value of a head part of it. *)
Lemma int_str_head a b m y :
  int_str a = Ok m -> int_str (a ++ b) = Ok y ->
  m * 10 ^ Z.of_nat (length b) <= y < (m + 1) * 10 ^ Z.of_nat (length b).
Proof.
  intros Ha Hab. pose proof (int_str_nonneg a m Ha) as Hm.
  destruct (int_str_ok a m Ha) as (_ & _ & Da).
  destruct (int_str_ok (a ++ b) y Hab) as (_ & _ & Dab).
  rewrite int_digits_app, Da in Dab. cbn [bind] in Dab.
  apply (int_digits_bounds b m y Hm Dab).
Qed.

Lemma is_year_true Y s :
  is_year Y (VStr s) = Ok true -> exists v, int_str s = Ok v /\ 1900 <= v <= Y.
Proof.
  unfold is_year. simpl. destruct (int_str s) as [v| |]; simpl; try discriminate.
  intros H. injection H as H. apply andb_true_iff in H as [H1 H2].
  apply Z.leb_le in H1, H2. unfold YEAR_LOW in H1. eauto.
Qed.

Lemma is_y2k_true s :
  is_y2k (VStr s) = Ok true -> exists v, int_str s = Ok v /\ 32 <= v <= 99.
Proof.
  unfold is_y2k. simpl. destruct (int_str s) as [v| |]; simpl; try discriminate.
  intros H. injection H as H. apply andb_true_iff in H as [H1 H2].
  apply Z.leb_le in H1, H2. unfold Y2K_LOW, Y2K_HIGH in *. eauto.
Qed.

Lemma is_month_true s :
  is_month (VStr s) = Ok true -> exists v, int_str s = Ok v /\ 1 <= v <= 12.
Proof.
  unfold is_month. simpl. destruct (int_str s) as [v| |]; simpl; try discriminate.
  intros H. injection H as H. apply andb_true_iff in H as [H1 H2].
  apply Z.leb_le in H1, H2. eauto.
Qed.

Lemma is_day_true s :
  is_day (VStr s) = Ok true -> exists v, int_str s = Ok v /\ 1 <= v <= 31.
Proof.
  unfold is_day. simpl. destruct (int_str s) as [v| |]; simpl; try discriminate.
  intros H. injection H as H. apply andb_true_iff in H as [H1 H2].
  apply Z.leb_le in H1, H2. eauto.
Qed.

Lemma holds_true c : holds c = true -> c = Ok true.
Proof. destruct c as [[|]| |]; simpl; congruence. Qed.

Lemma skipn_split {A} (x : list A) i j :
  (i <= j)%nat -> skipn i x = slice i j x ++ skipn j x.
Proof.
  intros H. unfold slice.
  rewrite <- (firstn_skipn (j - i) (skipn i x)) at 1.
  rewrite skipn_skipn. replace (j - i + i)%nat with j by lia. reflexivity.
Qed.

Lemma firstn_split {A} (x : list A) i j :
  (i <= j)%nat -> firstn j x = firstn i x ++ slice i j x.
Proof.
  intros H. unfold slice.
  rewrite <- (firstn_skipn i (firstn j x)) at 1.
  rewrite firstn_firstn. replace (Nat.min i j) with i by lia.
  f_equal. rewrite skipn_firstn_comm. reflexivity.
Qed.

(** ** The rules that end the classification exclude one another *)

Ltac rule_facts :=
  repeat match goal with
         | H : holds _ = true |- _ => apply holds_true in H
         end;
  unfold year_first8, day_first8, year_month6, y2k_first6, day_first6 in *;
  use_conditions;
  repeat match goal with
         | H : is_year _ _ = Ok true |- _ =>
             apply is_year_true in H; destruct H as (? & ? & ?)
         | H : is_y2k _ = Ok true |- _ =>
             apply is_y2k_true in H; destruct H as (? & ? & ?)
         | H : is_month _ = Ok true |- _ =>
             apply is_month_true in H; destruct H as (? & ? & ?)
         | H : is_day _ = Ok true |- _ =>
             apply is_day_true in H; destruct H as (? & ? & ?)
         end.

Lemma year_first8_day_first8 Y x :
  holds (year_first8 Y x) = true -> holds (day_first8 Y x) = true -> False.
Proof.
  intros H1 H2. rule_facts.
  match goal with
  | Hm : int_str (slice 4 6 x) = Ok ?m, Hy : int_str (skipn 4 x) = Ok ?y |- _ =>
      rewrite (skipn_split x 4 6) in Hy by lia;
      pose proof (int_str_head _ _ m y Hm Hy) as Hb
  end.
  rewrite length_skipn in Hb.
  match goal with H : length x = 8%nat |- _ => rewrite H in Hb end.
  simpl in Hb. lia.
Qed.

Lemma year_month6_y2k_first6 Y x :
  Y < 3200 ->
  holds (year_month6 Y x) = true -> holds (y2k_first6 x) = true -> False.
Proof.
  intros HY H1 H2. rule_facts.
  match goal with
  | Hm : int_str (firstn 2 x) = Ok ?m, Hy : int_str (firstn 4 x) = Ok ?y |- _ =>
      rewrite (firstn_split x 2 4) in Hy by lia;
      pose proof (int_str_head _ _ m y Hm Hy) as Hb
  end.
  unfold slice in Hb. rewrite length_firstn, length_skipn in Hb.
  match goal with H : length x = 6%nat |- _ => rewrite H in Hb end.
  simpl in Hb. lia.
Qed.

Lemma year_month6_day_first6 Y x :
  holds (year_month6 Y x) = true -> holds (day_first6 x) = true -> False.
Proof.
  intros H1 H2. rule_facts.
  repeat match goal with
         | H : int_str ?s = Ok _, H' : int_str ?s = Ok _ |- _ =>
             rewrite H in H'; injection H' as <-
         end.
  lia.
Qed.

Lemma y2k_first6_day_first6 x :
  holds (y2k_first6 x) = true -> holds (day_first6 x) = true -> False.
Proof.
  intros H1 H2. rule_facts.
  repeat match goal with
         | H : int_str ?s = Ok _, H' : int_str ?s = Ok _ |- _ =>
             rewrite H in H'; injection H' as <-
         end.
  lia.
Qed.

Lemma eight_not_six Y x :
  holds (year_first8 Y x) = true \/ holds (day_first8 Y x) = true ->
  holds (year_month6 Y x) = true \/ holds (y2k_first6 x) = true \/
  holds (day_first6 x) = true -> False.
Proof.
  intros [H1|H1] [H2|[H2|H2]]; rule_facts; lia.
Qed.

(** X2: while the clock is before the year 3200, at most one of the five
    rules that end the classification (eight digits year first or day
    first; six digits year and month, two-digit year first, or day first)
    matches a given run, so their order does not matter. *)
Theorem terminal_rules_exclusive (Y : Z) (x : pystr) :
  Y < 3200 -> (length (filter holds (terminal_rules Y x)) <= 1)%nat.
Proof.
  intros HY. unfold terminal_rules. cbn [filter].
  destruct (holds (year_first8 Y x)) eqn:H1;
    destruct (holds (day_first8 Y x)) eqn:H2;
    destruct (holds (year_month6 Y x)) eqn:H3;
    destruct (holds (y2k_first6 x)) eqn:H4;
    destruct (holds (day_first6 x)) eqn:H5;
    cbn [length]; try lia; exfalso;
    first [ apply (year_first8_day_first8 Y x H1 H2)
          | apply (year_month6_y2k_first6 Y x HY H3 H4)
          | apply (year_month6_day_first6 Y x H3 H5)
          | apply (y2k_first6_day_first6 x H4 H5)
          | apply (eight_not_six Y x); auto ].
Qed.

Lemma terminal_rules_exclusive_witness :
  (length (filter holds (terminal_rules 2024 (str "990101"))) <= 1)%nat /\
  filter holds (terminal_rules 2024 (str "990101")) = [Ok true].
Proof.
  split.
  - apply (terminal_rules_exclusive 2024 (str "990101")). lia.
  - vm_compute. reflexivity.
Defined.

(** From the year 3201 on the order decides: "320112" is both a year with
    a month and a two-digit year with month and day. *)
Example terminal_rules_overlap :
  filter holds (terminal_rules 3201 (str "320112")) = [Ok true; Ok true] /\
  interpret 3201 (str "320112") = Ok (Some (str "3201-12")).
Proof. split; vm_compute; reflexivity. Qed.

(** ** A date block between other text *)

Lemma no_digit_run s : s <> [] -> no_digit s -> run_of false s.
Proof. intros Hne H. split; assumption. Qed.

Lemma decimal_run_run x : decimal_run x -> run_of true x.
Proof.
  intros [Hne Hall]. split; [assumption|].
  eapply Forall_impl; [|exact Hall]. intros c. apply isdecimal_isdigit.
Qed.

Lemma concat_around pre x post : concat (around pre x post) = pre ++ x ++ post.
Proof.
  unfold around. destruct pre, post; simpl; rewrite ?app_nil_r; reflexivity.
Qed.

Lemma tokenize_around pre x post :
  no_digit pre -> no_digit post -> decimal_run x ->
  tokenize (pre ++ x ++ post) = Ok (around pre x post).
Proof.
  intros Hpre Hpost Hx. rewrite <- concat_around.
  pose proof (decimal_run_run x Hx) as Hrx.
  apply tokenize_of_runs.
  - unfold around. destruct pre; discriminate.
  - unfold around. apply Forall_app. split; [|apply Forall_app; split].
    + destruct pre as [|c pre]; constructor; [|constructor].
      exists false. apply no_digit_run; [discriminate|assumption].
    + constructor; [|constructor]. exists true. assumption.
    + destruct post as [|c post]; constructor; [|constructor].
      exists false. apply no_digit_run; [discriminate|assumption].
  - unfold alternating, around.
    assert (Hp : forall s, s <> [] -> no_digit s -> isdigit s = false)
      by (intros s Hs Hn; apply isdigit_run, no_digit_run; assumption).
    destruct pre as [|c pre], post as [|c' post]; cbn [maybe_run app map];
      rewrite ?(isdigit_run true x Hrx), ?(Hp (c :: pre)), ?(Hp (c' :: post));
      try assumption; try discriminate; simpl; repeat split; discriminate.
Qed.

(** The classification of such a text when the body of the loop leaves
    the loop at [x], whatever the state. *)
Lemma classify_around Y pre x post y m d :
  no_digit pre -> no_digit post ->
  (forall st n, classify_one Y st n x
                = Ok (Break (State (l st) y m d (nbrs st)))) ->
  classify Y (around pre x post) = Ok (State (around pre x post) y m d []).
Proof.
  intros Hpre Hpost Hx.
  assert (Hskip : forall st n s, s <> [] -> no_digit s ->
                                 classify_one Y st n s = Ok (Continue st)).
  { intros st n s Hs Hn. unfold classify_one.
    rewrite (isdigit_run false s (no_digit_run s Hs Hn)). reflexivity. }
  unfold classify, around.
  destruct pre as [|c pre], post as [|c' post]; unfold enumerate; simpl combine;
    cbn [classify_loop];
    rewrite ?(Hskip _ _ (c :: pre)) by (discriminate || assumption);
    cbn [bind]; rewrite Hx; reflexivity.
Qed.

Lemma month_names_set st : month st <> None -> month_names st = Ok st.
Proof.
  intros Hm. unfold month_names. destruct (month st) eqn:E; [|congruence].
  destruct (length (l st)); simpl; rewrite E, andb_false_r; reflexivity.
Qed.

Lemma disambiguate_year_month_day st y m d :
  year st = Some y -> month st = Some (VInt m) -> day st = Some d ->
  disambiguate st = Ok (Some (fmt_ymd y m d)).
Proof.
  intros Hy Hm Hd. unfold disambiguate. rewrite Hy, Hm, Hd. reflexivity.
Qed.

Lemma disambiguate_year_month st y m :
  year st = Some y -> month st = Some (VInt m) -> day st = None ->
  nbrs st = [] ->
  disambiguate st = Ok (Some (fmt_ym y m)).
Proof.
  intros Hy Hm Hd Hn. unfold disambiguate. rewrite Hy, Hm, Hd, Hn. reflexivity.
Qed.

Lemma interpret_around_ymd Y pre x post y m d :
  no_digit pre -> no_digit post -> decimal_run x ->
  (forall st n, classify_one Y st n x
                = Ok (Break (State (l st) (Some y) (Some (VInt m)) (Some d) (nbrs st)))) ->
  interpret Y (pre ++ x ++ post) = Ok (Some (fmt_ymd y m d)).
Proof.
  intros Hpre Hpost Hx Hone. unfold interpret, stages.
  rewrite (tokenize_around pre x post Hpre Hpost Hx). cbn [bind].
  rewrite (classify_around Y pre x post _ _ _ Hpre Hpost Hone). cbn [bind].
  rewrite month_names_set by (simpl; discriminate). cbn [bind].
  apply disambiguate_year_month_day; reflexivity.
Qed.

Lemma interpret_around_ym Y pre x post y m :
  no_digit pre -> no_digit post -> decimal_run x ->
  (forall st n, classify_one Y st n x
                = Ok (Break (State (l st) (Some y) (Some (VInt m)) None (nbrs st)))) ->
  interpret Y (pre ++ x ++ post) = Ok (Some (fmt_ym y m)).
Proof.
  intros Hpre Hpost Hx Hone. unfold interpret, stages.
  rewrite (tokenize_around pre x post Hpre Hpost Hx). cbn [bind].
  rewrite (classify_around Y pre x post _ _ _ Hpre Hpost Hone). cbn [bind].
  rewrite month_names_set by (simpl; discriminate). cbn [bind].
  apply disambiguate_year_month; reflexivity.
Qed.

Lemma between_true lo hi v : lo <= v <= hi -> (lo <=? v) && (v <=? hi) = true.
Proof.
  intros [H1 H2]. apply andb_true_iff. split; apply Z.leb_le; assumption.
Qed.

Lemma is_year_value Y s v :
  int_str s = Ok v -> 1900 <= v <= Y -> is_year Y (VStr s) = Ok true.
Proof.
  intros Hs Hv. unfold is_year. simpl. rewrite Hs. simpl.
  unfold YEAR_LOW. rewrite (between_true 1900 Y v Hv). reflexivity.
Qed.

Lemma is_y2k_value s v :
  int_str s = Ok v -> 32 <= v <= 99 -> is_y2k (VStr s) = Ok true.
Proof.
  intros Hs Hv. unfold is_y2k. simpl. rewrite Hs. simpl.
  unfold Y2K_LOW, Y2K_HIGH. rewrite (between_true 32 99 v Hv). reflexivity.
Qed.

Lemma is_month_value s v :
  int_str s = Ok v -> 1 <= v <= 12 -> is_month (VStr s) = Ok true.
Proof.
  intros Hs Hv. unfold is_month. simpl. rewrite Hs. simpl.
  rewrite (between_true 1 12 v Hv). reflexivity.
Qed.

Lemma is_day_value s v :
  int_str s = Ok v -> 1 <= v <= 31 -> is_day (VStr s) = Ok true.
Proof.
  intros Hs Hv. unfold is_day. simpl. rewrite Hs. simpl.
  rewrite (between_true 1 31 v Hv). reflexivity.
Qed.

Lemma rule_succeeds Y x :
  decimal_run x ->
  succeeds (year_first8 Y x) /\ succeeds (day_first8 Y x) /\
  succeeds (year_month6 Y x) /\ succeeds (y2k_first6 x) /\
  succeeds (day_first6 x).
Proof.
  intros Hx.
  unfold year_first8, day_first8, year_month6, y2k_first6, day_first6.
  repeat split; repeat succeeds_step.
Qed.

Lemma rule_false c : succeeds c -> holds c = false -> c = Ok false.
Proof. intros [[|] ->]; simpl; congruence. Qed.

Lemma holds_ok_true c : c = Ok true -> holds c = true.
Proof. intros ->. reflexivity. Qed.

Lemma eight_rules_length Y x :
  length x <> 8%nat -> year_first8 Y x = Ok false /\ day_first8 Y x = Ok false.
Proof.
  intros H. unfold year_first8, day_first8.
  rewrite (proj2 (Nat.eqb_neq _ _) H). split; reflexivity.
Qed.

(** The body of the loop for a run of decimal digits, rule by rule. *)
Lemma classify_one_rules Y st n x :
  decimal_run x ->
  classify_one Y st n x
  = (c1 <- year_first8 Y x ;;
     if c1 then
       y <- int_str (firstn 4 x) ;;
       m <- int_str (slice 4 6 x) ;;
       d <- int_str (skipn 6 x) ;;
       Ok (Break (State (l st) (Some y) (Some (VInt m)) (Some d) (nbrs st)))
     else
     c2 <- day_first8 Y x ;;
     if c2 then
       y <- int_str (skipn 4 x) ;;
       m <- int_str (slice 2 4 x) ;;
       d <- int_str (firstn 2 x) ;;
       Ok (Break (State (l st) (Some y) (Some (VInt m)) (Some d) (nbrs st)))
     else
     c3 <- year_month6 Y x ;;
     if c3 then
       y <- int_str (firstn 4 x) ;;
       m <- int_str (slice 4 6 x) ;;
       Ok (Break (State (l st) (Some y) (Some (VInt m)) None (nbrs st)))
     else
     c4 <- y2k_first6 x ;;
     if c4 then
       y <- int_str (firstn 2 x) ;;
       m <- int_str (slice 2 4 x) ;;
       d <- int_str (skipn 4 x) ;;
       Ok (Break (State (l st) (Some (y + 1900)) (Some (VInt m)) (Some d) (nbrs st)))
     else
     c5 <- day_first6 x ;;
     if c5 then
       y <- int_str (skipn 4 x) ;;
       m <- int_str (slice 2 4 x) ;;
       d <- int_str (firstn 2 x) ;;
       Ok (Break (State (l st) (Some (y + 1900)) (Some (VInt m)) (Some d) (nbrs st)))
     else
       classify_one Y st n x).
Proof.
  intros Hx.
  destruct (within_limit x) eqn:Hlim.
  - destruct (rule_succeeds Y x Hx)
      as ([c1 H1] & [c2 H2] & [c3 H3] & [c4 H4] & [c5 H5]).
    rewrite H1, H2, H3, H4, H5. cbn [bind].
    unfold year_first8, day_first8, year_month6, y2k_first6, day_first6 in *.
    destruct (int_str_decimal x Hx Hlim) as [v Hv].
    destruct c1; [|destruct c2; [|destruct c3; [|destruct c4; [|destruct c5]]]];
      try reflexivity;
      unfold classify_one; rewrite (decimal_run_isdigit x Hx); simpl negb;
      cbv iota; rewrite Hv; cbn [bind];
      rewrite ?H1, ?H2, ?H3, ?H4, ?H5; cbn [bind]; reflexivity.
  - (* a run beyond the limit of [int] has neither eight nor six digits *)
    unfold within_limit, INT_MAX_STR_DIGITS in Hlim. apply Z.leb_gt in Hlim.
    assert (H8 : (length x =? 8)%nat = false) by (apply Nat.eqb_neq; lia).
    assert (H6 : (length x =? 6)%nat = false) by (apply Nat.eqb_neq; lia).
    unfold year_first8, day_first8, year_month6, y2k_first6, day_first6.
    rewrite H8, H6. reflexivity.
Qed.

Lemma slice_tail {A} (x : list A) i j :
  length x = j -> slice i j x = skipn i x.
Proof.
  intros <-. unfold slice. apply firstn_all2. rewrite length_skipn. lia.
Qed.

(** ** Dates written as one block of digits *)

(** X3: a run of eight decimal digits between stretches of text without
    digits is read as a full date, year first (YYYYMMDD) or day first
    (DDMMYYYY), when its parts are a year within bounds, a month and a
    day. *)
Theorem eight_digit_date (Y : Z) (pre x post : pystr) (y m d : Z) :
  no_digit pre -> no_digit post -> decimal_run x -> length x = 8%nat ->
  1900 <= y <= Y -> 1 <= m <= 12 -> 1 <= d <= 31 ->
  (int_str (firstn 4 x) = Ok y /\ int_str (slice 4 6 x) = Ok m /\
   int_str (skipn 6 x) = Ok d) \/
  (int_str (firstn 2 x) = Ok d /\ int_str (slice 2 4 x) = Ok m /\
   int_str (skipn 4 x) = Ok y) ->
  interpret Y (pre ++ x ++ post) = Ok (Some (fmt_ymd y m d)).
Proof.
  intros Hpre Hpost Hx Hlen Hy Hm Hd Hparts.
  apply (interpret_around_ymd Y pre x post y m d Hpre Hpost Hx).
  intros st n. rewrite (classify_one_rules Y st n x Hx).
  destruct Hparts as [(Ey & Em & Ed)|(Ed & Em & Ey)].
  - assert (H1 : year_first8 Y x = Ok true).
    { unfold year_first8. rewrite Hlen, (is_year_value Y _ y Ey Hy),
        (is_month_value _ m Em Hm), (is_day_value _ d Ed Hd). reflexivity. }
    rewrite H1. cbn [bind]. rewrite Ey, Em, Ed. reflexivity.
  - assert (H2 : day_first8 Y x = Ok true).
    { unfold day_first8. rewrite Hlen, (is_year_value Y _ y Ey Hy),
        (is_month_value _ m Em Hm), (is_day_value _ d Ed Hd). reflexivity. }
    assert (H1 : year_first8 Y x = Ok false).
    { apply rule_false; [apply (rule_succeeds Y x Hx)|].
      destruct (holds (year_first8 Y x)) eqn:E; [|reflexivity].
      destruct (year_first8_day_first8 Y x E (holds_ok_true _ H2)). }
    rewrite H1, H2. cbn [bind]. rewrite Ey, Em, Ed. reflexivity.
Qed.

Lemma eight_digit_date_witness :
  interpret 2024 (str "born " ++ str "15042023" ++ str "!")
  = Ok (Some (fmt_ymd 2023 4 15)).
Proof.
  apply (eight_digit_date 2024 (str "born ") (str "15042023") (str "!") 2023 4 15).
  - repeat constructor.
  - repeat constructor.
  - split; [discriminate | repeat constructor].
  - reflexivity.
  - lia.
  - lia.
  - lia.
  - right. repeat split.
Defined.

(** X4: a run of six decimal digits between stretches of text without
    digits is read as a year and a month (YYYYMM), or, with a two-digit
    year from 32 to 99 taken as 19YY, as a full date with the year first
    (YYMMDD, while the clock is before the year 3200) or the day first
    (DDMMYY). *)
Theorem six_digit_date (Y : Z) (pre x post : pystr) (y m d : Z) :
  no_digit pre -> no_digit post -> decimal_run x -> length x = 6%nat ->
  1 <= m <= 12 ->
  (int_str (firstn 4 x) = Ok y -> int_str (skipn 4 x) = Ok m ->
   1900 <= y <= Y ->
   interpret Y (pre ++ x ++ post) = Ok (Some (fmt_ym y m))) /\
  (int_str (firstn 2 x) = Ok y -> int_str (slice 2 4 x) = Ok m ->
   int_str (skipn 4 x) = Ok d ->
   32 <= y <= 99 -> 1 <= d <= 31 -> Y < 3200 ->
   interpret Y (pre ++ x ++ post) = Ok (Some (fmt_ymd (y + 1900) m d))) /\
  (int_str (firstn 2 x) = Ok d -> int_str (slice 2 4 x) = Ok m ->
   int_str (skipn 4 x) = Ok y ->
   32 <= y <= 99 -> 1 <= d <= 31 ->
   interpret Y (pre ++ x ++ post) = Ok (Some (fmt_ymd (y + 1900) m d))).
Proof.
  intros Hpre Hpost Hx Hlen Hm.
  destruct (eight_rules_length Y x ltac:(lia)) as [H1 H2].
  pose proof (rule_succeeds Y x Hx) as (_ & _ & S3 & S4 & _).
  split; [|split].
  - intros Ey Em Hy.
    apply (interpret_around_ym Y pre x post y m Hpre Hpost Hx).
    intros st n. rewrite (classify_one_rules Y st n x Hx), H1, H2. cbn [bind].
    assert (H3 : year_month6 Y x = Ok true).
    { unfold year_month6. rewrite Hlen, (is_year_value Y _ y Ey Hy),
        (is_month_value _ m Em Hm). reflexivity. }
    rewrite H3. cbn [bind]. rewrite (slice_tail x 4 6 Hlen), Ey, Em. reflexivity.
  - intros Ey Em Ed Hy Hd HY.
    apply (interpret_around_ymd Y pre x post (y + 1900) m d Hpre Hpost Hx).
    intros st n. rewrite (classify_one_rules Y st n x Hx), H1, H2. cbn [bind].
    assert (H4 : y2k_first6 x = Ok true).
    { unfold y2k_first6. rewrite Hlen, (is_y2k_value _ y Ey Hy),
        (is_month_value _ m Em Hm), (is_day_value _ d Ed Hd). reflexivity. }
    assert (H3 : year_month6 Y x = Ok false).
    { apply rule_false; [exact S3|].
      destruct (holds (year_month6 Y x)) eqn:E; [|reflexivity].
      destruct (year_month6_y2k_first6 Y x HY E (holds_ok_true _ H4)). }
    rewrite H3, H4. cbn [bind]. rewrite Ey, Em, Ed. reflexivity.
  - intros Ed Em Ey Hy Hd.
    apply (interpret_around_ymd Y pre x post (y + 1900) m d Hpre Hpost Hx).
    intros st n. rewrite (classify_one_rules Y st n x Hx), H1, H2. cbn [bind].
    assert (H5 : day_first6 x = Ok true).
    { unfold day_first6. rewrite Hlen, (is_y2k_value _ y Ey Hy),
        (is_month_value _ m Em Hm), (is_day_value _ d Ed Hd). reflexivity. }
    assert (H3 : year_month6 Y x = Ok false).
    { apply rule_false; [exact S3|].
      destruct (holds (year_month6 Y x)) eqn:E; [|reflexivity].
      destruct (year_month6_day_first6 Y x E (holds_ok_true _ H5)). }
    assert (H4 : y2k_first6 x = Ok false).
    { apply rule_false; [exact S4|].
      destruct (holds (y2k_first6 x)) eqn:E; [|reflexivity].
      destruct (y2k_first6_day_first6 x E (holds_ok_true _ H5)). }
    rewrite H3, H4, H5. cbn [bind]. rewrite Ey, Em, Ed. reflexivity.
Qed.

Lemma six_digit_date_witness :
  interpret 2024 (str "ref " ++ str "198311" ++ []) = Ok (Some (fmt_ym 1983 11)) /\
  interpret 2024 ([] ++ str "831112" ++ []) = Ok (Some (fmt_ymd (83 + 1900) 11 12)) /\
  interpret 2024 ([] ++ str "121183" ++ str ".") = Ok (Some (fmt_ymd (83 + 1900) 11 12)).
Proof.
  assert (Hrun : forall s, s <> [] -> forallb isdecimal_char s = true -> decimal_run s).
  { intros s Hs Hall. split; [assumption|].
    apply Forall_forall. rewrite forallb_forall in Hall. exact Hall. }
  split; [|split].
  - refine (proj1 (six_digit_date 2024 (str "ref ") (str "198311") [] 1983 11 0
                     _ _ _ _ _) _ _ _);
      try reflexivity; try lia; try (apply Forall_nil);
      try (apply Hrun; [discriminate | reflexivity]); repeat constructor.
  - refine (proj1 (proj2 (six_digit_date 2024 [] (str "831112") [] 83 11 12
                     _ _ _ _ _)) _ _ _ _ _ _);
      try reflexivity; try lia; try (apply Forall_nil);
      try (apply Hrun; [discriminate | reflexivity]).
  - refine (proj2 (proj2 (six_digit_date 2024 [] (str "121183") (str ".") 83 11 12
                     _ _ _ _ _)) _ _ _ _ _);
      try reflexivity; try lia; try (apply Forall_nil);
      try (apply Hrun; [discriminate | reflexivity]); repeat constructor.
Defined.

(** X5: a non-empty text without any digit character has no date: the
    result is [None], month names or not. *)
Theorem no_digit_no_date (Y : Z) (instr : pystr) :
  instr <> [] -> no_digit instr -> interpret Y instr = Ok None.
Proof.
  intros Hne Hno.
  assert (Htok : tokenize instr = Ok [instr]).
  { rewrite <- (app_nil_r instr) at 1.
    change (instr ++ []) with (concat [instr]).
    apply tokenize_of_runs.
    - discriminate.
    - constructor; [|constructor]. exists false. split; assumption.
    - exact I. }
  assert (Hcl : classify Y [instr] = Ok (State [instr] None None None [])).
  { unfold classify, enumerate. simpl combine. cbn [classify_loop].
    unfold classify_one.
    rewrite (isdigit_run false instr (conj Hne Hno)). reflexivity. }
  destruct (month_names_succeeds (State [instr] None None None [])) as [st Hst].
  assert (Hstages : stages Y instr = Ok st).
  { unfold stages. rewrite Htok. cbn [bind]. rewrite Hcl. cbn [bind]. exact Hst. }
  pose proof (interpret_outcomes Y instr st Hstages) as Hout.
  destruct (stages_year Y instr st Hstages) as (runs & st0 & Ht & Hc & Hy).
  rewrite Htok in Ht. injection Ht as <-. rewrite Hcl in Hc. injection Hc as <-.
  rewrite Hy in Hout. exact Hout.
Qed.

Lemma no_digit_no_date_witness :
  interpret 2024 (str "in August") = Ok None.
Proof.
  apply no_digit_no_date; [discriminate | repeat constructor].
Defined.

(** ** The result never holds a month or a day out of range *)

Lemma is_year_int_true Y v : is_year Y (VInt v) = Ok true -> 1900 <= v <= Y.
Proof.
  unfold is_year. simpl. intros H. injection H as H.
  apply andb_true_iff in H as [H1 H2]. apply Z.leb_le in H1, H2.
  unfold YEAR_LOW in H1. lia.
Qed.

Lemma is_y2k_int_true v : is_y2k (VInt v) = Ok true -> 32 <= v <= 99.
Proof.
  unfold is_y2k. simpl. intros H. injection H as H.
  apply andb_true_iff in H as [H1 H2]. apply Z.leb_le in H1, H2.
  unfold Y2K_LOW, Y2K_HIGH in *. lia.
Qed.

Lemma is_month_int_true v : is_month (VInt v) = Ok true -> 1 <= v <= 12.
Proof.
  unfold is_month. simpl. intros H. injection H as H.
  apply andb_true_iff in H as [H1 H2]. apply Z.leb_le in H1, H2. lia.
Qed.

Lemma is_day_int_true v : is_day (VInt v) = Ok true -> 1 <= v <= 31.
Proof.
  unfold is_day. simpl. intros H. injection H as H.
  apply andb_true_iff in H as [H1 H2]. apply Z.leb_le in H1, H2. lia.
Qed.

(** What the conditions found true say about the values. *)
Ltac value_facts :=
  use_conditions;
  repeat match goal with
         | H : is_year _ (VInt _) = Ok true |- _ => apply is_year_int_true in H
         | H : is_y2k (VInt _) = Ok true |- _ => apply is_y2k_int_true in H
         | H : is_month (VInt _) = Ok true |- _ => apply is_month_int_true in H
         | H : is_day (VInt _) = Ok true |- _ => apply is_day_int_true in H
         | H : is_year _ (VStr _) = Ok true |- _ =>
             apply is_year_true in H; destruct H as (? & ? & ?)
         | H : is_y2k (VStr _) = Ok true |- _ =>
             apply is_y2k_true in H; destruct H as (? & ? & ?)
         | H : is_month (VStr _) = Ok true |- _ =>
             apply is_month_true in H; destruct H as (? & ? & ?)
         | H : is_day (VStr _) = Ok true |- _ =>
             apply is_day_true in H; destruct H as (? & ? & ?)
         end;
  repeat match goal with
         | H : length ?x = 6%nat |- _ =>
             progress (rewrite (slice_tail x 4 6 H) in * )
         end;
  repeat match goal with
         | H : int_str ?s = Ok _, H' : int_str ?s = Ok _ |- _ =>
             rewrite H in H'; injection H' as <-
         end.

Local Opaque Z.add.

Lemma classify_one_fields Y st n x r :
  classify_one Y st n x = Ok r -> fields_ok Y st -> fields_ok Y (state_of r).
Proof.
  unfold classify_one. intros H (Hy & Hm & Hd). revert H.
  destruct (isdigit x) eqn:Hdig; simpl negb; cbv iota.
  2: { intros H. injection H as <-. exact (conj Hy (conj Hm Hd)). }
  repeat match goal with
         | |- bind ?c _ = Ok _ -> _ =>
             let E := fresh "E" in
             destruct c eqn:E; cbn [bind]; try discriminate
         | |- (if ?b then _ else _) = Ok _ -> _ => destruct b
         | |- Ok _ = Ok _ -> _ =>
             let H := fresh in intros H; injection H as <-
         end;
    value_facts; unfold fields_ok, year_value; cbn [state_of year month day];
    (split; [|split]);
    try assumption;
    intros ? Heq; try discriminate; try (injection Heq as <-); try lia;
    auto.
Qed.

Local Transparent Z.add.

Lemma classify_loop_fields Y items : forall st st',
  classify_loop Y st items = Ok st' -> fields_ok Y st -> fields_ok Y st'.
Proof.
  induction items as [|[n x] items IH]; intros st st' H Hok; simpl in H.
  - injection H as <-. exact Hok.
  - destruct (classify_one Y st n x) as [r| |] eqn:Hone; simpl in H;
      try discriminate.
    pose proof (classify_one_fields Y st n x r Hone Hok) as Hok'.
    destruct r as [st1|st1]; simpl in *.
    + apply (IH st1 st' H Hok').
    + injection H as <-. exact Hok'.
Qed.

Lemma stages_fields Y instr st :
  stages Y instr = Ok st ->
  exists mo,
    int_opt (month st) = Ok mo /\
    (forall m, mo = Some m -> 1 <= m <= 12) /\
    (forall y, year st = Some y -> year_value Y y) /\
    (forall d, day st = Some d -> 1 <= d <= 31).
Proof.
  unfold stages. intros H.
  destruct (tokenize instr) as [runs| |]; simpl in H; try discriminate.
  destruct (classify Y runs) as [st0| |] eqn:Hc; simpl in H; try discriminate.
  assert (Hok : fields_ok Y st0).
  { unfold classify in Hc. apply (classify_loop_fields Y _ _ _ Hc).
    split; [|split]; intros ? Heq; discriminate Heq. }
  destruct (classify_inv Y runs st0 Hc) as (_ & Hmon & _).
  destruct Hok as (Hy & Hm & Hd).
  destruct (month_names_cases st0)
    as [E|(_ & skipped & x & post & sp & id & _ & _ & Hx & E)];
    rewrite E in H; injection H as <-.
  - destruct (month st0) as [[z|s]|] eqn:Em; simpl in Hmon; [|contradiction|].
    + exists (Some z). split; [reflexivity|].
      split; [|split; [exact Hy | exact Hd]].
      intros m Heq. injection Heq as <-. apply Hm. reflexivity.
    + exists None. split; [reflexivity|].
      split; [|split; [exact Hy | exact Hd]].
      intros m Heq. discriminate.
  - destruct (month_tag_int id (first_match_tag x sp id Hx)) as (m & Hmi & Hmb).
    exists (Some m). split; [apply (int_opt_str _ m Hmi)|].
    split; [|split; [exact Hy | exact Hd]].
    intros m' Heq. injection Heq as <-. exact Hmb.
Qed.

Lemma disambiguate_bounds st mo :
  l st <> [] -> int_opt (month st) = Ok mo ->
  (forall m, mo = Some m -> 1 <= m <= 12) ->
  (forall d, day st = Some d -> 1 <= d <= 31) ->
  forall s, disambiguate st = Ok (Some s) ->
  exists y, year st = Some y /\ valid_date y s.
Proof.
  intros Hne Hmo Hm Hd s. unfold disambiguate.
  destruct (year st) as [y|]; [|discriminate].
  rewrite Hmo, int_opt_day. cbn [int_ bind].
  destruct (py_last_ok (l st) Hne) as [t Ht].
  assert (Ht0 : exists t0, py_index (l st) 0 = Ok t0)
    by (destruct (l st); [congruence | eexists; reflexivity]).
  destruct Ht0 as [t0 Ht0].
  unfold dmy_reading, ymd_reading, is_day, is_month.
  rewrite Ht, Ht0.
  destruct (nbrs st) as [|a [|b [|c rest]]], mo as [m|], (day st) as [d|];
    cbn [length Nat.eqb andb is_some is_none negb andr bind py_index nth_error
         int_ arg];
    repeat match goal with
           | |- context [if ?b then _ else _] =>
               let E := fresh "E" in
               destruct b eqn:E;
               cbn [length Nat.eqb andb is_some is_none negb andr bind
                    py_index nth_error int_ arg]
           end;
    intros Heq; injection Heq as <-; exists y; (split; [reflexivity|]);
    repeat match goal with
           | H : (_ && _) = true |- _ => apply andb_true_iff in H; destruct H
           | H : (_ <=? _) = true |- _ => apply Z.leb_le in H
           end;
    try (specialize (Hm _ eq_refl)); try (specialize (Hd _ eq_refl));
    first [ solve [left; reflexivity]
          | solve [right; left; eexists; split; [|reflexivity]; lia]
          | solve [right; right; eexists; eexists;
                   split; [|split; [|reflexivity]]; lia] ].
Qed.

(** X6: whatever the input, a result of [interpret] is written from a year
    the classifier can record (a year from 1900 to the upper bound, a year
    19YY from 1932 to 1999, or the bare two digits 32 to 99 of the
    four-digit rule), and its month, when there is one, is from 1 to 12 and
    its day from 1 to 31. *)
Theorem result_within_bounds (Y : Z) (instr s : pystr) :
  interpret Y instr = Ok (Some s) ->
  exists y, year_value Y y /\ valid_date y s.
Proof.
  unfold interpret. intros H.
  destruct (stages Y instr) as [st| |] eqn:Hst; simpl in H; try discriminate.
  destruct (stages_fields Y instr st Hst) as (mo & Hmo & Hm & Hy & Hd).
  destruct (disambiguate_bounds st mo (stages_tokens Y instr st Hst) Hmo Hm Hd s H)
    as (y & Ey & Hv).
  exists y. split; [apply (Hy y Ey) | exact Hv].
Qed.

Lemma result_within_bounds_witness :
  exists y, year_value 2024 y /\ valid_date y (str "1923-08-12").
Proof.
  apply (result_within_bounds 2024 (str "aug 1923 12")).
  vm_compute. reflexivity.
Defined.

(** ** A year that is set stays, except for six- and eight-digit runs *)

Lemma classify_one_keeps_year Y st n x r y :
  classify_one Y st n x = Ok r -> year st = Some y ->
  length x <> 8%nat -> length x <> 6%nat ->
  year (state_of r) = Some y.
Proof.
  unfold classify_one. intros H Hy H8 H6. revert H. rewrite Hy.
  destruct (isdigit x) eqn:Hdig; simpl negb; cbv iota.
  2: { intros H. injection H as <-. exact Hy. }
  repeat match goal with
         | |- bind ?c _ = Ok _ -> _ =>
             let E := fresh "E" in
             destruct c eqn:E; cbn [bind]; try discriminate
         | |- (if ?b then _ else _) = Ok _ -> _ => destruct b
         | |- Ok _ = Ok _ -> _ =>
             let H := fresh in intros H; injection H as <-
         end;
    use_conditions; try lia; try discriminate;
    cbn [state_of year]; auto.
Qed.

(** X7: in the classification loop, once a year is set it is not changed
    by any later run whose length is neither 6 nor 8: only the rules for
    six- and eight-digit blocks write the year without looking at it. *)
Theorem classify_loop_keeps_year (Y : Z) (items : list (nat * pystr)) :
  forall st st' y,
    Forall (fun p => length (snd p) <> 8%nat /\ length (snd p) <> 6%nat) items ->
    year st = Some y ->
    classify_loop Y st items = Ok st' ->
    year st' = Some y.
Proof.
  induction items as [|[n x] items IH]; intros st st' y Hall Hy H; simpl in H.
  - injection H as <-. exact Hy.
  - inversion Hall as [|? ? [H8 H6] Hrest]; subst. simpl in H8, H6.
    destruct (classify_one Y st n x) as [r| |] eqn:Hone; simpl in H;
      try discriminate.
    pose proof (classify_one_keeps_year Y st n x r y Hone Hy H8 H6) as Hy'.
    destruct r as [st1|st1]; simpl in *.
    + apply (IH st1 st' y Hrest Hy' H).
    + injection H as <-. exact Hy'.
Qed.

Lemma classify_loop_keeps_year_witness :
  exists st',
    classify_loop 2024 (State [tag "y1983"; str " "; str "2001"]
                              (Some 1983) None None [])
                  [(2%nat, str "2001")] = Ok st' /\
    year st' = Some 1983.
Proof.
  eexists. split; [vm_compute; reflexivity|].
  apply (classify_loop_keeps_year 2024 [(2%nat, str "2001")]
           (State [tag "y1983"; str " "; str "2001"] (Some 1983) None None [])
           _ 1983).
  - constructor; [|constructor]. simpl. split; discriminate.
  - reflexivity.
  - vm_compute. reflexivity.
Defined.

(** ** The classifier keeps the text of the runs *)

Lemma classify_one_tokens Y st n x r :
  classify_one Y st n x = Ok r ->
  l (state_of r) = l st \/
  (isdigit x = true /\
   exists tg, In tg TAGS /\ py_setitem (l st) n (tag tg ++ x) = Ok (l (state_of r))).
Proof.
  unfold classify_one.
  destruct (isdigit x) eqn:Hd; simpl negb; cbv iota.
  2: { intros H. injection H as <-. left. reflexivity. }
  repeat match goal with
         | |- bind ?c _ = Ok _ -> _ =>
             let E := fresh "E" in
             destruct c eqn:E; cbn [bind]; try discriminate
         | |- (if ?b then _ else _) = Ok _ -> _ => destruct b
         | |- Ok _ = Ok _ -> _ =>
             let H := fresh in intros H; injection H as <-
         end;
    cbn [state_of l];
    first [ left; reflexivity
          | right; split; [reflexivity|];
            eexists; split; [|eassumption]; simpl; tauto ].
Qed.

Lemma Forall2_replace {A B} (R : A -> B -> Prop) n : forall (xs : list A) (ys : list B) v y,
  Forall2 R xs ys -> nth_error ys n = Some y -> R v y ->
  Forall2 R (firstn n xs ++ v :: skipn (S n) xs) ys.
Proof.
  induction n as [|n IH]; intros xs ys v y HF Hn Hv.
  - destruct HF as [|x y' xs ys Hxy HF]; [discriminate|].
    simpl in Hn. injection Hn as ->. simpl. constructor; assumption.
  - destruct HF as [|x y' xs ys Hxy HF]; [discriminate|].
    simpl in Hn. cbn [firstn skipn app]. constructor; [assumption|].
    apply (IH xs ys v y HF Hn Hv).
Qed.

Lemma classify_loop_tokens Y runs items : forall st st',
  (forall n x, In (n, x) items -> nth_error runs n = Some x) ->
  Forall2 tagged_or_same (l st) runs ->
  classify_loop Y st items = Ok st' ->
  Forall2 tagged_or_same (l st') runs.
Proof.
  induction items as [|[n x] items IH]; intros st st' Hitems HF H; simpl in H.
  - injection H as <-. exact HF.
  - destruct (classify_one Y st n x) as [r| |] eqn:Hone; simpl in H;
      try discriminate.
    assert (HF' : Forall2 tagged_or_same (l (state_of r)) runs).
    { destruct (classify_one_tokens Y st n x r Hone)
        as [->|(Hd & tg & Htg & Hset)]; [exact HF|].
      unfold py_setitem in Hset.
      destruct (n <? length (l st))%nat; [|discriminate].
      injection Hset as <-.
      apply (Forall2_replace _ n (l st) runs _ x HF).
      - apply Hitems. left. reflexivity.
      - right. split; [assumption|]. exists tg. auto. }
    destruct r as [st1|st1]; simpl in *.
    + apply (IH st1 st'); auto.
    + injection H as <-. exact HF'.
Qed.

Lemma Forall2_same {A} (R : A -> A -> Prop) (xs : list A) :
  (forall x, R x x) -> Forall2 R xs xs.
Proof. intros H. induction xs; constructor; auto. Qed.

Lemma classify_tokens Y runs st :
  classify Y runs = Ok st -> Forall2 tagged_or_same (l st) runs.
Proof.
  unfold classify. intros H.
  apply (classify_loop_tokens Y runs (enumerate runs)
           (State runs None None None []) st).
  - intros n x Hin. apply (in_enumerate runs n x Hin).
  - apply Forall2_same. intros x. left. reflexivity.
  - exact H.
Qed.

(** X8: after the classification every token is the run it was at that
    position, or that run behind one of the tags "…y", "…y19", "…d", "…n",
    which only a digit run gets: the list keeps its length and the text of
    every run. *)
Theorem classify_keeps_text (Y : Z) (runs : list pystr) (st : state) :
  classify Y runs = Ok st -> Forall2 tagged_or_same (l st) runs.
Proof. exact (classify_tokens Y runs st). Qed.

Lemma classify_keeps_text_witness :
  Forall2 tagged_or_same
    [tag "n12"; str "."; tag "n11"; str "."; tag "y1983"]
    [str "12"; str "."; str "11"; str "."; str "1983"].
Proof.
  apply (classify_keeps_text 2024 [str "12"; str "."; str "11"; str "."; str "1983"]
           (State [tag "n12"; str "."; tag "n11"; str "."; tag "y1983"]
                  (Some 1983) None None [12; 11])).
  vm_compute. reflexivity.
Defined.

(** ** The month-name matcher keeps the text around the name *)

Lemma match_here_length alts s n :
  match_here alts s = Some n ->
  exists w, In w alts /\ word_at w s = true /\ n = length w.
Proof.
  induction alts as [|w alts IH]; simpl; [discriminate|].
  destruct (word_at w s) eqn:E.
  - intros H. injection H as <-. exists w. auto.
  - intros H. destruct (IH H) as (w' & Hin & Hw & Hn). exists w'. auto.
Qed.

Lemma search_from_span alts s : forall pos sp,
  search_from alts pos s = Some sp ->
  (pos <= fst sp)%nat /\
  exists w, In w alts /\ word_at w (skipn (fst sp - pos) s) = true /\
            snd sp = (fst sp + length w)%nat.
Proof.
  induction s as [|c s IH]; intros pos sp; simpl.
  - destruct (match_here alts []) as [n|] eqn:E; [|discriminate].
    intros H. injection H as <-. simpl. split; [lia|].
    rewrite Nat.sub_diag.
    destruct (match_here_length alts [] n E) as (w & Hin & Hw & ->). eauto.
  - destruct (match_here alts (c :: s)) as [n|] eqn:E.
    + intros H. injection H as <-. simpl. split; [lia|].
      rewrite Nat.sub_diag.
      destruct (match_here_length alts (c :: s) n E) as (w & Hin & Hw & ->). eauto.
    + intros H. destruct (IH (S pos) sp H) as (Hle & w & Hin & Hw & Hsnd).
      split; [lia|]. exists w. split; [assumption|]. split; [|assumption].
      replace (fst sp - pos)%nat with (S (fst sp - S pos)) by lia. exact Hw.
Qed.

Lemma word_at_length w : forall s, word_at w s = true -> (length w <= length s)%nat.
Proof.
  induction w as [|p w IH]; intros s H; simpl; [lia|].
  destruct s as [|c s]; [discriminate|]. simpl in H.
  apply andb_true_iff in H as [_ H]. specialize (IH s H). simpl. lia.
Qed.

(** The span selected in a token lies within it, and the text it covers
    reads, letter by letter, as a name of the selected entry. *)
Lemma first_match_word x sp id :
  first_match x = Some (sp, id) ->
  exists rx w,
    In (rx, id) MONTHS /\ In w rx /\
    (fst sp <= snd sp <= length x)%nat /\
    map fold_key (slice (fst sp) (snd sp) x) = w.
Proof.
  intros H. pose proof (first_match_selection x) as Hs. rewrite H in Hs.
  destruct Hs as (before & rx & after & HM & Hre & _).
  assert (Hin : In (rx, id) MONTHS)
    by (rewrite HM; apply in_or_app; right; left; reflexivity).
  unfold re_search in Hre.
  destruct (search_from_span _ _ _ _ Hre) as (_ & w & Hw & Hat & Hsnd).
  rewrite Nat.sub_0_r in Hat.
  exists rx, w. split; [assumption|]. split; [assumption|].
  pose proof (word_at_length w _ Hat) as Hlen. rewrite length_skipn in Hlen.
  pose proof MONTHS_words as HW. rewrite forallb_forall in HW.
  specialize (HW (rx, id) Hin). simpl in HW. rewrite forallb_forall in HW.
  specialize (HW w Hw). apply andb_true_iff in HW as [Hlow Hl3].
  apply Nat.leb_le in Hl3.
  split; [lia|].
  unfold slice. replace (snd sp - fst sp)%nat with (length w) by lia.
  apply (word_at_key w _ Hlow Hat).
Qed.

Lemma concat_splice sp id x :
  (fst sp <= snd sp <= length x)%nat ->
  x = firstn (fst sp) x ++ slice (fst sp) (snd sp) x ++ skipn (snd sp) x /\
  concat (splice sp id x) = firstn (fst sp) x ++ id ++ skipn (snd sp) x.
Proof.
  intros Hsp. split.
  - rewrite app_assoc, <- (firstn_split x (fst sp) (snd sp)) by lia.
    symmetry. apply firstn_skipn.
  - unfold splice.
    destruct (Nat.ltb_spec 0 (fst sp)) as [Hs|Hs];
      destruct (Nat.ltb_spec (snd sp) (length x)) as [He|He];
      rewrite ?(skipn_all2 x He);
      try (replace (fst sp) with 0%nat by lia);
      simpl; rewrite ?app_nil_r; reflexivity.
Qed.

(** X9: the month loop either leaves the state as it is, or it replaces,
    in the text of the tokens, one word by the month tag of a catalogue
    entry and sets the month from that tag; the word reads, up to case, as
    a name of that entry, and every other character stays where it is. *)
Theorem month_names_keeps_text (st st' : state) :
  month_names st = Ok st' ->
  st' = st \/
  exists pre word post rx w id,
    In (rx, id) MONTHS /\ In w rx /\ map fold_key word = w /\
    concat (l st) = pre ++ word ++ post /\
    concat (l st') = pre ++ id ++ post /\
    month st' = Some (VStr (skipn 2 id)) /\
    year st' = year st /\ day st' = day st /\ nbrs st' = nbrs st.
Proof.
  intros H.
  destruct (month_names_cases st)
    as [E|(_ & skipped & x & post & sp & id & Hl & _ & Hx & E)];
    rewrite E in H; injection H as <-; [left; reflexivity|].
  right.
  destruct (first_match_word x sp id Hx) as (rx & w & Hin & Hw & Hsp & Hword).
  destruct (concat_splice sp id x Hsp) as [Hx3 Hc].
  exists (concat skipped ++ firstn (fst sp) x),
         (slice (fst sp) (snd sp) x),
         (skipn (snd sp) x ++ concat post), rx, w, id.
  repeat split; try assumption.
  - rewrite Hl, concat_app. simpl. rewrite Hx3 at 1.
    rewrite <- !app_assoc. reflexivity.
  - cbn [l]. rewrite !concat_app, Hc. rewrite <- !app_assoc. reflexivity.
Qed.

Lemma month_names_keeps_text_witness :
  exists pre word post rx w id,
    In (rx, id) MONTHS /\ In w rx /\ map fold_key word = w /\
    concat [tag "n12"; str " Sept. "; tag "y1983"] = pre ++ word ++ post /\
    concat [tag "n12"; str " "; tag "m9"; str ". "; tag "y1983"]
    = pre ++ id ++ post.
Proof.
  destruct (month_names_keeps_text
              (State [tag "n12"; str " Sept. "; tag "y1983"]
                     (Some 1983) None None [12])
              (State [tag "n12"; str " "; tag "m9"; str ". "; tag "y1983"]
                     (Some 1983) (Some (VStr (str "9"))) None [12]))
    as [H|(pre & word & post & rx & w & id & H1 & H2 & H3 & H4 & H5 & _)].
  - vm_compute. reflexivity.
  - discriminate H.
  - exists pre, word, post, rx, w, id. auto.
Defined.

(** ** The separators counted at the end are those of the input *)

Lemma count_app c a b : count c (a ++ b) = (count c a + count c b)%nat.
Proof. unfold count. rewrite filter_app, length_app. reflexivity. Qed.

Lemma count_tag sep tg :
  In sep (str "-.") -> In tg TAGS -> count sep (tag tg) = 0%nat.
Proof.
  simpl. intros [<-|[<-|[]]] [<-|[<-|[<-|[<-|[]]]]]; reflexivity.
Qed.

Lemma count_tagged sep t r :
  In sep (str "-.") -> tagged_or_same t r -> count sep t = count sep r.
Proof.
  intros Hsep [->|(_ & tg & Htg & ->)]; [reflexivity|].
  rewrite count_app, (count_tag sep tg Hsep Htg). reflexivity.
Qed.

Lemma count_concat_tokens sep ts runs :
  In sep (str "-.") -> Forall2 tagged_or_same ts runs ->
  count sep (concat ts) = count sep (concat runs).
Proof.
  intros Hsep HF. induction HF as [|t r ts runs Htr HF IH]; [reflexivity|].
  simpl. rewrite !count_app, IH, (count_tagged sep t r Hsep Htr). reflexivity.
Qed.

Lemma count_letters sep word :
  In sep (str "-.") -> forallb lower_letter (map fold_key word) = true ->
  count sep word = 0%nat.
Proof.
  intros Hsep. induction word as [|c word IH]; [reflexivity|].
  simpl map. simpl forallb. intros H. apply andb_true_iff in H as [Hc H].
  unfold count in *. simpl filter.
  destruct (N.eqb_spec sep c) as [<-|Hne]; [|apply IH; exact H].
  exfalso. simpl in Hsep. destruct Hsep as [<-|[<-|[]]]; discriminate Hc.
Qed.

Lemma MONTHS_tags_separators :
  forallb (fun e => forallb (fun sep => (count sep (snd e) =? 0)%nat) (str "-."))
          MONTHS = true.
Proof. vm_compute. reflexivity. Qed.

Lemma count_month_tag sep rx id :
  In sep (str "-.") -> In (rx, id) MONTHS -> count sep id = 0%nat.
Proof.
  intros Hsep Hin. pose proof MONTHS_tags_separators as H.
  rewrite forallb_forall in H. specialize (H (rx, id) Hin).
  rewrite forallb_forall in H. specialize (H sep Hsep).
  apply Nat.eqb_eq in H. exact H.
Qed.

(** X10: after the three loops the joined tokens hold as many "-" and as
    many "." as the input: the tags and the replacement of a month name
    add and remove none, so the test for exactly two separators at the end
    is a test on the input text. *)
Theorem stages_keep_separators (Y : Z) (instr : pystr) (st : state) :
  stages Y instr = Ok st ->
  (forall sep, In sep (str "-.") ->
               count sep (concat (l st)) = count sep instr) /\
  two_separators (concat (l st)) = two_separators instr.
Proof.
  intros H.
  assert (Hcount : forall sep, In sep (str "-.") ->
                               count sep (concat (l st)) = count sep instr).
  { intros sep Hsep. unfold stages in H.
    destruct instr as [|c0 rest]; [discriminate|].
    destruct (tokenize_inv (c0 :: rest) ltac:(discriminate))
      as (runs & Htok & _ & Hcat).
    rewrite Htok in H. cbn [bind] in H.
    destruct (classify Y runs) as [st0| |] eqn:Hc; cbn [bind] in H;
      try discriminate.
    pose proof (count_concat_tokens sep _ _ Hsep (classify_tokens Y runs st0 Hc))
      as H0.
    rewrite Hcat in H0.
    destruct (month_names_cases st0)
      as [E|(_ & skipped & x & post & sp & id & Hl & _ & Hx & E)];
      rewrite E in H; injection H as <-; [exact H0|].
    rewrite <- H0, Hl. cbn [l].
    destruct (first_match_word x sp id Hx) as (rx & w & Hin & Hw & Hsp & Hword).
    destruct (concat_splice sp id x Hsp) as [Hx3 Hcs].
    assert (Hlow : forallb lower_letter (map fold_key (slice (fst sp) (snd sp) x)) = true).
    { rewrite Hword. pose proof MONTHS_words as HW.
      rewrite forallb_forall in HW. specialize (HW (rx, id) Hin). simpl in HW.
      rewrite forallb_forall in HW. specialize (HW w Hw).
      apply andb_true_iff in HW as [Hlow _]. exact Hlow. }
    assert (Hcx : count sep x
                  = (count sep (firstn (fst sp) x) + count sep (skipn (snd sp) x))%nat).
    { rewrite Hx3 at 1. rewrite !count_app.
      rewrite (count_letters sep _ Hsep Hlow). lia. }
    rewrite !concat_app. cbn [concat]. rewrite !count_app, Hcs, !count_app.
    rewrite (count_month_tag sep rx id Hsep Hin), Hcx. lia. }
  split; [exact Hcount|].
  unfold two_separators. simpl existsb.
  rewrite (Hcount 45%N), (Hcount 46%N) by (simpl; auto). reflexivity.
Qed.

Lemma stages_keep_separators_witness :
  exists st, stages 2024 (str "12. aug-1983") = Ok st /\
             count DOT (concat (l st)) = 1%nat /\
             count DASH (concat (l st)) = 1%nat.
Proof.
  eexists. split; [vm_compute; reflexivity|].
  match goal with
  | |- count DOT (concat (l ?s)) = _ /\ _ =>
      destruct (stages_keep_separators 2024 (str "12. aug-1983") s) as [Hc _];
        [vm_compute; reflexivity|]
  end.
  split; [apply (Hc DOT) | apply (Hc DASH)]; simpl; auto.
Defined.

(** ** Month names are found whatever the case of the letters *)

Section CaseChange.

(** A change of characters that no lower-case pattern letter can tell. *)
Variable f : char -> char.
Hypothesis Hf : forall p c,
  lower_letter p = true -> ignorecase_eq p (f c) = ignorecase_eq p c.

Lemma word_at_map w : forall s,
  forallb lower_letter w = true -> word_at w (map f s) = word_at w s.
Proof using Hf.
  induction w as [|p w IH]; intros s Hw; [reflexivity|].
  simpl in Hw. apply andb_true_iff in Hw as [Hp Hw].
  destruct s as [|c s]; [reflexivity|]. simpl.
  rewrite (Hf p c Hp), (IH s Hw). reflexivity.
Qed.

Lemma match_here_map alts s :
  forallb catalogue_word alts = true ->
  match_here alts (map f s) = match_here alts s.
Proof using Hf.
  induction alts as [|w alts IH]; intros Hall; [reflexivity|].
  simpl in Hall. apply andb_true_iff in Hall as [Hw Hall].
  apply andb_true_iff in Hw as [Hw _].
  simpl. rewrite (word_at_map w s Hw), (IH Hall). reflexivity.
Qed.

Lemma search_from_map alts s : forall pos,
  forallb catalogue_word alts = true ->
  search_from alts pos (map f s) = search_from alts pos s.
Proof using Hf.
  induction s as [|c s IH]; intros pos Hall.
  - reflexivity.
  - change (map f (c :: s)) with (f c :: map f s). cbn [search_from].
    change (f c :: map f s) with (map f (c :: s)).
    rewrite (match_here_map alts (c :: s) Hall), (IH (S pos) Hall). reflexivity.
Qed.

Lemma first_match_in_map months x : forall first,
  forallb (fun e => forallb catalogue_word (fst e)) months = true ->
  first_match_in months (map f x) first = first_match_in months x first.
Proof using Hf.
  induction months as [|[rx id] months IH]; intros first Hall; [reflexivity|].
  simpl in Hall. apply andb_true_iff in Hall as [Hrx Hall].
  simpl. unfold re_search. rewrite (search_from_map rx x 0 Hrx).
  destruct (search_from rx 0 x) as [sp|]; [|apply IH; assumption].
  destruct first as [[sp0 id0]|]; [|apply IH; assumption].
  destruct (span_lt sp sp0); apply IH; assumption.
Qed.

Lemma first_match_map x : first_match (map f x) = first_match x.
Proof using Hf.
  unfold first_match. apply first_match_in_map. exact MONTHS_words.
Qed.

End CaseChange.

Lemma ignorecase_eq_upper p c :
  lower_letter p = true -> ignorecase_eq p (ascii_upper c) = ignorecase_eq p c.
Proof.
  unfold lower_letter, ignorecase_eq, ascii_upper. intros Hp.
  rewrite andb_true_iff, !N.leb_le in Hp.
  destruct (N.leb_spec 97 c), (N.leb_spec c 122); simpl; try reflexivity.
  apply eq_true_iff_eq.
  rewrite !orb_true_iff, !andb_true_iff, !orb_true_iff, !N.eqb_eq, !N.leb_le.
  lia.
Qed.

Lemma ignorecase_eq_lower p c :
  lower_letter p = true -> ignorecase_eq p (ascii_lower c) = ignorecase_eq p c.
Proof.
  unfold lower_letter, ignorecase_eq, ascii_lower. intros Hp.
  rewrite andb_true_iff, !N.leb_le in Hp.
  destruct (N.leb_spec 65 c), (N.leb_spec c 90); simpl; try reflexivity;
    apply eq_true_iff_eq;
    rewrite ?orb_true_iff, ?andb_true_iff, ?orb_true_iff, ?N.eqb_eq, ?N.leb_le;
    lia.
Qed.

(** X11: the month found in a token, and the place where it is found, do
    not depend on the case of the ASCII letters: writing the token in
    upper case or in lower case gives the same match. *)
Theorem first_match_any_case (x : pystr) :
  first_match (map ascii_upper x) = first_match x /\
  first_match (map ascii_lower x) = first_match x.
Proof.
  split.
  - apply (first_match_map ascii_upper ignorecase_eq_upper).
  - apply (first_match_map ascii_lower ignorecase_eq_lower).
Qed.

(** ** The command-line loops *)

Lemma interpret_readable Y i : readable i -> succeeds (interpret Y i).
Proof.
  intros (Hne & Hdec & Hlim).
  destruct (tokenize_inv i Hne) as (runs & Htok & Hinv & Hcat).
  rewrite <- Hcat in Hdec.
  unfold digits_within_limit in Hlim. rewrite Htok in Hlim.
  destruct (classify_succeeds Y runs Hinv Hdec Hlim) as [st0 Hcl].
  destruct (month_names_succeeds st0) as [st Hm].
  assert (Hst : stages Y i = Ok st).
  { unfold stages. rewrite Htok. simpl. rewrite Hcl. simpl. exact Hm. }
  pose proof (interpret_outcomes Y i st Hst) as H.
  destruct (year st); [destruct H as (s & -> & _)|rewrite H]; eexists; reflexivity.
Qed.

Lemma main_batch_readable Y lines : forall out,
  Forall readable lines ->
  exists results,
    Forall2 (fun i r => interpret Y i = Ok r) lines results /\
    main_batch Y lines out = (out ++ concat (map batch_line results), Ok tt).
Proof.
  induction lines as [|i lines IH]; intros out Hall.
  - exists []. split; [constructor|]. simpl. rewrite app_nil_r. reflexivity.
  - inversion Hall as [|? ? Hi Hrest]; subst.
    destruct (interpret_readable Y i Hi) as [r Hr].
    destruct (IH (out ++ batch_line r) Hrest) as (results & HF & Hrun).
    exists (r :: results). split; [constructor; assumption|].
    simpl. rewrite Hr, Hrun, <- app_assoc. reflexivity.
Qed.

Lemma main_batch_app Y lines : forall out rest results,
  Forall2 (fun i r => interpret Y i = Ok r) lines results ->
  main_batch Y (lines ++ rest) out
  = main_batch Y rest (out ++ concat (map batch_line results)).
Proof.
  induction lines as [|i lines IH]; intros out rest results HF.
  - inversion HF; subst. simpl. rewrite app_nil_r. reflexivity.
  - inversion HF as [|? r ? results' Hr HF']; subst.
    simpl. rewrite Hr, (IH _ rest results' HF'), <- app_assoc. reflexivity.
Qed.

(** X12: on lines that are not empty, whose digits are decimal and whose
    runs of digits are no longer than [int] accepts, [main_batch] ends
    normally at the end of the input and has written one line for each
    input line, in order: the date, or "None". *)
Theorem main_batch_one_line_each (Y : Z) (lines : list pystr) (out : pystr) :
  Forall readable lines ->
  exists results,
    Forall2 (fun i r => interpret Y i = Ok r) lines results /\
    main_batch Y lines out = (out ++ concat (map batch_line results), Ok tt).
Proof. exact (main_batch_readable Y lines out). Qed.

Lemma main_batch_one_line_each_witness :
  exists results,
    Forall2 (fun i r => interpret 2024 i = Ok r)
            [str "aug 1923 12"; str "no date"] results /\
    main_batch 2024 [str "aug 1923 12"; str "no date"] []
    = ([] ++ concat (map batch_line results), Ok tt).
Proof.
  apply main_batch_one_line_each.
  repeat (constructor;
          [split; [discriminate|]; split; [|reflexivity];
           intros c Hc; simpl in Hc;
           repeat (destruct Hc as [<-|Hc]; [vm_compute; auto|]); contradiction|]).
  constructor.
Defined.

(** X13: an empty line ends [main_batch] with the IndexError of
    [interpret]: the results of the lines before it are written, the lines
    after it are never read. *)
Theorem main_batch_empty_line (Y : Z) (lines rest : list pystr) (out : pystr) :
  Forall readable lines ->
  exists results,
    Forall2 (fun i r => interpret Y i = Ok r) lines results /\
    main_batch Y (lines ++ [] :: rest) out
    = (out ++ concat (map batch_line results), Raise IndexError).
Proof.
  intros Hall.
  destruct (main_batch_readable Y lines out Hall) as (results & HF & _).
  exists results. split; [assumption|].
  rewrite (main_batch_app Y lines out ([] :: rest) results HF). reflexivity.
Qed.

Lemma main_batch_empty_line_witness :
  exists results,
    Forall2 (fun i r => interpret 2024 i = Ok r) [str "1983"] results /\
    main_batch 2024 ([str "1983"] ++ [] :: [str "1984"]) []
    = ([] ++ concat (map batch_line results), Raise IndexError).
Proof.
  apply main_batch_empty_line.
  constructor; [|constructor]. split; [discriminate|]. split; [|reflexivity].
  intros c Hc. simpl in Hc.
  repeat (destruct Hc as [<-|Hc]; [vm_compute; auto|]). contradiction.
Defined.

Lemma main_tty_readable Y lines : forall out,
  Forall readable lines ->
  exists results,
    Forall2 (fun i r => interpret Y i = Ok r) lines results /\
    main_tty Y lines out
    = (out ++ concat (map (fun p => str "--> " ++ tty_line (fst p) (snd p))
                          (combine lines results))
           ++ str "--> ", Ok tt).
Proof.
  induction lines as [|i lines IH]; intros out Hall.
  - exists []. split; [constructor|]. reflexivity.
  - inversion Hall as [|? ? Hi Hrest]; subst.
    destruct (interpret_readable Y i Hi) as [r Hr].
    destruct (IH (out ++ str "--> " ++ tty_line i r) Hrest) as (results & HF & Hrun).
    exists (r :: results). split; [constructor; assumption|].
    cbn [main_tty]. rewrite Hr, Hrun. cbn [combine map concat fst snd].
    rewrite <- !app_assoc. reflexivity.
Qed.

(** X14: on such lines [main_tty] writes, for each line, the prompt "--> "
    and then a tab, a space, the line, " => " and the date or "None"; it
    writes one more prompt before the end of the input, and ends normally. *)
Theorem main_tty_transcript (Y : Z) (lines : list pystr) (out : pystr) :
  Forall readable lines ->
  exists results,
    Forall2 (fun i r => interpret Y i = Ok r) lines results /\
    main_tty Y lines out
    = (out ++ concat (map (fun p => str "--> " ++ tty_line (fst p) (snd p))
                          (combine lines results))
           ++ str "--> ", Ok tt).
Proof. exact (main_tty_readable Y lines out). Qed.

Lemma main_tty_transcript_witness :
  exists results,
    Forall2 (fun i r => interpret 2024 i = Ok r) [str "1983"] results /\
    main_tty 2024 [str "1983"] []
    = ([] ++ concat (map (fun p => str "--> " ++ tty_line (fst p) (snd p))
                         (combine [str "1983"] results))
          ++ str "--> ", Ok tt).
Proof.
  apply main_tty_transcript.
  constructor; [|constructor]. split; [discriminate|]. split; [|reflexivity].
  intros c Hc. simpl in Hc.
  repeat (destruct Hc as [<-|Hc]; [vm_compute; auto|]). contradiction.
Defined.

Example main_tty_example :
  main_tty 2024 [str "12.11.1983"] []
  = (str "--> " ++ [TAB] ++ str " 12.11.1983 => 1983-11-12" ++ [NEWLINE]
     ++ str "--> ", Ok tt).
Proof. vm_compute. reflexivity. Qed.

(** ** A month name needs three letters in a row *)

Lemma three_letters_skipn k : forall t,
  three_letters (skipn k t) = true -> three_letters t = true.
Proof.
  induction k as [|k IH]; intros t H; [exact H|].
  destruct t as [|a t]; [discriminate|]. simpl skipn in H.
  specialize (IH t H).
  destruct t as [|b [|c t]]; try discriminate.
  change (three_letters (a :: b :: c :: t))
    with ((letterish a && letterish b && letterish c) || three_letters (b :: c :: t)).
  rewrite IH. apply orb_true_r.
Qed.

Lemma three_letters_head t a b c :
  map fold_key (firstn 3 t) = [a; b; c] ->
  lower_letter a = true -> lower_letter b = true -> lower_letter c = true ->
  three_letters t = true.
Proof.
  destruct t as [|x [|y [|z t]]]; try discriminate.
  simpl. intros H Ha Hb Hc. injection H as <- <- <-.
  unfold letterish. rewrite Ha, Hb, Hc. reflexivity.
Qed.

Lemma first_match_three_letters t :
  three_letters t = false -> first_match t = None.
Proof.
  intros H. destruct (first_match t) as [[sp id]|] eqn:E; [|reflexivity].
  exfalso.
  pose proof (first_match_selection t) as Hs. rewrite E in Hs.
  destruct Hs as (before & rx & after & HM & Hre & _).
  assert (Hin : In (rx, id) MONTHS)
    by (rewrite HM; apply in_or_app; right; left; reflexivity).
  destruct (search_key3 (rx, id) t sp Hin Hre) as (w & Hw & Hk).
  pose proof MONTHS_words as HW. rewrite forallb_forall in HW.
  specialize (HW (rx, id) Hin). simpl in HW, Hw. rewrite forallb_forall in HW.
  specialize (HW w Hw). apply andb_true_iff in HW as [Hlow Hl3].
  apply Nat.leb_le in Hl3.
  destruct w as [|a [|b [|c w]]]; try (simpl in Hl3; lia).
  simpl in Hlow. simpl firstn in Hk.
  apply andb_true_iff in Hlow as [Ha Hlow].
  apply andb_true_iff in Hlow as [Hb Hlow].
  apply andb_true_iff in Hlow as [Hc _].
  pose proof (three_letters_head _ a b c Hk Ha Hb Hc) as H3.
  apply three_letters_skipn in H3. congruence.
Qed.

Lemma month_names_no_match st :
  Forall (fun t => first_match t = None) (l st) -> month_names st = Ok st.
Proof.
  intros Hall. destruct (month st) as [m|] eqn:Hm.
  - apply month_names_set. congruence.
  - apply (proj1 (month_loop_scan (l st) (length (l st)) st [] Hm eq_refl (le_n _))).
    exact Hall.
Qed.

(** X15: a token in which no three characters in a row read as letters
    holds no month name; a state whose tokens are all of that kind leaves
    the month loop as it came. *)
Theorem month_name_needs_three_letters (st : state) :
  (forall t, three_letters t = false -> first_match t = None) /\
  (Forall (fun t => three_letters t = false) (l st) -> month_names st = Ok st).
Proof.
  split.
  - exact first_match_three_letters.
  - intros Hall. apply month_names_no_match.
    eapply Forall_impl; [|exact Hall]. exact first_match_three_letters.
Qed.

Lemma month_name_needs_three_letters_witness :
  month_names (State [tag "y1983"; str " au 12. ju"] (Some 1983) None None [])
  = Ok (State [tag "y1983"; str " au 12. ju"] (Some 1983) None None []).
Proof.
  apply (month_name_needs_three_letters
           (State [tag "y1983"; str " au 12. ju"] (Some 1983) None None [])).
  repeat constructor.
Defined.

(** ** Dates written as three numbers *)

Lemma decimal_in_outside lo hi c : forall blocks,
  forallb (fun b => (hi <? b) || (b + 10 <=? lo))%N blocks = true ->
  (lo <= c <= hi)%N -> Unicode.decimal_in blocks c = None.
Proof.
  induction blocks as [|b bs IH]; simpl; intros H Hc; [reflexivity|].
  apply andb_true_iff in H as [Hb H].
  assert (E : ((b <=? c) && (c <? b + 10))%N = false).
  { apply andb_false_iff. apply orb_true_iff in Hb as [Hb|Hb].
    - left. apply N.ltb_lt in Hb. apply N.leb_gt. lia.
    - right. apply N.leb_le in Hb. apply N.ltb_ge. lia. }
  rewrite E. apply IH; assumption.
Qed.

Lemma decimal_not_letter c : isdecimal_char c = true -> letterish c = false.
Proof.
  intros H. destruct (letterish c) eqn:L; [|reflexivity]. exfalso.
  assert (Hnone : Unicode.decimal c = None);
    [|unfold isdecimal_char in H; rewrite Hnone in H; discriminate].
  unfold letterish, fold_key, lower_letter in L.
  destruct ((65 <=? c) && (c <=? 90))%N eqn:E1.
  { apply andb_true_iff in E1 as [A B]. apply N.leb_le in A, B.
    apply (decimal_in_outside 65 122); [vm_compute; reflexivity | lia]. }
  destruct ((c =? 304) || (c =? 305))%N eqn:E2.
  { apply orb_true_iff in E2 as [A|A]; apply N.eqb_eq in A; subst c;
      vm_compute; reflexivity. }
  destruct (c =? 8490)%N eqn:E3.
  { apply N.eqb_eq in E3. subst c. vm_compute. reflexivity. }
  destruct (c =? 383)%N eqn:E4.
  { apply N.eqb_eq in E4. subst c. vm_compute. reflexivity. }
  apply andb_true_iff in L as [A B]. apply N.leb_le in A, B.
  apply (decimal_in_outside 65 122); [vm_compute; reflexivity | lia].
Qed.

Lemma three_letters_none x :
  Forall (fun c => letterish c = false) x -> three_letters x = false.
Proof.
  induction 1 as [|a x Ha Hx IH]; [reflexivity|].
  destruct x as [|b [|c x]]; try reflexivity.
  change (three_letters (a :: b :: c :: x))
    with ((letterish a && letterish b && letterish c) || three_letters (b :: c :: x)).
  rewrite Ha, IH. reflexivity.
Qed.

Lemma three_letters_one b x :
  Forall (fun c => letterish c = false) x -> three_letters (b :: x) = false.
Proof.
  intros Hx. pose proof (three_letters_none x Hx) as H0.
  destruct x as [|c [|c' x]]; try reflexivity.
  change (three_letters (b :: c :: c' :: x))
    with ((letterish b && letterish c && letterish c') || three_letters (c :: c' :: x)).
  inversion Hx as [|? ? Hc _]; subst.
  rewrite Hc, H0, andb_false_r. reflexivity.
Qed.

(** A tagged digit run holds no month name. *)
Lemma three_letters_tagged b x :
  decimal_run x -> three_letters (ELLIPSIS :: b :: x) = false.
Proof.
  intros [_ Hx].
  assert (Hl : Forall (fun c => letterish c = false) x)
    by (eapply Forall_impl; [|exact Hx]; exact decimal_not_letter).
  pose proof (three_letters_one b x Hl) as H1.
  destruct x as [|c x]; [reflexivity|].
  change (three_letters (ELLIPSIS :: b :: c :: x))
    with ((letterish ELLIPSIS && letterish b && letterish c) || three_letters (b :: c :: x)).
  rewrite H1. reflexivity.
Qed.

Lemma is_year_int Y v : 1900 <= v <= Y -> is_year Y (VInt v) = Ok true.
Proof.
  intros H. unfold is_year, YEAR_LOW. simpl. rewrite (between_true 1900 Y v H).
  reflexivity.
Qed.

Lemma is_y2k_int_low v : v < 32 -> is_y2k (VInt v) = Ok false.
Proof.
  intros H. unfold is_y2k, Y2K_LOW. simpl.
  destruct (Z.leb_spec 32 v); [lia|]. reflexivity.
Qed.

Lemma is_month_int_value v : 1 <= v <= 12 -> is_month (VInt v) = Ok true.
Proof.
  intros H. unfold is_month. simpl. rewrite (between_true 1 12 v H). reflexivity.
Qed.

Lemma is_day_int_value v : 1 <= v <= 31 -> is_day (VInt v) = Ok true.
Proof.
  intros H. unfold is_day. simpl. rewrite (between_true 1 31 v H). reflexivity.
Qed.

Lemma decimal_run_firstn k x :
  decimal_run x -> (0 < k)%nat -> decimal_run (firstn k x).
Proof.
  intros [Hne Hall] Hk. split.
  - destruct x; [congruence|]. destruct k; [lia|]. discriminate.
  - rewrite Forall_forall in *. intros c Hc. apply Hall.
    rewrite <- (firstn_skipn k x). apply in_or_app. left. exact Hc.
Qed.

(** A four-digit run below 3200 does not start with a two-digit year. *)
Lemma year_head_low x v :
  numeral v x -> length x = 4%nat -> v < 3200 ->
  is_y2k (VStr (firstn 2 x)) = Ok false.
Proof.
  intros [Hx Hv] Hlen Hlt.
  assert (Hshort : within_limit (firstn 2 x) = true)
    by (apply within_limit_short; rewrite length_firstn; lia).
  destruct (int_str_decimal _ (decimal_run_firstn 2 x Hx ltac:(lia)) Hshort)
    as [h Hh].
  pose proof (int_str_head (firstn 2 x) (skipn 2 x) h v Hh) as Hb.
  rewrite firstn_skipn in Hb. specialize (Hb Hv).
  rewrite length_skipn, Hlen in Hb. change (10 ^ Z.of_nat (4 - 2)) with 100 in Hb.
  unfold is_y2k. cbn [int_]. rewrite Hh. cbn [bind]. unfold Y2K_LOW.
  destruct (Z.leb_spec 32 h); [lia|]. reflexivity.
Qed.

(** The loop body on a four-digit year when no year is set. *)
Lemma classify_one_year Y st n x v :
  numeral v x -> length x = 4%nat -> 1900 <= v <= Y -> v < 3200 ->
  year st = None ->
  classify_one Y st n x
  = (l' <- py_setitem (l st) n (tag "y" ++ x) ;;
     Ok (Continue (State l' (Some v) (month st) (day st) (nbrs st)))).
Proof.
  intros Hn Hlen Hr Hlt Hy. pose proof Hn as [Hx Hv]. unfold classify_one.
  rewrite (decimal_run_isdigit x Hx), Hv. cbn [negb bind].
  rewrite Hlen, Hy, (year_head_low x v Hn Hlen Hlt), (is_year_int Y v Hr).
  reflexivity.
Qed.

(** The loop body on a number from 1 to 31 of one or two digits. *)
Lemma classify_one_small Y st n x v :
  numeral v x -> (length x <= 2)%nat -> 1 <= v <= 31 ->
  classify_one Y st n x
  = if is_none (day st) && (12 <? v)
    then l' <- py_setitem (l st) n (tag "d" ++ x) ;;
         Ok (Continue (State l' (year st) (month st) (Some v) (nbrs st)))
    else l' <- py_setitem (l st) n (tag "n" ++ x) ;;
         Ok (Continue (State l' (year st) (month st) (day st) (nbrs st ++ [v]))).
Proof.
  intros [Hx Hv] Hlen Hr. unfold classify_one.
  rewrite (decimal_run_isdigit x Hx), Hv. cbn [negb bind].
  rewrite (is_y2k_int_low v ltac:(lia)), (is_day_int_value v Hr).
  assert (Hz : (v =? 0) = false) by (apply Z.eqb_neq; lia).
  assert (Hone : length x = 1%nat -> (12 <? v) = false).
  { intros H1. destruct x as [|c x]; [discriminate|].
    pose proof (int_digits_bounds (c :: x) 0 v ltac:(lia)
                  (proj2 (proj2 (int_str_ok _ _ Hv)))) as Hb.
    rewrite H1 in Hb. change (10 ^ Z.of_nat 1) with 10 in Hb.
    apply Z.ltb_ge. lia. }
  assert (Hcases : length x = 1%nat \/ length x = 2%nat).
  { destruct Hx as [Hne _]. destruct x as [|c [|c' [|c'' x]]];
      [congruence|left|right|simpl in Hlen; lia]; reflexivity. }
  rewrite Hz.
  destruct Hcases as [H1|H2].
  - rewrite (Hone H1), H1, andb_false_r.
    destruct (year st), (day st); reflexivity.
  - rewrite H2. destruct (year st), (day st), (12 <? v); reflexivity.
Qed.

Lemma classify_one_filler Y st n s : filler s -> classify_one Y st n s = Ok (Continue st).
Proof.
  intros (Hne & Hnd & _). unfold classify_one.
  rewrite (isdigit_run false s (no_digit_run s Hne Hnd)). reflexivity.
Qed.

Lemma tokenize_three (a s1 b s2 c : pystr) :
  decimal_run a -> filler s1 -> decimal_run b -> filler s2 -> decimal_run c ->
  tokenize (a ++ s1 ++ b ++ s2 ++ c) = Ok [a; s1; b; s2; c].
Proof.
  intros Ha (N1 & D1 & _) Hb (N2 & D2 & _) Hc.
  pose proof (decimal_run_run a Ha) as Ra.
  pose proof (decimal_run_run b Hb) as Rb.
  pose proof (decimal_run_run c Hc) as Rc.
  pose proof (no_digit_run s1 N1 D1) as R1.
  pose proof (no_digit_run s2 N2 D2) as R2.
  replace (a ++ s1 ++ b ++ s2 ++ c) with (concat [a; s1; b; s2; c])
    by (simpl; rewrite app_nil_r; reflexivity).
  apply tokenize_of_runs.
  - discriminate.
  - repeat constructor;
      solve [exists true; assumption | exists false; assumption].
  - unfold alternating. cbn [map].
    rewrite (isdigit_run true a Ra), (isdigit_run true b Rb),
      (isdigit_run true c Rc), (isdigit_run false s1 R1),
      (isdigit_run false s2 R2).
    simpl. repeat split; discriminate.
Qed.

Lemma count_decimal sep x :
  In sep (str "-.") -> decimal_run x -> count sep x = 0%nat.
Proof.
  intros Hsep [_ Hx]. unfold count.
  induction Hx as [|c x Hc Hx IH]; [reflexivity|].
  simpl filter. destruct (N.eqb_spec sep c) as [<-|_]; [|exact IH].
  exfalso. simpl in Hsep. destruct Hsep as [<-|[<-|[]]]; discriminate Hc.
Qed.

Lemma two_separators_same x y :
  (forall sep, In sep (str "-.") -> count sep x = count sep y) ->
  two_separators x = two_separators y.
Proof.
  intros H. unfold two_separators. simpl existsb.
  rewrite (H 45%N), (H 46%N) by (simpl; auto). reflexivity.
Qed.

(** The separators of three tagged numbers with text between them are
    those of the text. *)
Lemma two_separators_tagged t1 a s1 t2 b s2 t3 c :
  In t1 TAGS -> In t2 TAGS -> In t3 TAGS ->
  decimal_run a -> decimal_run b -> decimal_run c ->
  two_separators (concat [tag t1 ++ a; s1; tag t2 ++ b; s2; tag t3 ++ c])
  = two_separators (s1 ++ s2).
Proof.
  intros H1 H2 H3 Ha Hb Hc. apply two_separators_same. intros sep Hsep.
  cbn [concat]. rewrite !count_app.
  rewrite (count_tag sep t1 Hsep H1), (count_tag sep t2 Hsep H2),
    (count_tag sep t3 Hsep H3), (count_decimal sep a Hsep Ha),
    (count_decimal sep b Hsep Hb), (count_decimal sep c Hsep Hc).
  change (count sep []) with 0%nat. lia.
Qed.

Lemma disambiguate_day_number st y m d :
  year st = Some y -> month st = None -> day st = Some d -> nbrs st = [m] ->
  1 <= m <= 12 ->
  disambiguate st = Ok (Some (fmt_ymd y m d)).
Proof.
  intros Hy Hm Hd Hn Hr. unfold disambiguate. rewrite Hy, Hm, Hd, Hn.
  cbn [int_ bind int_opt option_map is_some is_none negb andb length Nat.eqb
       andr py_index nth_error].
  rewrite (is_month_int_value m Hr). reflexivity.
Qed.

Lemma disambiguate_year_number st y m :
  year st = Some y -> month st = None -> day st = None -> nbrs st = [m] ->
  1 <= m <= 12 ->
  disambiguate st = Ok (Some (fmt_ym y m)).
Proof.
  intros Hy Hm Hd Hn Hr. unfold disambiguate. rewrite Hy, Hm, Hd, Hn.
  cbn [int_ bind int_opt option_map is_some is_none negb andb length Nat.eqb
       andr py_index nth_error].
  rewrite (is_month_int_value m Hr). reflexivity.
Qed.

Lemma disambiguate_year_only st y :
  year st = Some y -> month st = None -> day st = None -> nbrs st = [] ->
  disambiguate st = Ok (Some (fmt_y y)).
Proof.
  intros Hy Hm Hd Hn. unfold disambiguate. rewrite Hy, Hm, Hd, Hn. reflexivity.
Qed.

(** Day, month, year: the last token is the year. *)
Lemma disambiguate_dmy st y m d t :
  year st = Some y -> month st = None -> day st = None -> nbrs st = [d; m] ->
  py_last (l st) = Ok t -> firstn 2 t = tag "y" ->
  1 <= m <= 12 -> 1 <= d <= 31 -> two_separators (concat (l st)) = true ->
  disambiguate st = Ok (Some (fmt_ymd y m d)).
Proof.
  intros Hy Hm Hd Hn Hl Ht Rm Rd Hsep. unfold disambiguate, dmy_reading.
  rewrite Hsep, Hy, Hm, Hd, Hn, Hl.
  cbn [int_ bind int_opt option_map is_some is_none negb andb length Nat.eqb
       andr py_index nth_error].
  rewrite Ht, (is_month_int_value m Rm), (is_day_int_value d Rd). reflexivity.
Qed.

(** Year, month, day: the first token is the year, the last one is not. *)
Lemma disambiguate_ymd st y m d t t0 :
  year st = Some y -> month st = None -> day st = None -> nbrs st = [m; d] ->
  py_last (l st) = Ok t -> str_eqb (firstn 2 t) (tag "y") = false ->
  py_index (l st) 0 = Ok t0 -> firstn 2 t0 = tag "y" ->
  1 <= m <= 12 -> 1 <= d <= 31 -> two_separators (concat (l st)) = true ->
  disambiguate st = Ok (Some (fmt_ymd y m d)).
Proof.
  intros Hy Hm Hd Hn Hl Ht Hl0 Ht0 Rm Rd Hsep.
  unfold disambiguate, dmy_reading, ymd_reading.
  rewrite Hsep, Hy, Hm, Hd, Hn, Hl, Hl0.
  cbn [int_ bind int_opt option_map is_some is_none negb andb length Nat.eqb
       andr py_index nth_error].
  rewrite Ht, Ht0, (is_month_int_value m Rm), (is_day_int_value d Rd).
  reflexivity.
Qed.

Lemma no_month_names st :
  Forall (fun t => three_letters t = false) (l st) -> month_names st = Ok st.
Proof.
  intros H. apply month_names_no_match.
  eapply Forall_impl; [|exact H]. exact first_match_three_letters.
Qed.

(** Two numbers left over and not exactly two separators of a kind: the
    year alone. *)
Lemma disambiguate_no_separators st y a b t t0 :
  year st = Some y -> month st = None -> day st = None -> nbrs st = [a; b] ->
  py_last (l st) = Ok t -> py_index (l st) 0 = Ok t0 ->
  two_separators (concat (l st)) = false ->
  disambiguate st = Ok (Some (fmt_y y)).
Proof.
  intros Hy Hm Hd Hn Hl Hl0 Hsep.
  unfold disambiguate, dmy_reading, ymd_reading.
  rewrite Hsep, Hy, Hm, Hd, Hn, Hl, Hl0. unfold is_day, is_month.
  cbn [int_ bind int_opt option_map is_some is_none negb andb length Nat.eqb
       andr py_index nth_error].
  destruct (str_eqb (firstn 2 t) (tag "y")), (str_eqb (firstn 2 t0) (tag "y")),
    ((1 <=? a) && (a <=? 31)), ((1 <=? b) && (b <=? 12)),
    ((1 <=? b) && (b <=? 31)), ((1 <=? a) && (a <=? 12)); reflexivity.
Qed.

Lemma classify_ymd Y (ys s1 ms s2 ds : pystr) y m d :
  numeral y ys -> length ys = 4%nat -> 1900 <= y <= Y -> y < 3200 ->
  numeral m ms -> (length ms <= 2)%nat -> 1 <= m <= 12 ->
  numeral d ds -> (length ds <= 2)%nat -> 1 <= d <= 31 ->
  filler s1 -> filler s2 ->
  classify Y [ys; s1; ms; s2; ds]
  = Ok (if 12 <? d
        then State [tag "y" ++ ys; s1; tag "n" ++ ms; s2; tag "d" ++ ds]
                   (Some y) None (Some d) [m]
        else State [tag "y" ++ ys; s1; tag "n" ++ ms; s2; tag "n" ++ ds]
                   (Some y) None None [m; d]).
Proof.
  intros Hy Ly Ry Hlt Hm Lm Rm Hd Ld Rd F1 F2.
  assert (Em : (12 <? m) = false) by (apply Z.ltb_ge; lia).
  unfold classify, enumerate. simpl combine. cbn [classify_loop].
  rewrite (classify_one_year Y _ 0 ys y) by (assumption || reflexivity).
  unfold py_setitem at 1. cbn [l length Nat.ltb Nat.leb firstn skipn app bind].
  rewrite (classify_one_filler Y _ 1 s1 F1). cbn [bind].
  rewrite (classify_one_small Y _ 2 ms m Hm Lm ltac:(lia)), Em, andb_false_r.
  unfold py_setitem at 1. cbn [l length Nat.ltb Nat.leb firstn skipn app bind].
  rewrite (classify_one_filler Y _ 3 s2 F2). cbn [bind].
  rewrite (classify_one_small Y _ 4 ds d Hd Ld Rd).
  cbn [day is_none andb].
  destruct (12 <? d); reflexivity.
Qed.

Lemma classify_dmy Y (ys s1 ms s2 ds : pystr) y m d :
  numeral y ys -> length ys = 4%nat -> 1900 <= y <= Y -> y < 3200 ->
  numeral m ms -> (length ms <= 2)%nat -> 1 <= m <= 12 ->
  numeral d ds -> (length ds <= 2)%nat -> 1 <= d <= 31 ->
  filler s1 -> filler s2 ->
  classify Y [ds; s1; ms; s2; ys]
  = Ok (if 12 <? d
        then State [tag "d" ++ ds; s1; tag "n" ++ ms; s2; tag "y" ++ ys]
                   (Some y) None (Some d) [m]
        else State [tag "n" ++ ds; s1; tag "n" ++ ms; s2; tag "y" ++ ys]
                   (Some y) None None [d; m]).
Proof.
  intros Hy Ly Ry Hlt Hm Lm Rm Hd Ld Rd F1 F2.
  assert (Em : (12 <? m) = false) by (apply Z.ltb_ge; lia).
  unfold classify, enumerate. simpl combine. cbn [classify_loop].
  rewrite (classify_one_small Y _ 0 ds d Hd Ld Rd).
  cbn [day is_none andb].
  destruct (12 <? d);
    unfold py_setitem at 1; cbn [l length Nat.ltb Nat.leb firstn skipn app bind];
    rewrite (classify_one_filler Y _ 1 s1 F1); cbn [bind];
    rewrite (classify_one_small Y _ 2 ms m Hm Lm ltac:(lia)), Em, andb_false_r;
    unfold py_setitem at 1; cbn [l length Nat.ltb Nat.leb firstn skipn app bind];
    rewrite (classify_one_filler Y _ 3 s2 F2); cbn [bind];
    rewrite (classify_one_year Y _ 4 ys y) by (assumption || reflexivity);
    reflexivity.
Qed.

Lemma filler_no_month s : filler s -> three_letters s = false.
Proof. intros (_ & _ & H). exact H. Qed.

Lemma TAGS_y : In "y"%string TAGS.
Proof. simpl. auto. Qed.

Lemma TAGS_d : In "d"%string TAGS.
Proof. simpl. auto. Qed.

Lemma TAGS_n : In "n"%string TAGS.
Proof. simpl. auto. Qed.

Lemma interpret_ymd_text (Y : Z) (ys s1 ms s2 ds : pystr) (y m d : Z) :
  date_numbers Y ys ms ds y m d -> filler s1 -> filler s2 ->
  interpret Y (ys ++ s1 ++ ms ++ s2 ++ ds)
  = Ok (Some (if (12 <? d) || two_separators (s1 ++ s2)
              then fmt_ymd y m d else fmt_y y)).
Proof.
  intros ((Hy & Ly & Ry & Hlt) & (Hm & Lm & Rm) & (Hd & Ld & Rd)) F1 F2.
  pose proof Hy as [Dy _]. pose proof Hm as [Dm _]. pose proof Hd as [Dd _].
  unfold interpret, stages.
  rewrite (tokenize_three ys s1 ms s2 ds Dy F1 Dm F2 Dd). cbn [bind].
  rewrite (classify_ymd Y ys s1 ms s2 ds y m d) by assumption. cbn [bind].
  rewrite no_month_names.
  2:{ destruct (12 <? d); cbn [l]; repeat constructor;
        solve [apply three_letters_tagged; assumption
              | apply filler_no_month; assumption]. }
  cbn [bind].
  destruct (12 <? d) eqn:Ed; cbn [orb].
  - apply disambiguate_day_number; solve [reflexivity | assumption].
  - pose proof (two_separators_tagged "y" ys s1 "n" ms s2 "n" ds
                  TAGS_y TAGS_n TAGS_n Dy Dm Dd) as Hsep.
    destruct (two_separators (s1 ++ s2)) eqn:E2.
    + eapply disambiguate_ymd; try reflexivity; try assumption.
    + eapply disambiguate_no_separators; try reflexivity; assumption.
Qed.

(** X16: a date written year, month, day.  With a four-digit year between
    1900 and the current year (and below 3200), a month from 1 to 12 and
    a day from 1 to 31 of one or two digits, and between them text
    without digits and without three letters in a row, the result is the
    full date when the day is above 12 or when the text holds exactly two
    "-" or exactly two "."; otherwise it is the year alone. *)
Theorem year_month_day_text (Y : Z) (ys s1 ms s2 ds : pystr) (y m d : Z) :
  date_numbers Y ys ms ds y m d -> filler s1 -> filler s2 ->
  interpret Y (ys ++ s1 ++ ms ++ s2 ++ ds)
  = Ok (Some (if (12 <? d) || two_separators (s1 ++ s2)
              then fmt_ymd y m d else fmt_y y)).
Proof. exact (interpret_ymd_text Y ys s1 ms s2 ds y m d). Qed.

Lemma year_month_day_text_witness :
  interpret 2024 (str "1983" ++ str ". " ++ str "3" ++ str ". " ++ str "12")
  = Ok (Some (fmt_ymd 1983 3 12)).
Proof.
  apply (year_month_day_text 2024 (str "1983") (str ". ") (str "3") (str ". ")
           (str "12") 1983 3 12).
  - unfold date_numbers, numeral, decimal_run.
    repeat split; solve [discriminate | lia | repeat constructor].
  - split; [discriminate | split; [repeat constructor | reflexivity]].
  - split; [discriminate | split; [repeat constructor | reflexivity]].
Defined.

Lemma interpret_dmy_text (Y : Z) (ys s1 ms s2 ds : pystr) (y m d : Z) :
  date_numbers Y ys ms ds y m d -> filler s1 -> filler s2 ->
  interpret Y (ds ++ s1 ++ ms ++ s2 ++ ys)
  = Ok (Some (if (12 <? d) || two_separators (s1 ++ s2)
              then fmt_ymd y m d else fmt_y y)).
Proof.
  intros ((Hy & Ly & Ry & Hlt) & (Hm & Lm & Rm) & (Hd & Ld & Rd)) F1 F2.
  pose proof Hy as [Dy _]. pose proof Hm as [Dm _]. pose proof Hd as [Dd _].
  unfold interpret, stages.
  rewrite (tokenize_three ds s1 ms s2 ys Dd F1 Dm F2 Dy). cbn [bind].
  rewrite (classify_dmy Y ys s1 ms s2 ds y m d) by assumption. cbn [bind].
  rewrite no_month_names.
  2:{ destruct (12 <? d); cbn [l]; repeat constructor;
        solve [apply three_letters_tagged; assumption
              | apply filler_no_month; assumption]. }
  cbn [bind].
  destruct (12 <? d) eqn:Ed; cbn [orb].
  - apply disambiguate_day_number; solve [reflexivity | assumption].
  - pose proof (two_separators_tagged "n" ds s1 "n" ms s2 "y" ys
                  TAGS_n TAGS_n TAGS_y Dd Dm Dy) as Hsep.
    destruct (two_separators (s1 ++ s2)) eqn:E2.
    + eapply disambiguate_dmy; try reflexivity; try assumption.
    + eapply disambiguate_no_separators; try reflexivity; assumption.
Qed.

(** X17: a date written day, month, year, under the conditions of the
    year-first form: the full date when the day is above 12 or when the
    text between the numbers holds exactly two "-" or exactly two ".";
    otherwise the year alone. *)
Theorem day_month_year_text (Y : Z) (ys s1 ms s2 ds : pystr) (y m d : Z) :
  date_numbers Y ys ms ds y m d -> filler s1 -> filler s2 ->
  interpret Y (ds ++ s1 ++ ms ++ s2 ++ ys)
  = Ok (Some (if (12 <? d) || two_separators (s1 ++ s2)
              then fmt_ymd y m d else fmt_y y)).
Proof. exact (interpret_dmy_text Y ys s1 ms s2 ds y m d). Qed.

Lemma day_month_year_text_witness :
  interpret 2024 (str "5" ++ str "." ++ str "11" ++ str "." ++ str "1983")
  = Ok (Some (fmt_ymd 1983 11 5)).
Proof.
  apply (day_month_year_text 2024 (str "1983") (str ".") (str "11") (str ".")
           (str "5") 1983 11 5).
  - unfold date_numbers, numeral, decimal_run.
    repeat split; solve [discriminate | lia | repeat constructor].
  - split; [discriminate | split; [repeat constructor | reflexivity]].
  - split; [discriminate | split; [repeat constructor | reflexivity]].
Defined.

(** ** The results are read back as they are *)

Lemma fmt_reads_numeral w v :
  (0 < w)%nat -> fmt_reads w v = true ->
  numeral v (fmt_0d w v) /\ length (fmt_0d w v) = w.
Proof.
  intros Hw H. unfold fmt_reads in H. cbv zeta in H.
  apply andb_true_iff in H as [H Hv]. apply andb_true_iff in H as [Hl Hd].
  apply Nat.eqb_eq in Hl.
  destruct (int_str (fmt_0d w v)) as [v'| |] eqn:E; try discriminate.
  apply Z.eqb_eq in Hv. subst v'.
  repeat split; try assumption.
  - intros Hnil. rewrite Hnil in Hl. simpl in Hl. lia.
  - apply Forall_forall. rewrite forallb_forall in Hd. exact Hd.
Qed.

Lemma fmt_reads_range w lo n :
  forallb (fmt_reads w) (map Z.of_nat (seq lo n)) = true ->
  forall v, Z.of_nat lo <= v < Z.of_nat (lo + n) -> fmt_reads w v = true.
Proof.
  intros H v Hv. rewrite forallb_forall in H. apply H.
  replace v with (Z.of_nat (Z.to_nat v)) by lia.
  apply in_map, in_seq. lia.
Qed.

Lemma fmt_reads_years :
  forallb (fmt_reads 4) (map Z.of_nat (seq 1900 1300)) = true.
Proof. vm_compute. reflexivity. Qed.

Lemma fmt_reads_days :
  forallb (fmt_reads 2) (map Z.of_nat (seq 1 31)) = true.
Proof. vm_compute. reflexivity. Qed.

Lemma fmt_year y :
  1900 <= y < 3200 -> numeral y (fmt_0d 4 y) /\ length (fmt_0d 4 y) = 4%nat.
Proof.
  intros H. apply fmt_reads_numeral; [lia|].
  apply (fmt_reads_range 4 1900 1300 fmt_reads_years). lia.
Qed.

Lemma fmt_day d :
  1 <= d <= 31 -> numeral d (fmt_0d 2 d) /\ length (fmt_0d 2 d) = 2%nat.
Proof.
  intros H. apply fmt_reads_numeral; [lia|].
  apply (fmt_reads_range 2 1 31 fmt_reads_days). lia.
Qed.

Lemma tokenize_one (a : pystr) : decimal_run a -> tokenize a = Ok [a].
Proof.
  intros Ha. pose proof (decimal_run_run a Ha) as Ra.
  replace a with (concat [a]) at 1 by (simpl; apply app_nil_r).
  apply tokenize_of_runs.
  - discriminate.
  - repeat constructor. exists true. assumption.
  - exact I.
Qed.

Lemma tokenize_two (a s1 b : pystr) :
  decimal_run a -> s1 <> [] -> no_digit s1 -> decimal_run b ->
  tokenize (a ++ s1 ++ b) = Ok [a; s1; b].
Proof.
  intros Ha N1 D1 Hb.
  pose proof (decimal_run_run a Ha) as Ra.
  pose proof (decimal_run_run b Hb) as Rb.
  pose proof (no_digit_run s1 N1 D1) as R1.
  replace (a ++ s1 ++ b) with (concat [a; s1; b])
    by (simpl; rewrite app_nil_r; reflexivity).
  apply tokenize_of_runs.
  - discriminate.
  - repeat constructor;
      solve [exists true; assumption | exists false; assumption].
  - unfold alternating. cbn [map].
    rewrite (isdigit_run true a Ra), (isdigit_run true b Rb),
      (isdigit_run false s1 R1).
    simpl. repeat split; discriminate.
Qed.

(** A year alone. *)
Lemma interpret_year_text Y ys y :
  numeral y ys -> length ys = 4%nat -> 1900 <= y <= Y -> y < 3200 ->
  interpret Y ys = Ok (Some (fmt_y y)).
Proof.
  intros Hy Ly Ry Hlt. pose proof Hy as [Dy _].
  unfold interpret, stages. rewrite (tokenize_one ys Dy). cbn [bind].
  unfold classify, enumerate. simpl combine. cbn [classify_loop].
  rewrite (classify_one_year Y _ 0 ys y) by (assumption || reflexivity).
  unfold py_setitem at 1. cbn [l length Nat.ltb Nat.leb firstn skipn app bind].
  rewrite no_month_names
    by (cbn [l]; repeat constructor; apply three_letters_tagged; assumption).
  cbn [bind]. apply disambiguate_year_only; reflexivity.
Qed.

(** A year and a month. *)
Lemma interpret_year_month_text Y ys s1 ms y m :
  numeral y ys -> length ys = 4%nat -> 1900 <= y <= Y -> y < 3200 ->
  numeral m ms -> (length ms <= 2)%nat -> 1 <= m <= 12 -> filler s1 ->
  interpret Y (ys ++ s1 ++ ms) = Ok (Some (fmt_ym y m)).
Proof.
  intros Hy Ly Ry Hlt Hm Lm Rm F1.
  pose proof Hy as [Dy _]. pose proof Hm as [Dm _]. pose proof F1 as (N1 & D1 & _).
  assert (Em : (12 <? m) = false) by (apply Z.ltb_ge; lia).
  unfold interpret, stages. rewrite (tokenize_two ys s1 ms Dy N1 D1 Dm). cbn [bind].
  unfold classify, enumerate. simpl combine. cbn [classify_loop].
  rewrite (classify_one_year Y _ 0 ys y) by (assumption || reflexivity).
  unfold py_setitem at 1. cbn [l length Nat.ltb Nat.leb firstn skipn app bind].
  rewrite (classify_one_filler Y _ 1 s1 F1). cbn [bind].
  rewrite (classify_one_small Y _ 2 ms m Hm Lm ltac:(lia)), Em, andb_false_r.
  unfold py_setitem at 1. cbn [l length Nat.ltb Nat.leb firstn skipn app bind].
  rewrite no_month_names
    by (cbn [l]; repeat constructor;
        solve [apply three_letters_tagged; assumption
              | apply filler_no_month; assumption]).
  cbn [bind]. apply disambiguate_year_number; solve [reflexivity | assumption].
Qed.

Lemma filler_dash : filler [DASH].
Proof. split; [discriminate | split; [repeat constructor | reflexivity]]. Qed.

(** X18: the results are fixed points.  A result string for a year from
    1900 to the current year (and below 3200), with a month from 1 to 12
    and a day from 1 to 31 when it has them, is interpreted as itself. *)
Theorem interpret_result_again (Y y : Z) (s : pystr) :
  1900 <= y <= Y -> y < 3200 -> valid_date y s ->
  interpret Y s = Ok (Some s).
Proof.
  intros Ry Hlt Hs.
  destruct (fmt_year y ltac:(lia)) as [Hy Ly].
  destruct Hs as [->|[(m & Rm & ->)|(m & d & Rm & Rd & ->)]].
  - apply (interpret_year_text Y (fmt_0d 4 y) y); assumption.
  - destruct (fmt_day m ltac:(lia)) as [Hm Lm].
    apply (interpret_year_month_text Y (fmt_0d 4 y) [DASH] (fmt_0d 2 m) y m);
      try assumption; [lia | exact filler_dash].
  - destruct (fmt_day m ltac:(lia)) as [Hm Lm].
    destruct (fmt_day d Rd) as [Hd Ld].
    pose proof (interpret_ymd_text Y (fmt_0d 4 y) [DASH] (fmt_0d 2 m) [DASH]
                  (fmt_0d 2 d) y m d) as H.
    change (two_separators ([DASH] ++ [DASH])) with true in H.
    rewrite orb_true_r in H. apply H; [|exact filler_dash|exact filler_dash].
    unfold date_numbers. repeat split; solve [apply Hy | apply Hm | apply Hd | lia].
Qed.

Lemma interpret_result_again_witness :
  interpret 2024 (fmt_ymd 1983 3 12) = Ok (Some (fmt_ymd 1983 3 12)).
Proof.
  apply (interpret_result_again 2024 1983); [lia | lia |].
  right. right. exists 3, 12. repeat split; lia.
Defined.

(** ** Dates with a month name *)

Lemma classify_one_text Y st n (s : pystr) :
  s <> [] -> no_digit s -> classify_one Y st n s = Ok (Continue st).
Proof.
  intros Hne Hnd. unfold classify_one.
  rewrite (isdigit_run false s (no_digit_run s Hne Hnd)). reflexivity.
Qed.

Lemma month_names_found st skipped x post sp id :
  month st = None -> l st = skipped ++ x :: post ->
  Forall (fun t => three_letters t = false) skipped ->
  first_match x = Some (sp, id) ->
  month_names st
  = Ok (State (skipped ++ splice sp id x ++ post) (year st)
              (Some (VStr (skipn 2 id))) (day st) (nbrs st)).
Proof.
  intros Hm Hl Hsk Hx.
  apply (proj2 (month_loop_scan (l st) (length (l st)) st [] Hm eq_refl (le_n _))
           skipped x post sp id Hl); [|exact Hx].
  eapply Forall_impl; [|exact Hsk]. exact first_match_three_letters.
Qed.

Lemma month_of_found s m :
  month_of s = Some m ->
  exists sp id, first_match s = Some (sp, id) /\ int_str (skipn 2 id) = Ok m /\
                1 <= m <= 12.
Proof.
  unfold month_of. intros H.
  destruct (first_match s) as [[sp id]|] eqn:E; [|discriminate].
  destruct (month_tag_int id (first_match_tag s sp id E)) as (m' & Hm' & Hr).
  rewrite Hm' in H. injection H as <-. eauto.
Qed.

Lemma disambiguate_month_day st y t m d :
  year st = Some y -> month st = Some (VStr t) -> int_str t = Ok m ->
  day st = Some d ->
  disambiguate st = Ok (Some (fmt_ymd y m d)).
Proof.
  intros Hy Hm Ht Hd. unfold disambiguate.
  rewrite Hy, Hm, Hd, (int_opt_str t m Ht). reflexivity.
Qed.

Lemma disambiguate_month_number st y t m d :
  year st = Some y -> month st = Some (VStr t) -> int_str t = Ok m ->
  day st = None -> nbrs st = [d] -> 1 <= d <= 31 ->
  disambiguate st = Ok (Some (fmt_ymd y m d)).
Proof.
  intros Hy Hm Ht Hd Hn Rd. unfold disambiguate.
  rewrite Hy, Hm, Hd, Hn, (int_opt_str t m Ht).
  cbn [int_ bind int_opt option_map is_some is_none negb andb length Nat.eqb
       andr py_index nth_error].
  rewrite (is_day_int_value d Rd). reflexivity.
Qed.

Lemma disambiguate_month_only st y t m :
  year st = Some y -> month st = Some (VStr t) -> int_str t = Ok m ->
  day st = None -> nbrs st = [] ->
  disambiguate st = Ok (Some (fmt_ym y m)).
Proof.
  intros Hy Hm Ht Hd Hn. unfold disambiguate.
  rewrite Hy, Hm, Hd, Hn, (int_opt_str t m Ht). reflexivity.
Qed.

Lemma classify_day_text_year Y (ds s ys : pystr) y d :
  numeral y ys -> length ys = 4%nat -> 1900 <= y <= Y -> y < 3200 ->
  numeral d ds -> (length ds <= 2)%nat -> 1 <= d <= 31 ->
  s <> [] -> no_digit s ->
  classify Y [ds; s; ys]
  = Ok (if 12 <? d
        then State [tag "d" ++ ds; s; tag "y" ++ ys] (Some y) None (Some d) []
        else State [tag "n" ++ ds; s; tag "y" ++ ys] (Some y) None None [d]).
Proof.
  intros Hy Ly Ry Hlt Hd Ld Rd Ns Ds.
  unfold classify, enumerate. simpl combine. cbn [classify_loop].
  rewrite (classify_one_small Y _ 0 ds d Hd Ld Rd).
  cbn [day is_none andb].
  destruct (12 <? d);
    unfold py_setitem at 1; cbn [l length Nat.ltb Nat.leb firstn skipn app bind];
    rewrite (classify_one_text Y _ 1 s Ns Ds); cbn [bind];
    rewrite (classify_one_year Y _ 2 ys y) by (assumption || reflexivity);
    reflexivity.
Qed.

Lemma classify_year_text_day Y (ds s ys : pystr) y d :
  numeral y ys -> length ys = 4%nat -> 1900 <= y <= Y -> y < 3200 ->
  numeral d ds -> (length ds <= 2)%nat -> 1 <= d <= 31 ->
  s <> [] -> no_digit s ->
  classify Y [ys; s; ds]
  = Ok (if 12 <? d
        then State [tag "y" ++ ys; s; tag "d" ++ ds] (Some y) None (Some d) []
        else State [tag "y" ++ ys; s; tag "n" ++ ds] (Some y) None None [d]).
Proof.
  intros Hy Ly Ry Hlt Hd Ld Rd Ns Ds.
  unfold classify, enumerate. simpl combine. cbn [classify_loop].
  rewrite (classify_one_year Y _ 0 ys y) by (assumption || reflexivity).
  unfold py_setitem at 1. cbn [l length Nat.ltb Nat.leb firstn skipn app bind].
  rewrite (classify_one_text Y _ 1 s Ns Ds). cbn [bind].
  rewrite (classify_one_small Y _ 2 ds d Hd Ld Rd).
  cbn [day is_none andb].
  destruct (12 <? d); reflexivity.
Qed.

Lemma classify_text_year Y (s ys : pystr) y :
  numeral y ys -> length ys = 4%nat -> 1900 <= y <= Y -> y < 3200 ->
  s <> [] -> no_digit s ->
  classify Y [s; ys] = Ok (State [s; tag "y" ++ ys] (Some y) None None []).
Proof.
  intros Hy Ly Ry Hlt Ns Ds.
  unfold classify, enumerate. simpl combine. cbn [classify_loop].
  rewrite (classify_one_text Y _ 0 s Ns Ds). cbn [bind].
  rewrite (classify_one_year Y _ 1 ys y) by (assumption || reflexivity).
  reflexivity.
Qed.

(** X19: dates with a month name.  When the text [s] holds no digit and
    the month loop finds the month [m] in it, then with a four-digit year
    [y] between 1900 and the current year (and below 3200) and a day [d]
    from 1 to 31 of one or two digits: day, text, year and year, text, day
    both give the full date, and the text followed by the year gives the
    year and the month. *)
Theorem date_with_month_name (Y : Z) (ys s ds : pystr) (y m d : Z) :
  numeral y ys -> length ys = 4%nat -> 1900 <= y <= Y -> y < 3200 ->
  numeral d ds -> (length ds <= 2)%nat -> 1 <= d <= 31 ->
  no_digit s -> month_of s = Some m ->
  interpret Y (ds ++ s ++ ys) = Ok (Some (fmt_ymd y m d)) /\
  interpret Y (ys ++ s ++ ds) = Ok (Some (fmt_ymd y m d)) /\
  interpret Y (s ++ ys) = Ok (Some (fmt_ym y m)).
Proof.
  intros Hy Ly Ry Hlt Hd Ld Rd Ds Hmo.
  pose proof Hy as [Dy _]. pose proof Hd as [Dd _].
  destruct (month_of_found s m Hmo) as (sp & id & Hfm & Hid & Rm).
  assert (Ns : s <> []) by (intros ->; discriminate Hfm).
  pose proof (three_letters_tagged 100%N ds Dd) as Td.
  pose proof (three_letters_tagged 110%N ds Dd) as Tn.
  pose proof (three_letters_tagged 121%N ys Dy) as Ty.
  split; [|split]; unfold interpret, stages.
  - rewrite (tokenize_two ds s ys Dd Ns Ds Dy). cbn [bind].
    rewrite (classify_day_text_year Y ds s ys y d) by assumption. cbn [bind].
    destruct (12 <? d).
    + rewrite (month_names_found _ [tag "d" ++ ds] s [tag "y" ++ ys] sp id)
        by (try reflexivity; try assumption; repeat constructor; exact Td).
      cbn [bind]. eapply disambiguate_month_day; try reflexivity; exact Hid.
    + rewrite (month_names_found _ [tag "n" ++ ds] s [tag "y" ++ ys] sp id)
        by (try reflexivity; try assumption; repeat constructor; exact Tn).
      cbn [bind].
      eapply disambiguate_month_number; try reflexivity; assumption.
  - rewrite (tokenize_two ys s ds Dy Ns Ds Dd). cbn [bind].
    rewrite (classify_year_text_day Y ds s ys y d) by assumption. cbn [bind].
    destruct (12 <? d).
    + rewrite (month_names_found _ [tag "y" ++ ys] s [tag "d" ++ ds] sp id)
        by (try reflexivity; try assumption; repeat constructor; exact Ty).
      cbn [bind]. eapply disambiguate_month_day; try reflexivity; exact Hid.
    + rewrite (month_names_found _ [tag "y" ++ ys] s [tag "n" ++ ds] sp id)
        by (try reflexivity; try assumption; repeat constructor; exact Ty).
      cbn [bind].
      eapply disambiguate_month_number; try reflexivity; assumption.
  - replace (s ++ ys) with (s ++ ys ++ []) by (rewrite app_nil_r; reflexivity).
    rewrite (tokenize_around s ys [] Ds ltac:(constructor) Dy).
    assert (Ha : around s ys [] = [s; ys])
      by (unfold around; destruct s; [congruence | reflexivity]).
    rewrite Ha. cbn [bind].
    rewrite (classify_text_year Y s ys y) by assumption. cbn [bind].
    rewrite (month_names_found _ [] s [tag "y" ++ ys] sp id)
      by (try reflexivity; try assumption; constructor).
    cbn [bind]. eapply disambiguate_month_only; try reflexivity; exact Hid.
Qed.

Lemma date_with_month_name_witness :
  interpret 2024 (str "12" ++ str ". August " ++ str "1983")
  = Ok (Some (fmt_ymd 1983 8 12)).
Proof.
  refine (proj1 (date_with_month_name 2024 (str "1983") (str ". August ")
                   (str "12") 1983 8 12 _ _ _ _ _ _ _ _ _)).
  - split; [split; [discriminate | repeat constructor] | reflexivity].
  - reflexivity.
  - lia.
  - lia.
  - split; [split; [discriminate | repeat constructor] | reflexivity].
  - simpl. lia.
  - lia.
  - repeat constructor.
  - vm_compute. reflexivity.
Defined.

(** ** The clock *)

(** X20: the current year matters only through the numbers it is compared
    with.  When every year read from an eight-, six- or four-digit run of
    the input is at most [Y1] or above [Y2], the result is the same with
    the clock at [Y1] and at [Y2]. *)
Theorem interpret_between_clocks (Y1 Y2 : Z) (instr : pystr) :
  Y1 <= Y2 -> input_year_checks Y1 (Some Y2) instr = true ->
  interpret Y2 instr = interpret Y1 instr.
Proof.
  intros H12 Hc.
  apply (interpret_bound Y2 Y1 (Some Y2) H12 (Z.le_refl Y2) instr Hc).
Qed.

Lemma interpret_between_clocks_witness :
  interpret 2030 (str "12. aug 1983, 20310101")
  = interpret 2024 (str "12. aug 1983, 20310101").
Proof.
  apply (interpret_between_clocks 2024 2030); [lia | vm_compute; reflexivity].
Defined.

(** ** The classifier on runs it has no rule for *)

Lemma classify_one_long Y st n x :
  decimal_run x -> within_limit x = false ->
  classify_one Y st n x = Raise ValueError.
Proof.
  intros Hx Hlim. unfold classify_one.
  rewrite (decimal_run_isdigit x Hx), (int_str_long x Hlim). reflexivity.
Qed.

Lemma classify_around_long Y pre x post :
  no_digit pre -> no_digit post -> decimal_run x -> within_limit x = false ->
  classify Y (around pre x post) = Raise ValueError.
Proof.
  intros Hpre Hpost Hx Hlim.
  unfold classify, around.
  destruct pre as [|c pre], post as [|c' post]; unfold enumerate; simpl combine;
    cbn [classify_loop];
    rewrite ?(classify_one_text Y _ _ (c :: pre)) by (discriminate || assumption);
    cbn [bind]; rewrite (classify_one_long Y _ _ x Hx Hlim); reflexivity.
Qed.

(** C10: a run of decimal digits of length 3, 5, 7 or at least 9, and one
    of length at most 2 whose value is 0, leaves everything as it was: the
    body of the classification loop continues with the same state (same
    year, month, day and candidate numbers, and the same list of runs, so
    the run is not tagged).  This holds as long as [int] converts the run:
    on a run of more than [INT_MAX_STR_DIGITS] digits the conversion at
    the head of the loop body raises ValueError, and so does [interpret]
    on such a run, alone or between text without digits. *)
Theorem classifier_ignores_run (Y : Z) (st : state) (n : nat) (pre x post : pystr) :
  decimal_run x ->
  (length x = 3 \/ length x = 5 \/ length x = 7 \/ 9 <= length x \/
   (length x <= 2 /\ int_str x = Ok 0%Z))%nat ->
  classify_one Y st n x
  = (if within_limit x then Ok (Continue st) else Raise ValueError) /\
  (within_limit x = false -> no_digit pre -> no_digit post ->
   interpret Y (pre ++ x ++ post) = Raise ValueError).
Proof.
  intros Hrun Hlen. split.
  - destruct (within_limit x) eqn:Hlim; [|apply (classify_one_long Y st n x Hrun Hlim)].
    unfold classify_one. rewrite (decimal_run_isdigit x Hrun). simpl negb. cbv iota.
    destruct (int_str_decimal x Hrun Hlim) as [v Hv]. rewrite Hv.
    assert (H8 : (length x =? 8)%nat = false) by (apply Nat.eqb_neq; lia).
    assert (H6 : (length x =? 6)%nat = false) by (apply Nat.eqb_neq; lia).
    assert (H4 : (length x =? 4)%nat = false) by (apply Nat.eqb_neq; lia).
    unfold bind at 1. unfold andr, bind. rewrite H8, H6, H4.
    destruct (is_none (year st)), (is_none (day st));
      destruct Hlen as [H|[H|[H|[H|[H H0]]]]];
      try (replace (length x =? 2)%nat with false by (symmetry; apply Nat.eqb_neq; lia);
           replace (length x <=? 2)%nat with false by (symmetry; apply Nat.leb_gt; lia);
           reflexivity);
      rewrite H0 in Hv; injection Hv as <-;
      destruct (length x =? 2)%nat, (length x <=? 2)%nat; reflexivity.
  - intros Hlim Hpre Hpost. unfold interpret, stages.
    rewrite (tokenize_around pre x post Hpre Hpost Hrun). cbn [bind].
    rewrite (classify_around_long Y pre x post Hpre Hpost Hrun Hlim). reflexivity.
Qed.

Lemma classifier_ignores_run_witness :
  classify_one 2024 (State [str "123"] None None None []) 0 (str "123")
    = Ok (Continue (State [str "123"] None None None [])) /\
  classify_one 2024 (State [str "00"] None None None []) 0 (str "00")
    = Ok (Continue (State [str "00"] None None None [])) /\
  interpret 2024 (repeat 49%N (Z.to_nat 4301)) = Raise ValueError.
Proof.
  assert (Hones : decimal_run (repeat 49%N (Z.to_nat 4301))).
  { split; [discriminate|]. apply Forall_forall. intros c Hc.
    apply repeat_spec in Hc. subst c. reflexivity. }
  split; [|split].
  - apply (classifier_ignores_run 2024 _ 0 [] (str "123") []).
    + split; [discriminate | repeat constructor].
    + left. reflexivity.
  - apply (classifier_ignores_run 2024 _ 0 [] (str "00") []).
    + split; [discriminate | repeat constructor].
    + right. right. right. right. split; [simpl; lia | reflexivity].
  - rewrite <- (app_nil_r (repeat 49%N (Z.to_nat 4301))).
    apply (proj2 (classifier_ignores_run 2024 (State [] None None None []) 0
                    [] (repeat 49%N (Z.to_nat 4301)) [] Hones
                    ltac:(rewrite repeat_length; lia))).
    + unfold within_limit. rewrite repeat_length. reflexivity.
    + constructor.
    + constructor.
Defined.

(** ** The two-candidate rule: text around the date *)


























